(** * Orchestrator HTTP API: a shallow embedding of [go/http/api.go]

    The handlers of [HttpAPI] are embedded as programs over the calls they
    make into the packages [inst], [logic], [agent], [process] and [config].
    A handler either replies once through [r.JSON] or dies on a nil-pointer
    dereference.  The engines behind the calls (relocation, regroup,
    recovery bookkeeping) are not part of this file of the repository; where
    a property is about them they are modelled from the specification and
    marked as such. *)

From Stdlib Require Import ZArith Ascii String Lia.
From stdpp Require Import base option list gmap strings pretty.

Local Open Scope string_scope.
Local Open Scope Z_scope.

(** ** Go values *)

(** An [error] value is represented by the text its [Error()] method
    returns; the nil error is [None]. *)
Definition error : Type := string.

(** A structure the handlers only pass on to the JSON renderer, by its
    rendering. *)
Inductive Blob : Type := blob (json : string).

#[global] Instance Blob_inhabited : Inhabited Blob := populate (blob "").

(** ** package strconv (Go standard library), base 10 and [bitSize] 0 on a
    64-bit platform *)
Module strconv.

Inductive NumErrorKind : Type := ErrSyntax | ErrRange.

Record NumError : Type := { Func : string; Num : string; Err : NumErrorKind }.

Definition maxUint64 : Z := 18446744073709551615.

Definition digit (c : ascii) : option Z :=
  let n := Z.of_N (N_of_ascii c) in
  if (48 <=? n) && (n <=? 57) then Some (n - 48) else None.

(** The loop of [ParseUint]: a byte that is no decimal digit is a syntax
    error with value 0; an overflow stops at once with the largest value. *)
Fixpoint ParseUint_loop (s : string) (n : Z) : Z * option NumErrorKind :=
  match s with
  | EmptyString => (n, None)
  | String c s' =>
      match digit c with
      | None => (0, Some ErrSyntax)
      | Some d =>
          if n >=? maxUint64 / 10 + 1 then (maxUint64, Some ErrRange)
          else
            let n1 := n * 10 + d in
            if n1 >? maxUint64 then (maxUint64, Some ErrRange)
            else ParseUint_loop s' n1
      end
  end.

Definition ParseUint (s : string) : Z * option NumErrorKind :=
  match s with
  | EmptyString => (0, Some ErrSyntax)
  | _ => ParseUint_loop s 0
  end.

Definition syntaxError (fn s : string) : NumError :=
  {| Func := fn; Num := s; Err := ErrSyntax |}.

Definition rangeError (fn s : string) : NumError :=
  {| Func := fn; Num := s; Err := ErrRange |}.

(** [strconv.ParseInt(s, 10, 0)]. *)
Definition ParseInt (s0 : string) : Z * option NumError :=
  match s0 with
  | EmptyString => (0, Some (syntaxError "ParseInt" s0))
  | String c rest =>
      let neg := Ascii.eqb c "-" in
      let s := if Ascii.eqb c "+" || neg then rest else s0 in
      match ParseUint s with
      | (_, Some ErrSyntax) => (0, Some (syntaxError "ParseInt" s0))
      | (un, _) =>
          let cutoff := 2 ^ 63 in
          if negb neg && (un >=? cutoff) then
            (cutoff - 1, Some (rangeError "ParseInt" s0))
          else if neg && (un >? cutoff) then
            (- cutoff, Some (rangeError "ParseInt" s0))
          else (if neg then - un else un, None)
      end
  end.

(** [strconv.Atoi(s)]: [ParseInt(s, 10, 0)] converted to [int]. *)
Definition Atoi (s : string) : Z * option NumError :=
  match ParseInt s with
  | (n, Some e) => (n, Some {| Func := "Atoi"; Num := Num e; Err := Err e |})
  | (n, None) => (n, None)
  end.

Definition kind_text (k : NumErrorKind) : string :=
  match k with
  | ErrSyntax => "invalid syntax"
  | ErrRange => "value out of range"
  end.

(** The [Error()] method of [NumError], over the quoting function of the package. *)
Definition Error (Quote : string -> string) (e : NumError) : error :=
  "strconv." +:+ Func e +:+ ": parsing " +:+ Quote (Num e) +:+ ": " +:+ kind_text (Err e).

End strconv.

(** ** package inst: the data the handlers exchange with the core *)
Module inst.

(** Modelled from the spec: the type declarations of package [inst] are
    not in [api.go]; the records follow the data model of the specification
    (InstanceKey, BinlogCoordinates, GtidSet, Instance), with the field
    names [api.go] reads ([Key], [ClusterName], [RelaylogCoordinates]). *)
Record InstanceKey : Type := { Hostname : string; Port : Z }.

#[global] Instance InstanceKey_eq_dec : EqDecision InstanceKey.
Proof. solve_decision. Defined.

#[global] Instance InstanceKey_countable : Countable InstanceKey.
Proof.
  refine (inj_countable' (fun k => (Hostname k, Port k))
                         (fun p => {| Hostname := p.1; Port := p.2 |}) _).
  intros []. reflexivity.
Defined.

#[global] Instance InstanceKey_inhabited : Inhabited InstanceKey :=
  populate {| Hostname := ""; Port := 0 |}.

Record BinlogCoordinates : Type := { LogFile : string; LogPos : Z }.

#[global] Instance BinlogCoordinates_eq_dec : EqDecision BinlogCoordinates.
Proof. solve_decision. Defined.

#[global] Instance BinlogCoordinates_inhabited : Inhabited BinlogCoordinates :=
  populate {| LogFile := ""; LogPos := 0 |}.

Record InstanceBinlogCoordinates : Type :=
  { CoordinatesKey : InstanceKey; Coordinates : BinlogCoordinates }.

(** Source UUID to its executed intervals. *)
Definition GtidSet : Type := gmap string (list (Z * Z)).

Inductive CandidatePromotionRule : Type :=
  must | prefer | neutral | prefer_not | must_not.

#[global] Instance CandidatePromotionRule_eq_dec : EqDecision CandidatePromotionRule.
Proof. solve_decision. Defined.

#[global] Instance CandidatePromotionRule_inhabited : Inhabited CandidatePromotionRule :=
  populate neutral.

Record Instance : Type := {
  Key : InstanceKey;
  ServerId : Z;
  Version : Z;
  LogBinEnabled : bool;
  IsBinlogServer : bool;
  UsingPseudoGtid : bool;
  UpstreamKey : InstanceKey;
  ReplicaIoRunning : bool;
  ReplicaSqlRunning : bool;
  ExecutedGtidSet : GtidSet;
  UsingGtid : bool;
  SelfCoordinates : BinlogCoordinates;
  ExecBinlogCoordinates : BinlogCoordinates;
  RelaylogCoordinates : BinlogCoordinates;
  ClusterName : string;
  DataCenter : string;
  PromotionRule : CandidatePromotionRule;
  IsLastCheckValid : bool
}.

End inst.

(** ** package logic: recovery records *)
Module logic.

(** Modelled from the spec: the record types of package [logic] are not in
    [api.go]; AnalysisEntry and TopologyRecovery follow the data model of
    the specification.  [EndRecovery = None] is the NULL of an active
    recovery. *)
Inductive AnalysisCode : Type :=
| NoProblem
| DeadPrimary
| DeadPrimaryAndSomeReplicas
| DeadIntermediatePrimary
| UnreachablePrimary
| AllPrimaryReplicasNotReplicating
| FirstTierReplicaFailingToConnectToPrimary
| BinlogServerFailure.

#[global] Instance AnalysisCode_eq_dec : EqDecision AnalysisCode.
Proof. solve_decision. Defined.

Record AnalysisEntry : Type := {
  Analysis : AnalysisCode;
  AnalysisClusterName : string;
  AnalyzedInstanceKey : inst.InstanceKey;
  CountReplicas : Z;
  IsDowntimed : bool
}.

Record TopologyRecovery : Type := {
  Id : Z;
  AnalysisEntrySnapshot : AnalysisEntry;
  StartActive : Z;
  EndRecovery : option Z;
  SuccessorKey : option inst.InstanceKey;
  IsSuccessful : bool;
  Acknowledged : bool;
  AckBy : string;
  AckComment : string
}.

End logic.

(** ** The HTTP side: requests, responses, the response envelope *)

(** [auth.User]. *)
Definition User : Type := string.

(** [martini.Params]: the named segments of the matched route. *)
Abbreviation Params := (gmap string string).

(** [params[name]]: the empty string when the route has no such segment. *)
Definition param (params : Params) (name : string) : string :=
  default "" (params !! name).

(** [*http.Request], as far as the handlers read it. *)
Record Request : Type := {
  URL_Query : gmap string (list string);
  Header : Blob
}.

(** [req.URL.Query().Get(key)]: the first value of the key, or the empty
    string. *)
Definition Query_Get (req : Request) (key : string) : string :=
  match URL_Query req !! key with
  | Some (v :: _) => v
  | _ => ""
  end.

(** [interface{}]: what a handler hands to the renderer as a body or as
    the [Details] of the envelope. *)
Inductive Value : Type :=
| Nil
| Bool (b : bool)
| Int (n : Z)
| Str (s : string)
| Strings (l : list string)
| KeyValue (k : inst.InstanceKey)
| InstancePtr (i : option inst.Instance)
| Instances (l : list (option inst.Instance))
| EquivalentCoordinates (l : list inst.InstanceBinlogCoordinates)
| Recoveries (l : list logic.TopologyRecovery)
| StringsMap (m : list (string * list string))
| Opaque (b : Blob).

(** [type APIResponseCode int], with [ERROR = iota] and [OK] next. *)
Definition APIResponseCode : Type := Z.
Definition ERROR : APIResponseCode := 0.
Definition OK : APIResponseCode := 1.

Definition APIResponseCode_String (this : APIResponseCode) : string :=
  if this =? ERROR then "ERROR"
  else if this =? OK then "OK"
  else "unknown".

(** [json.Marshal] of a string without characters to escape: the string
    between double quotes. *)
Definition json_Marshal_plain (s : string) : string :=
  String (ascii_of_nat 34) (s +:+ String (ascii_of_nat 34) EmptyString).

Definition APIResponseCode_MarshalJSON (this : APIResponseCode) : string :=
  json_Marshal_plain (APIResponseCode_String this).

Record APIResponse : Type := {
  Code : APIResponseCode;
  Message : string;
  Details : Value
}.

(** What [r.JSON(status, v)] is given: the envelope or a bare result. *)
Inductive Body : Type :=
| Envelope (a : APIResponse)
| Result (v : Value).

Record Response : Type := { Status : Z; Payload : Body }.

(** The part of the process the handlers consult without a call into the
    core: the helpers of package [http] defined beside [api.go], and the
    formatting done by [fmt], [strconv] and [golib]. *)
Class HttpEnv : Type := {
  isAuthorizedForAction : Request -> User -> bool;
  getUserId : Request -> User -> string;
  Quote : string -> string;
  SimpleTimeToSeconds : string -> Z * option error;
  DisplayString : inst.InstanceKey -> string;
  fmt_InstanceKey : inst.InstanceKey -> string;
  fmt_BinlogCoordinates : inst.BinlogCoordinates -> string
}.

(** [fmt.Sprintf("%+v", errs)] for a slice of errors. *)
Definition fmt_errors (errs : list error) : string :=
  "[" +:+ String.concat " " errs +:+ "]".

(** [fmt.Sprintf("%d", n)]. *)
Definition fmt_d (n : Z) : string := pretty n.

(** [len(s)] as an [int]. *)
Definition len {A : Type} (s : list A) : Z := Z.of_nat (length s).

(** ** package config *)
Module config.

Record Configuration : Type := {
  ServeAgentsHttp : bool;
  StatusSimpleHealth : bool;
  RecoverMasterClusterFilters : list string;
  RecoverIntermediateMasterClusterFilters : list string;
  RecoveryIgnoreHostnameFilters : list string;
  StatusEndpoint : string
}.

#[global] Instance Configuration_inhabited : Inhabited Configuration :=
  populate {| ServeAgentsHttp := false; StatusSimpleHealth := false;
              RecoverMasterClusterFilters := [];
              RecoverIntermediateMasterClusterFilters := [];
              RecoveryIgnoreHostnameFilters := [];
              StatusEndpoint := "/api/status" |}.

End config.

(** ** The calls a handler makes into the core

    One constructor per function of the packages [config], [net], [inst],
    [agent], [process] and [logic] that [api.go] calls, with the arguments
    of the call sites.  A pointer argument that may be nil is an option. *)
Inductive Call : Type :=
| config_Config
| config_Reload
| net_Dial (network address : string)
| net_Conn_Close
| inst_NewInstanceKeyFromStrings (hostname port : string)
| inst_NewRawInstanceKey (hostPort : string)
| inst_ReadInstance (instanceKey : inst.InstanceKey)
| inst_ReadTopologyInstance (instanceKey : inst.InstanceKey)
| inst_RefreshTopologyInstance (instanceKey : inst.InstanceKey)
| inst_ForgetInstance (instanceKey : option inst.InstanceKey)
| inst_BeginBoundedMaintenance (instanceKey : inst.InstanceKey)
    (owner reason : string) (durationSeconds : Z) (explicitlyBounded : bool)
| inst_EndMaintenance (maintenanceToken : Z)
| inst_EndMaintenanceByInstanceKey (instanceKey : inst.InstanceKey)
| inst_ReadActiveMaintenance
| inst_BeginDowntime (instanceKey : inst.InstanceKey)
    (owner reason : string) (durationSeconds : Z)
| inst_EndDowntime (instanceKey : inst.InstanceKey)
| inst_MoveUp (instanceKey : inst.InstanceKey)
| inst_MoveUpSlaves (instanceKey : inst.InstanceKey) (pattern : string)
| inst_RepointSlaves (instanceKey : inst.InstanceKey) (pattern : string)
| inst_MakeCoMaster (instanceKey : inst.InstanceKey)
| inst_ResetSlaveOperation (instanceKey : inst.InstanceKey)
| inst_DetachSlaveOperation (instanceKey : inst.InstanceKey)
| inst_ReattachSlaveOperation (instanceKey : inst.InstanceKey)
| inst_ReattachSlaveMasterHost (instanceKey : inst.InstanceKey)
| inst_EnableGTID (instanceKey : inst.InstanceKey)
| inst_DisableGTID (instanceKey : inst.InstanceKey)
| inst_MoveBelow (instanceKey siblingKey : inst.InstanceKey)
| inst_MoveBelowGTID (instanceKey otherKey : inst.InstanceKey)
| inst_MoveSlavesGTID (masterKey belowKey : inst.InstanceKey) (pattern : string)
| inst_EnslaveSiblings (instanceKey : inst.InstanceKey)
| inst_EnslaveMaster (instanceKey : inst.InstanceKey)
| inst_RelocateBelow (instanceKey otherKey : inst.InstanceKey)
| inst_RelocateSlaves (instanceKey otherKey : inst.InstanceKey) (pattern : string)
| inst_MoveEquivalent (instanceKey otherKey : inst.InstanceKey)
| inst_FindLastPseudoGTIDEntry (instance : inst.Instance)
    (recordedInstanceRelayLogCoordinates : inst.BinlogCoordinates)
    (exhaustiveSearch : bool)
| inst_MatchBelow (instanceKey otherKey : inst.InstanceKey)
    (requireInstanceMaintenance : bool)
| inst_MatchUp (instanceKey : inst.InstanceKey) (requireInstanceMaintenance : bool)
| inst_MultiMatchSlaves (masterKey belowKey : inst.InstanceKey) (pattern : string)
| inst_MatchUpSlaves (masterKey : inst.InstanceKey) (pattern : string)
| inst_RegroupSlaves (masterKey : inst.InstanceKey)
    (returnSlaveEvenOnFailureToRegroup : bool)
| inst_RegroupSlavesPseudoGTID (masterKey : inst.InstanceKey)
    (returnSlaveEvenOnFailureToRegroup : bool)
| inst_RegroupSlavesGTID (masterKey : inst.InstanceKey)
    (returnSlaveEvenOnFailureToRegroup : bool)
| inst_RegroupSlavesBinlogServers (masterKey : inst.InstanceKey)
    (returnSlaveEvenOnFailureToRegroup : bool)
| inst_MakeMaster (instanceKey : inst.InstanceKey)
| inst_MakeLocalMaster (instanceKey : inst.InstanceKey)
| inst_SkipQuery (instanceKey : inst.InstanceKey)
| inst_StartSlave (instanceKey : inst.InstanceKey)
| inst_RestartSlave (instanceKey : inst.InstanceKey)
| inst_StopSlave (instanceKey : inst.InstanceKey)
| inst_StopSlaveNicely (instanceKey : inst.InstanceKey) (timeout : Z)
| inst_GetEquivalentMasterCoordinates
    (instanceCoordinates : inst.InstanceBinlogCoordinates)
| inst_SetReadOnly (instanceKey : inst.InstanceKey) (readOnly : bool)
| inst_KillQuery (instanceKey : inst.InstanceKey) (process : Z)
| inst_ReadClusterInstances (clusterName : string)
| inst_GetClusterByAlias (alias : string)
| inst_ReadClusterInfo (clusterName : string)
| inst_GetClusterOSCSlaves (clusterName : string)
| inst_SetClusterAlias (clusterName alias : string)
| inst_ReadClusters
| inst_ReadClustersInfo (clusterName : string)
| inst_SearchInstances (searchString : string)
| inst_ReadProblemInstances (clusterName : string)
| inst_ReadRecentAudit (instanceKey : option inst.InstanceKey) (page : Z)
| inst_ReadLongRunningProcesses (filter : string)
| inst_HostnameResolveCache
| inst_ResetHostnameResolveCache
| inst_ApplyPoolInstances (pool instances : string)
| inst_ReadClusterPoolInstancesMap (clusterName pool : string)
| inst_ReadClusterNameByAlias (alias : string)
| inst_GetHeuristicClusterPoolInstances (clusterName pool : string)
| inst_GetHeuristicClusterPoolInstancesLag (clusterName pool : string)
| inst_AuditOperation (auditType : string)
    (instanceKey : option inst.InstanceKey) (message : string)
| inst_GetReplicationAnalysis (clusterName : string)
    (includeDowntimed auditAnalysis : bool)
| inst_ParseCandidatePromotionRule (ruleName : string)
| inst_RegisterCandidateInstance (instanceKey : inst.InstanceKey)
    (promotionRule : inst.CandidatePromotionRule)
| inst_ReadReplicationAnalysisChangelog
| inst_GetMaintenanceOwner
| agent_ReadAgents
| agent_GetAgent (hostname : string)
| agent_Unmount (hostname : string)
| agent_MountLV (hostname lv : string)
| agent_CreateSnapshot (hostname : string)
| agent_RemoveLV (hostname lv : string)
| agent_MySQLStop (hostname : string)
| agent_MySQLStart (hostname : string)
| agent_CustomCommand (hostname cmd : string)
| agent_Seed (targetHostname sourceHostname : string)
| agent_ReadActiveSeedsForHost (hostname : string)
| agent_ReadRecentCompletedSeedsForHost (hostname : string)
| agent_AgentSeedDetails (seedId : Z)
| agent_ReadSeedStates (seedId : Z)
| agent_ReadRecentSeeds
| agent_AbortSeed (seedId : Z)
| process_HealthTest
| process_SimpleHealthTest
| process_GrabElection
| process_Reelect
| logic_CheckAndRecover (specificInstance : inst.InstanceKey)
    (candidateInstanceKey : option inst.InstanceKey) (skipProcesses : bool)
| logic_ReadFailureDetection (detectionId : Z)
| logic_ReadRecentFailureDetections (page : Z)
| logic_ReadRecovery (recoveryId : Z)
| logic_ReadRecentRecoveries (clusterName : string) (unacknowledgedOnly : bool)
    (page : Z)
| logic_ReadActiveClusterRecovery (clusterName : string)
| logic_ReadRecentlyActiveClusterRecovery (clusterName : string)
| logic_ReadRecentlyActiveInstanceRecovery (instanceKey : inst.InstanceKey)
| logic_AcknowledgeClusterRecoveries (clusterName owner comment : string)
| logic_AcknowledgeInstanceRecoveries (instanceKey : inst.InstanceKey)
    (owner comment : string)
| logic_AcknowledgeRecovery (recoveryId : Z) (owner comment : string)
| logic_ReadBlockedRecoveries (clusterName : string).

(** What each call returns, as the tuple of its Go results: a pointer result
    is an option (nil is [None]), an [error] result is an option. *)
Definition answer (c : Call) : Type :=
  match c with
  | config_Config => config.Configuration
  | config_Reload | net_Conn_Close => unit
  | inst_GetMaintenanceOwner => string
  | net_Dial _ _ | inst_ForgetInstance _ | inst_EndMaintenance _
  | inst_EndMaintenanceByInstanceKey _ | inst_BeginDowntime _ _ _ _
  | inst_EndDowntime _ | inst_SetClusterAlias _ _
  | inst_ResetHostnameResolveCache | inst_ApplyPoolInstances _ _
  | inst_RegisterCandidateInstance _ _ | inst_AuditOperation _ _ _
  | agent_AbortSeed _ | process_GrabElection | process_Reelect =>
      option error
  | inst_NewInstanceKeyFromStrings _ _ | inst_NewRawInstanceKey _ =>
      option inst.InstanceKey * option error
  | inst_ReadInstance _ => option inst.Instance * bool * option error
  | inst_ReadTopologyInstance _ | inst_RefreshTopologyInstance _
  | inst_MoveUp _ | inst_MakeCoMaster _ | inst_ResetSlaveOperation _
  | inst_DetachSlaveOperation _ | inst_ReattachSlaveOperation _
  | inst_ReattachSlaveMasterHost _ | inst_EnableGTID _ | inst_DisableGTID _
  | inst_MoveBelow _ _ | inst_MoveBelowGTID _ _ | inst_EnslaveMaster _
  | inst_RelocateBelow _ _ | inst_MoveEquivalent _ _ | inst_MakeMaster _
  | inst_MakeLocalMaster _ | inst_SkipQuery _ | inst_StartSlave _
  | inst_RestartSlave _ | inst_StopSlave _ | inst_StopSlaveNicely _ _
  | inst_SetReadOnly _ _ | inst_KillQuery _ _ =>
      option inst.Instance * option error
  | inst_BeginBoundedMaintenance _ _ _ _ _ => Z * option error
  | inst_EnslaveSiblings _ => option inst.Instance * Z * option error
  | inst_MoveUpSlaves _ _ | inst_MatchUpSlaves _ _ | inst_MultiMatchSlaves _ _ _
  | inst_MoveSlavesGTID _ _ _ | inst_RelocateSlaves _ _ _ =>
      list (option inst.Instance) * option inst.Instance * option error
      * list error
  | inst_RepointSlaves _ _ =>
      list (option inst.Instance) * option error * list error
  | inst_FindLastPseudoGTIDEntry _ _ _ =>
      option inst.BinlogCoordinates * string * option error
  | inst_MatchBelow _ _ _ | inst_MatchUp _ _ =>
      option inst.Instance * option inst.BinlogCoordinates * option error
  | inst_RegroupSlaves _ _ | inst_RegroupSlavesPseudoGTID _ _ =>
      list (option inst.Instance) * list (option inst.Instance)
      * list (option inst.Instance) * list (option inst.Instance)
      * option inst.Instance * option error
  | inst_RegroupSlavesGTID _ _ =>
      list (option inst.Instance) * list (option inst.Instance)
      * list (option inst.Instance) * option inst.Instance * option error
  | inst_RegroupSlavesBinlogServers _ _ =>
      list (option inst.Instance) * option inst.Instance * option error
  | inst_GetEquivalentMasterCoordinates _ =>
      list inst.InstanceBinlogCoordinates * option error
  | inst_ReadClusterInstances _ | inst_GetClusterOSCSlaves _
  | inst_SearchInstances _ | inst_ReadProblemInstances _
  | inst_GetHeuristicClusterPoolInstances _ _ =>
      list (option inst.Instance) * option error
  | inst_GetClusterByAlias _ | inst_ReadClusterNameByAlias _ =>
      string * option error
  | inst_ReadClusters => list string * option error
  | inst_GetHeuristicClusterPoolInstancesLag _ _ => Z * option error
  | inst_ParseCandidatePromotionRule _ =>
      inst.CandidatePromotionRule * option error
  | inst_ReadActiveMaintenance | inst_ReadClusterInfo _ | inst_ReadClustersInfo _
  | inst_ReadRecentAudit _ _ | inst_ReadLongRunningProcesses _
  | inst_HostnameResolveCache | inst_ReadClusterPoolInstancesMap _ _
  | inst_GetReplicationAnalysis _ _ _ | inst_ReadReplicationAnalysisChangelog
  | agent_ReadAgents | agent_GetAgent _ | agent_Unmount _ | agent_MountLV _ _
  | agent_CreateSnapshot _ | agent_RemoveLV _ _ | agent_MySQLStop _
  | agent_MySQLStart _ | agent_CustomCommand _ _ | agent_Seed _ _
  | agent_ReadActiveSeedsForHost _ | agent_ReadRecentCompletedSeedsForHost _
  | agent_AgentSeedDetails _ | agent_ReadSeedStates _ | agent_ReadRecentSeeds
  | process_HealthTest | process_SimpleHealthTest
  | logic_ReadBlockedRecoveries _ =>
      Blob * option error
  | logic_CheckAndRecover _ _ _ => bool * option inst.InstanceKey * option error
  | logic_ReadFailureDetection _ | logic_ReadRecentFailureDetections _
  | logic_ReadRecovery _ | logic_ReadRecentRecoveries _ _ _
  | logic_ReadActiveClusterRecovery _ | logic_ReadRecentlyActiveClusterRecovery _
  | logic_ReadRecentlyActiveInstanceRecovery _ =>
      list logic.TopologyRecovery * option error
  | logic_AcknowledgeClusterRecoveries _ _ _
  | logic_AcknowledgeInstanceRecoveries _ _ _ | logic_AcknowledgeRecovery _ _ _ =>
      Z * option error
  end.

(** Every call has some answer: the zero value of each result. *)
Definition zero_answer (c : Call) : answer c.
Proof. destruct c; exact inhabitant. Defined.

(** ** Handler programs *)

(** A handler run: it replies ([Done]), dies on a nil dereference
    ([Panic]), or makes a call and goes on with its answer. *)
Inductive Prog (R : Type) : Type :=
| Done (r : R)
| Panic
| Do (c : Call) (k : answer c -> Prog R).

Arguments Done {R} r.
Arguments Panic {R}.
Arguments Do {R} c k.

Fixpoint Prog_bind {A B : Type} (p : Prog A) (f : A -> Prog B) : Prog B :=
  match p with
  | Done a => f a
  | Panic => Panic
  | Do c k => Do c (fun x => Prog_bind (k x) f)
  end.

#[global] Instance Prog_ret : MRet Prog := fun A a => Done a.
#[global] Instance Prog_mbind : MBind Prog := fun A B f p => Prog_bind p f.

Definition call (c : Call) : Prog (answer c) := Do c Done.

(** Reading through a pointer. *)
Definition deref {A : Type} (p : option A) : Prog A :=
  match p with
  | Some a => Done a
  | None => Panic
  end.

(** [r.JSON(status, &APIResponse{...}); return]. *)
Definition JSON (status : Z) (a : APIResponse) : Prog Response :=
  Done {| Status := status; Payload := Envelope a |}.

(** [r.JSON(status, v); return] for a bare value. *)
Definition JSON_value (status : Z) (v : Value) : Prog Response :=
  Done {| Status := status; Payload := Result v |}.

(** The core behind the calls: a state and the effect of each call on it. *)
Record Backend : Type := {
  World : Type;
  perform : forall c : Call, World -> answer c * World
}.

Inductive Outcome (R : Type) : Type :=
| Replied (r : R)
| Panicked.

Arguments Replied {R} r.
Arguments Panicked {R}.

(** A call together with the answer it got. *)
Definition Event : Type := { c : Call & answer c }.

Definition event (c : Call) (a : answer c) : Event := existT c a.

Definition call_of (e : Event) : Call := projT1 e.

(** Running a handler against a backend: the outcome, the calls made in
    order with their answers, and the final state. *)
Fixpoint run {R : Type} (B : Backend) (p : Prog R) (w : World B)
  : Outcome R * list Event * World B :=
  match p with
  | Done r => (Replied r, [], w)
  | Panic => (Panicked, [], w)
  | Do c k =>
      let '(a, w1) := perform B c w in
      let '(o, events, w2) := run B (k a) w1 in
      (o, event c a :: events, w2)
  end.

(** A backend without state that answers every call from a table. *)
Definition scripted (script : forall c : Call, answer c) : Backend :=
  {| World := unit; perform := fun c w => (script c, w) |}.

(** ** Routing (package martini)

    Modelled after the router of the martini library, which is not part of
    the repository: a pattern is a sequence of segments separated by
    slashes, a segment [:name] matches one non-empty path segment without
    [#] and [?] and binds it to [name], the path may end in one extra
    slash, and the first registered route that matches is taken. *)
Module martini.

Inductive Segment : Type :=
| Lit (s : string)
| Named (name : string).

Fixpoint split_slash (s : string) : list string :=
  match s with
  | EmptyString => [EmptyString]
  | String c s' =>
      if Ascii.eqb c "/" then EmptyString :: split_slash s'
      else
        match split_slash s' with
        | w :: ws => String c w :: ws
        | [] => [String c EmptyString]
        end
  end.

Definition segment (s : string) : Segment :=
  match s with
  | String c name => if Ascii.eqb c ":" then Named name else Lit s
  | EmptyString => Lit s
  end.

(** The segments after the leading slash. *)
Definition segments (path : string) : option (list string) :=
  match split_slash path with
  | EmptyString :: rest => Some rest
  | _ => None
  end.

Fixpoint plain (s : string) : bool :=
  match s with
  | EmptyString => true
  | String c s' => negb (Ascii.eqb c "#") && negb (Ascii.eqb c "?") && plain s'
  end.

Fixpoint bind_segments (pattern : list Segment) (path : list string)
  (params : Params) : option Params :=
  match pattern, path with
  | [], [] => Some params
  | [], [EmptyString] => Some params
  | Lit s :: pattern', v :: path' =>
      if String.eqb s v then bind_segments pattern' path' params else None
  | Named name :: pattern', v :: path' =>
      if negb (String.eqb v "") && plain v then
        bind_segments pattern' path' (<[name := v]> params)
      else None
  | _, _ => None
  end.

(** The parameters of [path] under [pattern], when it matches. *)
Definition match_route (pattern path : string) : option Params :=
  match segments pattern, segments path with
  | Some pat, Some segs => bind_segments (segment <$> pat) segs ∅
  | _, _ => None
  end.

#[global] Instance Segment_eq_dec : EqDecision Segment.
Proof. solve_decision. Defined.

(** The handler of the first route registered under [pattern]. *)
Fixpoint first_handler {H : Type} (routes : list (string * H)) (pattern : string)
  : option H :=
  match routes with
  | [] => None
  | (p, h) :: routes' =>
      if String.eqb p pattern then Some h else first_handler routes' pattern
  end.

(** The first route that matches, with the parameters it binds. *)
Fixpoint route {H : Type} (routes : list (string * H)) (path : string)
  : option (string * H * Params) :=
  match routes with
  | [] => None
  | (pattern, h) :: routes' =>
      match match_route pattern path with
      | Some params => Some (pattern, h, params)
      | None => route routes' path
      end
  end.

End martini.

(** ** The handlers of [HttpAPI], in the order of [api.go] *)
Module HttpAPI.

Definition not_nil {A : Type} (p : option A) : bool :=
  match p with
  | Some _ => true
  | None => false
  end.

(** [r.JSON(200, &APIResponse{Code: ERROR, Message: msg}); return]. *)
Definition reply_error (msg : string) : Prog Response :=
  JSON 200 {| Code := ERROR; Message := msg; Details := Nil |}.

(** [if err != nil { r.JSON(200, &APIResponse{Code: ERROR, Message:
    err.Error()}); return }], then the rest of the handler. *)
Notation "'check' err ; k" :=
  (match err with Some e => reply_error e | None => k end)
  (at level 20, err at level 9, k at level 200, only parsing).

Section Handlers.
Context {env : HttpEnv}.

Definition getInstanceKey (host port : string)
  : Prog (inst.InstanceKey * option error) :=
  '(instanceKey, err) ← call (inst_NewInstanceKeyFromStrings host port);
  instanceKey ← deref instanceKey;
  mret (instanceKey, err).

Definition getBinlogCoordinates (logFile logPos : string)
  : inst.BinlogCoordinates * option error :=
  let '(pos, err) := strconv.ParseInt logPos in
  let coordinates := {| inst.LogFile := logFile; inst.LogPos := pos |} in
  match err with
  | Some _ => (coordinates, Some ("Invalid logPos: " +:+ logPos))
  | None => (coordinates, None)
  end.

Definition Instance (params : Params) (req : Request) : Prog Response :=
  '(instanceKey, err) ← getInstanceKey (param params "host") (param params "port");
  check err;
  '(instance, found, err) ← call (inst_ReadInstance instanceKey);
  if negb found || not_nil err then
    reply_error ("Cannot read instance: " +:+ fmt_InstanceKey instanceKey)
  else JSON_value 200 (InstancePtr instance).

Definition Discover (params : Params) (req : Request) (user : User) : Prog Response :=
  if negb (isAuthorizedForAction req user) then reply_error "Unauthorized" else
  '(instanceKey, err) ← getInstanceKey (param params "host") (param params "port");
  check err;
  '(instance, err) ← call (inst_ReadTopologyInstance instanceKey);
  check err;
  i ← deref instance;
  JSON 200 {| Code := OK;
              Message := "Instance discovered: " +:+ fmt_InstanceKey (inst.Key i);
              Details := InstancePtr instance |}.

Definition Refresh (params : Params) (req : Request) (user : User) : Prog Response :=
  if negb (isAuthorizedForAction req user) then reply_error "Unauthorized" else
  '(instanceKey, err) ← getInstanceKey (param params "host") (param params "port");
  check err;
  '(_, err) ← call (inst_RefreshTopologyInstance instanceKey);
  check err;
  JSON 200 {| Code := OK;
              Message := "Instance refreshed: " +:+ fmt_InstanceKey instanceKey;
              Details := KeyValue instanceKey |}.

(** The error of [NewRawInstanceKey] is dropped; the key pointer is handed
    to [ForgetInstance] as it is and then dereferenced for the message. *)
Definition Forget (params : Params) (req : Request) (user : User) : Prog Response :=
  if negb (isAuthorizedForAction req user) then reply_error "Unauthorized" else
  '(rawInstanceKey, _) ←
    call (inst_NewRawInstanceKey (param params "host" +:+ ":" +:+ param params "port"));
  _ ← call (inst_ForgetInstance rawInstanceKey);
  k ← deref rawInstanceKey;
  JSON 200 {| Code := OK;
              Message := "Instance forgotten: " +:+ fmt_InstanceKey k;
              Details := Nil |}.

Definition Resolve (params : Params) (req : Request) : Prog Response :=
  '(instanceKey, err) ← getInstanceKey (param params "host") (param params "port");
  check err;
  err ← call (net_Dial "tcp" (DisplayString instanceKey));
  match err with
  | None =>
      _ ← call net_Conn_Close;
      JSON 200 {| Code := OK; Message := "Instance resolved";
                  Details := KeyValue instanceKey |}
  | Some e => reply_error e
  end.

Definition BeginMaintenance (params : Params) (req : Request) (user : User)
  : Prog Response :=
  if negb (isAuthorizedForAction req user) then reply_error "Unauthorized" else
  '(instanceKey, err) ← getInstanceKey (param params "host") (param params "port");
  check err;
  '(key, err) ← call (inst_BeginBoundedMaintenance instanceKey
                        (param params "owner") (param params "reason") 0 true);
  match err with
  | Some e => JSON 200 {| Code := ERROR; Message := e; Details := Int key |}
  | None =>
      JSON 200 {| Code := OK;
                  Message := "Maintenance begun: " +:+ fmt_InstanceKey instanceKey;
                  Details := Nil |}
  end.

Definition EndMaintenance (params : Params) (req : Request) (user : User)
  : Prog Response :=
  if negb (isAuthorizedForAction req user) then reply_error "Unauthorized" else
  let '(maintenanceKey, err) := strconv.ParseInt (param params "maintenanceKey") in
  check (strconv.Error Quote <$> err);
  err ← call (inst_EndMaintenance maintenanceKey);
  check err;
  JSON 200 {| Code := OK;
              Message := "Maintenance ended: " +:+ fmt_d maintenanceKey;
              Details := Nil |}.

Definition EndMaintenanceByInstanceKey (params : Params) (req : Request) (user : User)
  : Prog Response :=
  if negb (isAuthorizedForAction req user) then reply_error "Unauthorized" else
  '(instanceKey, err) ← getInstanceKey (param params "host") (param params "port");
  check err;
  err ← call (inst_EndMaintenanceByInstanceKey instanceKey);
  check err;
  JSON 200 {| Code := OK;
              Message := "Maintenance ended: " +:+ fmt_InstanceKey instanceKey;
              Details := Nil |}.

Definition Maintenance (params : Params) (req : Request) : Prog Response :=
  '(instanceKeys, err) ← call inst_ReadActiveMaintenance;
  check err;
  JSON_value 200 (Opaque instanceKeys).

Definition BeginDowntime (params : Params) (req : Request) (user : User)
  : Prog Response :=
  if negb (isAuthorizedForAction req user) then reply_error "Unauthorized" else
  '(instanceKey, err) ← getInstanceKey (param params "host") (param params "port");
  check err;
  let begin (durationSeconds : Z) : Prog Response :=
    err ← call (inst_BeginDowntime instanceKey (param params "owner")
                  (param params "reason") durationSeconds);
    match err with
    | Some e => JSON 200 {| Code := ERROR; Message := e;
                            Details := KeyValue instanceKey |}
    | None =>
        JSON 200 {| Code := OK;
                    Message := "Downtime begun: " +:+ fmt_InstanceKey instanceKey;
                    Details := Nil |}
    end in
  if String.eqb (param params "duration") "" then begin 0
  else
    let '(durationSeconds, err) := SimpleTimeToSeconds (param params "duration") in
    let err :=
      if durationSeconds <? 0 then
        Some ("Duration value must be non-negative. Given value: "
              +:+ fmt_d durationSeconds)
      else err in
    check err;
    begin durationSeconds.

Definition EndDowntime (params : Params) (req : Request) (user : User)
  : Prog Response :=
  if negb (isAuthorizedForAction req user) then reply_error "Unauthorized" else
  '(instanceKey, err) ← getInstanceKey (param params "host") (param params "port");
  check err;
  err ← call (inst_EndDowntime instanceKey);
  check err;
  JSON 200 {| Code := OK;
              Message := "Downtime ended: " +:+ fmt_InstanceKey instanceKey;
              Details := Nil |}.

Definition MoveUp (params : Params) (req : Request) (user : User) : Prog Response :=
  if negb (isAuthorizedForAction req user) then reply_error "Unauthorized" else
  '(instanceKey, err) ← getInstanceKey (param params "host") (param params "port");
  check err;
  '(instance, err) ← call (inst_MoveUp instanceKey);
  check err;
  JSON 200 {| Code := OK;
              Message := "Instance " +:+ fmt_InstanceKey instanceKey +:+ " moved up";
              Details := InstancePtr instance |}.

Definition MoveUpSlaves (params : Params) (req : Request) (user : User)
  : Prog Response :=
  if negb (isAuthorizedForAction req user) then reply_error "Unauthorized" else
  '(instanceKey, err) ← getInstanceKey (param params "host") (param params "port");
  check err;
  '(slaves, newMaster, err, errs) ←
    call (inst_MoveUpSlaves instanceKey (Query_Get req "pattern"));
  check err;
  m ← deref newMaster;
  JSON 200 {| Code := OK;
              Message := "Moved up " +:+ fmt_d (len slaves) +:+ " slaves of "
                         +:+ fmt_InstanceKey instanceKey +:+ " below "
                         +:+ fmt_InstanceKey (inst.Key m) +:+ "; "
                         +:+ fmt_d (len errs) +:+ " errors: " +:+ fmt_errors errs;
              Details := KeyValue (inst.Key m) |}.

Definition RepointSlaves (params : Params) (req : Request) (user : User)
  : Prog Response :=
  if negb (isAuthorizedForAction req user) then reply_error "Unauthorized" else
  '(instanceKey, err) ← getInstanceKey (param params "host") (param params "port");
  check err;
  '(slaves, err, _) ← call (inst_RepointSlaves instanceKey (Query_Get req "pattern"));
  check err;
  JSON 200 {| Code := OK;
              Message := "Repointed " +:+ fmt_d (len slaves) +:+ " slaves of "
                         +:+ fmt_InstanceKey instanceKey;
              Details := KeyValue instanceKey |}.

Definition MakeCoMaster (params : Params) (req : Request) (user : User)
  : Prog Response :=
  if negb (isAuthorizedForAction req user) then reply_error "Unauthorized" else
  '(instanceKey, err) ← getInstanceKey (param params "host") (param params "port");
  check err;
  '(instance, err) ← call (inst_MakeCoMaster instanceKey);
  check err;
  i ← deref instance;
  JSON 200 {| Code := OK;
              Message := "Instance made co-master: " +:+ fmt_InstanceKey (inst.Key i);
              Details := InstancePtr instance |}.

Definition ResetSlave (params : Params) (req : Request) (user : User)
  : Prog Response :=
  if negb (isAuthorizedForAction req user) then reply_error "Unauthorized" else
  '(instanceKey, err) ← getInstanceKey (param params "host") (param params "port");
  check err;
  '(instance, err) ← call (inst_ResetSlaveOperation instanceKey);
  check err;
  i ← deref instance;
  JSON 200 {| Code := OK;
              Message := "Slave reset on " +:+ fmt_InstanceKey (inst.Key i);
              Details := InstancePtr instance |}.

Definition DetachSlave (params : Params) (req : Request) (user : User)
  : Prog Response :=
  if negb (isAuthorizedForAction req user) then reply_error "Unauthorized" else
  '(instanceKey, err) ← getInstanceKey (param params "host") (param params "port");
  check err;
  '(instance, err) ← call (inst_DetachSlaveOperation instanceKey);
  check err;
  i ← deref instance;
  JSON 200 {| Code := OK;
              Message := "Slave detached: " +:+ fmt_InstanceKey (inst.Key i);
              Details := InstancePtr instance |}.

Definition ReattachSlave (params : Params) (req : Request) (user : User)
  : Prog Response :=
  if negb (isAuthorizedForAction req user) then reply_error "Unauthorized" else
  '(instanceKey, err) ← getInstanceKey (param params "host") (param params "port");
  check err;
  '(instance, err) ← call (inst_ReattachSlaveOperation instanceKey);
  check err;
  i ← deref instance;
  JSON 200 {| Code := OK;
              Message := "Slave reattached: " +:+ fmt_InstanceKey (inst.Key i);
              Details := InstancePtr instance |}.

Definition ReattachSlaveMasterHost (params : Params) (req : Request) (user : User)
  : Prog Response :=
  if negb (isAuthorizedForAction req user) then reply_error "Unauthorized" else
  '(instanceKey, err) ← getInstanceKey (param params "host") (param params "port");
  check err;
  '(instance, err) ← call (inst_ReattachSlaveMasterHost instanceKey);
  check err;
  i ← deref instance;
  JSON 200 {| Code := OK;
              Message := "Slave reattached: " +:+ fmt_InstanceKey (inst.Key i);
              Details := InstancePtr instance |}.

Definition EnableGTID (params : Params) (req : Request) (user : User)
  : Prog Response :=
  if negb (isAuthorizedForAction req user) then reply_error "Unauthorized" else
  '(instanceKey, err) ← getInstanceKey (param params "host") (param params "port");
  check err;
  '(instance, err) ← call (inst_EnableGTID instanceKey);
  check err;
  i ← deref instance;
  JSON 200 {| Code := OK;
              Message := "Enabled GTID on " +:+ fmt_InstanceKey (inst.Key i);
              Details := InstancePtr instance |}.

Definition DisableGTID (params : Params) (req : Request) (user : User)
  : Prog Response :=
  if negb (isAuthorizedForAction req user) then reply_error "Unauthorized" else
  '(instanceKey, err) ← getInstanceKey (param params "host") (param params "port");
  check err;
  '(instance, err) ← call (inst_DisableGTID instanceKey);
  check err;
  i ← deref instance;
  JSON 200 {| Code := OK;
              Message := "Disabled GTID on " +:+ fmt_InstanceKey (inst.Key i);
              Details := InstancePtr instance |}.

Definition MoveBelow (params : Params) (req : Request) (user : User)
  : Prog Response :=
  if negb (isAuthorizedForAction req user) then reply_error "Unauthorized" else
  '(instanceKey, err) ← getInstanceKey (param params "host") (param params "port");
  check err;
  '(siblingKey, err) ←
    getInstanceKey (param params "siblingHost") (param params "siblingPort");
  check err;
  '(instance, err) ← call (inst_MoveBelow instanceKey siblingKey);
  check err;
  JSON 200 {| Code := OK;
              Message := "Instance " +:+ fmt_InstanceKey instanceKey
                         +:+ " moved below " +:+ fmt_InstanceKey siblingKey;
              Details := InstancePtr instance |}.

Definition MoveBelowGTID (params : Params) (req : Request) (user : User)
  : Prog Response :=
  if negb (isAuthorizedForAction req user) then reply_error "Unauthorized" else
  '(instanceKey, err) ← getInstanceKey (param params "host") (param params "port");
  check err;
  '(belowKey, err) ←
    getInstanceKey (param params "belowHost") (param params "belowPort");
  check err;
  '(instance, err) ← call (inst_MoveBelowGTID instanceKey belowKey);
  check err;
  JSON 200 {| Code := OK;
              Message := "Instance " +:+ fmt_InstanceKey instanceKey
                         +:+ " moved below " +:+ fmt_InstanceKey belowKey
                         +:+ " via GTID";
              Details := InstancePtr instance |}.

Definition MoveSlavesGTID (params : Params) (req : Request) (user : User)
  : Prog Response :=
  if negb (isAuthorizedForAction req user) then reply_error "Unauthorized" else
  '(instanceKey, err) ← getInstanceKey (param params "host") (param params "port");
  check err;
  '(belowKey, err) ←
    getInstanceKey (param params "belowHost") (param params "belowPort");
  check err;
  '(movedSlaves, _, err, errs) ←
    call (inst_MoveSlavesGTID instanceKey belowKey (Query_Get req "pattern"));
  check err;
  JSON 200 {| Code := OK;
              Message := "Moved " +:+ fmt_d (len movedSlaves) +:+ " slaves of "
                         +:+ fmt_InstanceKey instanceKey +:+ " below "
                         +:+ fmt_InstanceKey belowKey +:+ " via GTID; "
                         +:+ fmt_d (len errs) +:+ " errors: " +:+ fmt_errors errs;
              Details := KeyValue belowKey |}.

Definition EnslaveSiblings (params : Params) (req : Request) (user : User)
  : Prog Response :=
  if negb (isAuthorizedForAction req user) then reply_error "Unauthorized" else
  '(instanceKey, err) ← getInstanceKey (param params "host") (param params "port");
  check err;
  '(instance, count, err) ← call (inst_EnslaveSiblings instanceKey);
  check err;
  JSON 200 {| Code := OK;
              Message := "Enslaved " +:+ fmt_d count +:+ " siblings of "
                         +:+ fmt_InstanceKey instanceKey;
              Details := InstancePtr instance |}.

Definition EnslaveMaster (params : Params) (req : Request) (user : User)
  : Prog Response :=
  if negb (isAuthorizedForAction req user) then reply_error "Unauthorized" else
  '(instanceKey, err) ← getInstanceKey (param params "host") (param params "port");
  check err;
  '(instance, err) ← call (inst_EnslaveMaster instanceKey);
  check err;
  JSON 200 {| Code := OK;
              Message := fmt_InstanceKey instanceKey +:+ " enslaved its master";
              Details := InstancePtr instance |}.

Definition RelocateBelow (params : Params) (req : Request) (user : User)
  : Prog Response :=
  if negb (isAuthorizedForAction req user) then reply_error "Unauthorized" else
  '(instanceKey, err) ← getInstanceKey (param params "host") (param params "port");
  check err;
  '(belowKey, err) ←
    getInstanceKey (param params "belowHost") (param params "belowPort");
  check err;
  '(instance, err) ← call (inst_RelocateBelow instanceKey belowKey);
  check err;
  JSON 200 {| Code := OK;
              Message := "Instance " +:+ fmt_InstanceKey instanceKey
                         +:+ " relocated below " +:+ fmt_InstanceKey belowKey;
              Details := InstancePtr instance |}.

Definition RelocateSlaves (params : Params) (req : Request) (user : User)
  : Prog Response :=
  if negb (isAuthorizedForAction req user) then reply_error "Unauthorized" else
  '(instanceKey, err) ← getInstanceKey (param params "host") (param params "port");
  check err;
  '(belowKey, err) ←
    getInstanceKey (param params "belowHost") (param params "belowPort");
  check err;
  '(slaves, _, err, errs) ←
    call (inst_RelocateSlaves instanceKey belowKey (Query_Get req "pattern"));
  check err;
  JSON 200 {| Code := OK;
              Message := "Relocated " +:+ fmt_d (len slaves) +:+ " slaves of "
                         +:+ fmt_InstanceKey instanceKey +:+ " below "
                         +:+ fmt_InstanceKey belowKey +:+ "; "
                         +:+ fmt_d (len errs) +:+ " errors: " +:+ fmt_errors errs;
              Details := Instances slaves |}.

Definition MoveEquivalent (params : Params) (req : Request) (user : User)
  : Prog Response :=
  if negb (isAuthorizedForAction req user) then reply_error "Unauthorized" else
  '(instanceKey, err) ← getInstanceKey (param params "host") (param params "port");
  check err;
  '(belowKey, err) ←
    getInstanceKey (param params "belowHost") (param params "belowPort");
  check err;
  '(instance, err) ← call (inst_MoveEquivalent instanceKey belowKey);
  check err;
  JSON 200 {| Code := OK;
              Message := "Instance " +:+ fmt_InstanceKey instanceKey
                         +:+ " relocated via equivalence coordinates below "
                         +:+ fmt_InstanceKey belowKey;
              Details := InstancePtr instance |}.

Definition LastPseudoGTID (params : Params) (req : Request) (user : User)
  : Prog Response :=
  if negb (isAuthorizedForAction req user) then reply_error "Unauthorized" else
  '(instanceKey, err) ← getInstanceKey (param params "host") (param params "port");
  check err;
  '(instance, err) ← call (inst_ReadTopologyInstance instanceKey);
  check err;
  match instance with
  | None => reply_error ("Instance not found: " +:+ fmt_InstanceKey instanceKey)
  | Some i =>
      '(coordinates, text, err) ←
        call (inst_FindLastPseudoGTIDEntry i (inst.RelaylogCoordinates i) false);
      check err;
      check err;
      c ← deref coordinates;
      JSON 200 {| Code := OK; Message := fmt_BinlogCoordinates c;
                  Details := Str text |}
  end.

Definition MatchBelow (params : Params) (req : Request) (user : User)
  : Prog Response :=
  if negb (isAuthorizedForAction req user) then reply_error "Unauthorized" else
  '(instanceKey, err) ← getInstanceKey (param params "host") (param params "port");
  check err;
  '(belowKey, err) ←
    getInstanceKey (param params "belowHost") (param params "belowPort");
  check err;
  '(instance, matchedCoordinates, err) ←
    call (inst_MatchBelow instanceKey belowKey true);
  check err;
  c ← deref matchedCoordinates;
  JSON 200 {| Code := OK;
              Message := "Instance " +:+ fmt_InstanceKey instanceKey
                         +:+ " matched below " +:+ fmt_InstanceKey belowKey
                         +:+ " at " +:+ fmt_BinlogCoordinates c;
              Details := InstancePtr instance |}.

Definition MatchUp (params : Params) (req : Request) (user : User)
  : Prog Response :=
  if negb (isAuthorizedForAction req user) then reply_error "Unauthorized" else
  '(instanceKey, err) ← getInstanceKey (param params "host") (param params "port");
  check err;
  '(instance, matchedCoordinates, err) ← call (inst_MatchUp instanceKey true);
  check err;
  c ← deref matchedCoordinates;
  JSON 200 {| Code := OK;
              Message := "Instance " +:+ fmt_InstanceKey instanceKey
                         +:+ " matched up at " +:+ fmt_BinlogCoordinates c;
              Details := InstancePtr instance |}.

Definition MultiMatchSlaves (params : Params) (req : Request) (user : User)
  : Prog Response :=
  if negb (isAuthorizedForAction req user) then reply_error "Unauthorized" else
  '(instanceKey, err) ← getInstanceKey (param params "host") (param params "port");
  check err;
  '(belowKey, err) ←
    getInstanceKey (param params "belowHost") (param params "belowPort");
  check err;
  '(slaves, newMaster, err, errs) ←
    call (inst_MultiMatchSlaves instanceKey belowKey (Query_Get req "pattern"));
  check err;
  m ← deref newMaster;
  JSON 200 {| Code := OK;
              Message := "Matched " +:+ fmt_d (len slaves) +:+ " slaves of "
                         +:+ fmt_InstanceKey instanceKey +:+ " below "
                         +:+ fmt_InstanceKey (inst.Key m) +:+ "; "
                         +:+ fmt_d (len errs) +:+ " errors: " +:+ fmt_errors errs;
              Details := KeyValue (inst.Key m) |}.

Definition MatchUpSlaves (params : Params) (req : Request) (user : User)
  : Prog Response :=
  if negb (isAuthorizedForAction req user) then reply_error "Unauthorized" else
  '(instanceKey, err) ← getInstanceKey (param params "host") (param params "port");
  check err;
  '(slaves, newMaster, err, errs) ←
    call (inst_MatchUpSlaves instanceKey (Query_Get req "pattern"));
  check err;
  m ← deref newMaster;
  JSON 200 {| Code := OK;
              Message := "Matched up " +:+ fmt_d (len slaves) +:+ " slaves of "
                         +:+ fmt_InstanceKey instanceKey +:+ " below "
                         +:+ fmt_InstanceKey (inst.Key m) +:+ "; "
                         +:+ fmt_d (len errs) +:+ " errors: " +:+ fmt_errors errs;
              Details := KeyValue (inst.Key m) |}.

(** [lostSlaves = append(lostSlaves, cannotReplicateSlaves...)] comes before
    the error check; only the length of the result is reported. *)
Definition RegroupSlaves (params : Params) (req : Request) (user : User)
  : Prog Response :=
  if negb (isAuthorizedForAction req user) then reply_error "Unauthorized" else
  '(instanceKey, err) ← getInstanceKey (param params "host") (param params "port");
  check err;
  '(lostSlaves, equalSlaves, aheadSlaves, cannotReplicateSlaves, promotedSlave, err) ←
    call (inst_RegroupSlaves instanceKey false);
  let lostSlaves := (lostSlaves ++ cannotReplicateSlaves)%list in
  check err;
  p ← deref promotedSlave;
  JSON 200 {| Code := OK;
              Message := "promoted slave: " +:+ DisplayString (inst.Key p)
                         +:+ ", lost: " +:+ fmt_d (len lostSlaves)
                         +:+ ", trivial: " +:+ fmt_d (len equalSlaves)
                         +:+ ", pseudo-gtid: " +:+ fmt_d (len aheadSlaves);
              Details := KeyValue (inst.Key p) |}.

Definition RegroupSlavesPseudoGTID (params : Params) (req : Request) (user : User)
  : Prog Response :=
  if negb (isAuthorizedForAction req user) then reply_error "Unauthorized" else
  '(instanceKey, err) ← getInstanceKey (param params "host") (param params "port");
  check err;
  '(lostSlaves, equalSlaves, aheadSlaves, cannotReplicateSlaves, promotedSlave, err) ←
    call (inst_RegroupSlavesPseudoGTID instanceKey false);
  let lostSlaves := (lostSlaves ++ cannotReplicateSlaves)%list in
  check err;
  p ← deref promotedSlave;
  JSON 200 {| Code := OK;
              Message := "promoted slave: " +:+ DisplayString (inst.Key p)
                         +:+ ", lost: " +:+ fmt_d (len lostSlaves)
                         +:+ ", trivial: " +:+ fmt_d (len equalSlaves)
                         +:+ ", pseudo-gtid: " +:+ fmt_d (len aheadSlaves);
              Details := KeyValue (inst.Key p) |}.

Definition RegroupSlavesGTID (params : Params) (req : Request) (user : User)
  : Prog Response :=
  if negb (isAuthorizedForAction req user) then reply_error "Unauthorized" else
  '(instanceKey, err) ← getInstanceKey (param params "host") (param params "port");
  check err;
  '(lostSlaves, movedSlaves, cannotReplicateSlaves, promotedSlave, err) ←
    call (inst_RegroupSlavesGTID instanceKey false);
  let lostSlaves := (lostSlaves ++ cannotReplicateSlaves)%list in
  check err;
  p ← deref promotedSlave;
  JSON 200 {| Code := OK;
              Message := "promoted slave: " +:+ DisplayString (inst.Key p)
                         +:+ ", lost: " +:+ fmt_d (len lostSlaves)
                         +:+ ", moved: " +:+ fmt_d (len movedSlaves);
              Details := KeyValue (inst.Key p) |}.

Definition RegroupSlavesBinlogServers (params : Params) (req : Request) (user : User)
  : Prog Response :=
  if negb (isAuthorizedForAction req user) then reply_error "Unauthorized" else
  '(instanceKey, err) ← getInstanceKey (param params "host") (param params "port");
  check err;
  '(_, promotedBinlogServer, err) ←
    call (inst_RegroupSlavesBinlogServers instanceKey false);
  check err;
  p ← deref promotedBinlogServer;
  JSON 200 {| Code := OK;
              Message := "promoted binlog server: " +:+ DisplayString (inst.Key p);
              Details := KeyValue (inst.Key p) |}.

Definition MakeMaster (params : Params) (req : Request) (user : User)
  : Prog Response :=
  if negb (isAuthorizedForAction req user) then reply_error "Unauthorized" else
  '(instanceKey, err) ← getInstanceKey (param params "host") (param params "port");
  check err;
  '(instance, err) ← call (inst_MakeMaster instanceKey);
  check err;
  JSON 200 {| Code := OK;
              Message := "Instance " +:+ fmt_InstanceKey instanceKey
                         +:+ " now made master";
              Details := InstancePtr instance |}.

Definition MakeLocalMaster (params : Params) (req : Request) (user : User)
  : Prog Response :=
  if negb (isAuthorizedForAction req user) then reply_error "Unauthorized" else
  '(instanceKey, err) ← getInstanceKey (param params "host") (param params "port");
  check err;
  '(instance, err) ← call (inst_MakeLocalMaster instanceKey);
  check err;
  JSON 200 {| Code := OK;
              Message := "Instance " +:+ fmt_InstanceKey instanceKey
                         +:+ " now made local master";
              Details := InstancePtr instance |}.

Definition SkipQuery (params : Params) (req : Request) (user : User)
  : Prog Response :=
  if negb (isAuthorizedForAction req user) then reply_error "Unauthorized" else
  '(instanceKey, err) ← getInstanceKey (param params "host") (param params "port");
  check err;
  '(instance, err) ← call (inst_SkipQuery instanceKey);
  check err;
  i ← deref instance;
  JSON 200 {| Code := OK;
              Message := "Query skipped on " +:+ fmt_InstanceKey (inst.Key i);
              Details := InstancePtr instance |}.

Definition StartSlave (params : Params) (req : Request) (user : User)
  : Prog Response :=
  if negb (isAuthorizedForAction req user) then reply_error "Unauthorized" else
  '(instanceKey, err) ← getInstanceKey (param params "host") (param params "port");
  check err;
  '(instance, err) ← call (inst_StartSlave instanceKey);
  check err;
  i ← deref instance;
  JSON 200 {| Code := OK;
              Message := "Slave started: " +:+ fmt_InstanceKey (inst.Key i);
              Details := InstancePtr instance |}.

Definition RestartSlave (params : Params) (req : Request) (user : User)
  : Prog Response :=
  if negb (isAuthorizedForAction req user) then reply_error "Unauthorized" else
  '(instanceKey, err) ← getInstanceKey (param params "host") (param params "port");
  check err;
  '(instance, err) ← call (inst_RestartSlave instanceKey);
  check err;
  i ← deref instance;
  JSON 200 {| Code := OK;
              Message := "Slave restarted: " +:+ fmt_InstanceKey (inst.Key i);
              Details := InstancePtr instance |}.

Definition StopSlave (params : Params) (req : Request) (user : User)
  : Prog Response :=
  if negb (isAuthorizedForAction req user) then reply_error "Unauthorized" else
  '(instanceKey, err) ← getInstanceKey (param params "host") (param params "port");
  check err;
  '(instance, err) ← call (inst_StopSlave instanceKey);
  check err;
  i ← deref instance;
  JSON 200 {| Code := OK;
              Message := "Slave stopped: " +:+ fmt_InstanceKey (inst.Key i);
              Details := InstancePtr instance |}.

Definition StopSlaveNicely (params : Params) (req : Request) (user : User)
  : Prog Response :=
  if negb (isAuthorizedForAction req user) then reply_error "Unauthorized" else
  '(instanceKey, err) ← getInstanceKey (param params "host") (param params "port");
  check err;
  '(instance, err) ← call (inst_StopSlaveNicely instanceKey 0);
  check err;
  i ← deref instance;
  JSON 200 {| Code := OK;
              Message := "Slave stopped nicely: " +:+ fmt_InstanceKey (inst.Key i);
              Details := InstancePtr instance |}.

Definition MasterEquivalent (params : Params) (req : Request) (user : User)
  : Prog Response :=
  if negb (isAuthorizedForAction req user) then reply_error "Unauthorized" else
  '(instanceKey, err) ← getInstanceKey (param params "host") (param params "port");
  check err;
  let '(coordinates, err) :=
    getBinlogCoordinates (param params "logFile") (param params "logPos") in
  check err;
  let instanceCoordinates :=
    {| inst.CoordinatesKey := instanceKey; inst.Coordinates := coordinates |} in
  '(equivalentCoordinates, err) ←
    call (inst_GetEquivalentMasterCoordinates instanceCoordinates);
  check err;
  JSON 200 {| Code := OK;
              Message := "Found " +:+ fmt_d (len equivalentCoordinates)
                         +:+ " equivalent coordinates";
              Details := EquivalentCoordinates equivalentCoordinates |}.

Definition SetReadOnly (params : Params) (req : Request) (user : User)
  : Prog Response :=
  if negb (isAuthorizedForAction req user) then reply_error "Unauthorized" else
  '(instanceKey, err) ← getInstanceKey (param params "host") (param params "port");
  check err;
  '(instance, err) ← call (inst_SetReadOnly instanceKey true);
  check err;
  JSON 200 {| Code := OK; Message := "Server set as read-only";
              Details := InstancePtr instance |}.

Definition SetWriteable (params : Params) (req : Request) (user : User)
  : Prog Response :=
  if negb (isAuthorizedForAction req user) then reply_error "Unauthorized" else
  '(instanceKey, err) ← getInstanceKey (param params "host") (param params "port");
  check err;
  '(instance, err) ← call (inst_SetReadOnly instanceKey false);
  check err;
  JSON 200 {| Code := OK; Message := "Server set as writeable";
              Details := InstancePtr instance |}.

(** [err] of [getInstanceKey] is assigned again by [ParseInt] before any
    test: both tests below look at the result of [ParseInt]. *)
Definition KillQuery (params : Params) (req : Request) (user : User)
  : Prog Response :=
  if negb (isAuthorizedForAction req user) then reply_error "Unauthorized" else
  '(instanceKey, err) ← getInstanceKey (param params "host") (param params "port");
  let '(processId, err) := strconv.ParseInt (param params "process") in
  let err := strconv.Error Quote <$> err in
  check err;
  check err;
  '(instance, err) ← call (inst_KillQuery instanceKey processId);
  check err;
  i ← deref instance;
  JSON 200 {| Code := OK;
              Message := "Query killed on : " +:+ fmt_InstanceKey (inst.Key i);
              Details := InstancePtr instance |}.

Definition Cluster (params : Params) (req : Request) : Prog Response :=
  '(instances, err) ← call (inst_ReadClusterInstances (param params "clusterName"));
  check err;
  JSON_value 200 (Instances instances).

Definition ClusterByAlias (params : Params) (req : Request) : Prog Response :=
  '(clusterName, err) ← call (inst_GetClusterByAlias (param params "clusterAlias"));
  check err;
  let params := <["clusterName" := clusterName]> params in
  Cluster params req.

Definition ClusterByInstance (params : Params) (req : Request) : Prog Response :=
  '(instanceKey, err) ← getInstanceKey (param params "host") (param params "port");
  check err;
  '(instance, found, err) ← call (inst_ReadInstance instanceKey);
  if negb found || not_nil err then
    reply_error ("Cannot read instance: " +:+ fmt_InstanceKey instanceKey)
  else
    i ← deref instance;
    let params := <["clusterName" := inst.ClusterName i]> params in
    Cluster params req.

Definition ClusterInfo (params : Params) (req : Request) : Prog Response :=
  '(clusterInfo, err) ← call (inst_ReadClusterInfo (param params "clusterName"));
  check err;
  JSON_value 200 (Opaque clusterInfo).

Definition ClusterInfoByAlias (params : Params) (req : Request) : Prog Response :=
  '(clusterName, err) ← call (inst_GetClusterByAlias (param params "clusterAlias"));
  check err;
  let params := <["clusterName" := clusterName]> params in
  ClusterInfo params req.

Definition ClusterOSCSlaves (params : Params) (req : Request) : Prog Response :=
  '(instances, err) ← call (inst_GetClusterOSCSlaves (param params "clusterName"));
  check err;
  JSON_value 200 (Instances instances).

Definition SetClusterAlias (params : Params) (req : Request) (user : User)
  : Prog Response :=
  if negb (isAuthorizedForAction req user) then reply_error "Unauthorized" else
  let clusterName := param params "clusterName" in
  let alias := Query_Get req "alias" in
  err ← call (inst_SetClusterAlias clusterName alias);
  check err;
  JSON 200 {| Code := OK;
              Message := "Cluster " +:+ clusterName +:+ " now has alias '"
                         +:+ alias +:+ "'";
              Details := Nil |}.

Definition Clusters (params : Params) (req : Request) : Prog Response :=
  '(clusterNames, err) ← call inst_ReadClusters;
  check err;
  JSON_value 200 (Strings clusterNames).

Definition ClustersInfo (params : Params) (req : Request) : Prog Response :=
  '(clustersInfo, err) ← call (inst_ReadClustersInfo "");
  check err;
  JSON_value 200 (Opaque clustersInfo).

Definition Search (params : Params) (req : Request) : Prog Response :=
  let searchString := param params "searchString" in
  let searchString :=
    if String.eqb searchString "" then Query_Get req "s" else searchString in
  '(instances, err) ← call (inst_SearchInstances searchString);
  check err;
  JSON_value 200 (Instances instances).

Definition Problems (params : Params) (req : Request) : Prog Response :=
  let clusterName := param params "clusterName" in
  '(instances, err) ← call (inst_ReadProblemInstances clusterName);
  check err;
  JSON_value 200 (Instances instances).

Definition Audit (params : Params) (req : Request) : Prog Response :=
  let '(page, err) := strconv.Atoi (param params "page") in
  let page := if not_nil err || (page <? 0) then 0 else page in
  '(instanceKey, err) ← getInstanceKey (param params "host") (param params "port");
  let auditedInstanceKey :=
    match err with
    | None => Some instanceKey
    | Some _ => None
    end in
  '(audits, err) ← call (inst_ReadRecentAudit auditedInstanceKey page);
  check err;
  JSON_value 200 (Opaque audits).

Definition LongQueries (params : Params) (req : Request) : Prog Response :=
  '(longQueries, err) ← call (inst_ReadLongRunningProcesses (param params "filter"));
  check err;
  JSON_value 200 (Opaque longQueries).

Definition HostnameResolveCache (params : Params) (req : Request) : Prog Response :=
  '(content, err) ← call inst_HostnameResolveCache;
  check err;
  JSON 200 {| Code := OK; Message := "Cache retrieved"; Details := Opaque content |}.

Definition ResetHostnameResolveCache (params : Params) (req : Request) (user : User)
  : Prog Response :=
  if negb (isAuthorizedForAction req user) then reply_error "Unauthorized" else
  err ← call inst_ResetHostnameResolveCache;
  check err;
  JSON 200 {| Code := OK; Message := "Hostname cache cleared"; Details := Nil |}.

Definition SubmitPoolInstances (params : Params) (req : Request) (user : User)
  : Prog Response :=
  if negb (isAuthorizedForAction req user) then reply_error "Unauthorized" else
  let pool := param params "pool" in
  let instances := Query_Get req "instances" in
  err ← call (inst_ApplyPoolInstances pool instances);
  check err;
  JSON 200 {| Code := OK; Message := "Applied " +:+ pool +:+ " pool instances";
              Details := Nil |}.

Definition ReadClusterPoolInstancesMap (params : Params) (req : Request) (user : User)
  : Prog Response :=
  if negb (isAuthorizedForAction req user) then reply_error "Unauthorized" else
  let clusterName := param params "clusterName" in
  let pool := param params "pool" in
  '(poolInstancesMap, err) ← call (inst_ReadClusterPoolInstancesMap clusterName pool);
  check err;
  JSON 200 {| Code := OK;
              Message := "Read pool instances for cluster " +:+ clusterName;
              Details := Opaque poolInstancesMap |}.

Definition GetHeuristicClusterPoolInstances (params : Params) (req : Request)
  (user : User) : Prog Response :=
  if negb (isAuthorizedForAction req user) then reply_error "Unauthorized" else
  '(clusterName, err) ← call (inst_ReadClusterNameByAlias (param params "clusterName"));
  check err;
  let pool := param params "pool" in
  '(instances, err) ← call (inst_GetHeuristicClusterPoolInstances clusterName pool);
  check err;
  JSON 200 {| Code := OK;
              Message := "Heuristic pool instances for cluster " +:+ clusterName;
              Details := Instances instances |}.

Definition GetHeuristicClusterPoolInstancesLag (params : Params) (req : Request)
  (user : User) : Prog Response :=
  if negb (isAuthorizedForAction req user) then reply_error "Unauthorized" else
  '(clusterName, err) ← call (inst_ReadClusterNameByAlias (param params "clusterName"));
  check err;
  let pool := param params "pool" in
  '(lag, err) ← call (inst_GetHeuristicClusterPoolInstancesLag clusterName pool);
  check err;
  JSON 200 {| Code := OK;
              Message := "Heuristic pool lag for cluster " +:+ clusterName;
              Details := Int lag |}.

Definition ReloadClusterAlias (params : Params) (req : Request) (user : User)
  : Prog Response :=
  if negb (isAuthorizedForAction req user) then reply_error "Unauthorized" else
  reply_error "This API call has been retired".

Definition Agents (params : Params) (req : Request) (user : User) : Prog Response :=
  if negb (isAuthorizedForAction req user) then reply_error "Unauthorized" else
  Config ← call config_Config;
  if negb (config.ServeAgentsHttp Config) then reply_error "Agents not served" else
  '(agents, err) ← call agent_ReadAgents;
  check err;
  JSON_value 200 (Opaque agents).

Definition Agent (params : Params) (req : Request) (user : User) : Prog Response :=
  if negb (isAuthorizedForAction req user) then reply_error "Unauthorized" else
  Config ← call config_Config;
  if negb (config.ServeAgentsHttp Config) then reply_error "Agents not served" else
  '(agent, err) ← call (agent_GetAgent (param params "host"));
  check err;
  JSON_value 200 (Opaque agent).

Definition AgentUnmount (params : Params) (req : Request) (user : User)
  : Prog Response :=
  if negb (isAuthorizedForAction req user) then reply_error "Unauthorized" else
  Config ← call config_Config;
  if negb (config.ServeAgentsHttp Config) then reply_error "Agents not served" else
  '(output, err) ← call (agent_Unmount (param params "host"));
  check err;
  JSON_value 200 (Opaque output).

Definition AgentMountLV (params : Params) (req : Request) (user : User)
  : Prog Response :=
  if negb (isAuthorizedForAction req user) then reply_error "Unauthorized" else
  Config ← call config_Config;
  if negb (config.ServeAgentsHttp Config) then reply_error "Agents not served" else
  '(output, err) ← call (agent_MountLV (param params "host") (Query_Get req "lv"));
  check err;
  JSON_value 200 (Opaque output).

Definition AgentCreateSnapshot (params : Params) (req : Request) (user : User)
  : Prog Response :=
  if negb (isAuthorizedForAction req user) then reply_error "Unauthorized" else
  Config ← call config_Config;
  if negb (config.ServeAgentsHttp Config) then reply_error "Agents not served" else
  '(output, err) ← call (agent_CreateSnapshot (param params "host"));
  check err;
  JSON_value 200 (Opaque output).

Definition AgentRemoveLV (params : Params) (req : Request) (user : User)
  : Prog Response :=
  if negb (isAuthorizedForAction req user) then reply_error "Unauthorized" else
  Config ← call config_Config;
  if negb (config.ServeAgentsHttp Config) then reply_error "Agents not served" else
  '(output, err) ← call (agent_RemoveLV (param params "host") (Query_Get req "lv"));
  check err;
  JSON_value 200 (Opaque output).

Definition AgentMySQLStop (params : Params) (req : Request) (user : User)
  : Prog Response :=
  if negb (isAuthorizedForAction req user) then reply_error "Unauthorized" else
  Config ← call config_Config;
  if negb (config.ServeAgentsHttp Config) then reply_error "Agents not served" else
  '(output, err) ← call (agent_MySQLStop (param params "host"));
  check err;
  JSON_value 200 (Opaque output).

Definition AgentMySQLStart (params : Params) (req : Request) (user : User)
  : Prog Response :=
  if negb (isAuthorizedForAction req user) then reply_error "Unauthorized" else
  Config ← call config_Config;
  if negb (config.ServeAgentsHttp Config) then reply_error "Agents not served" else
  '(output, err) ← call (agent_MySQLStart (param params "host"));
  check err;
  JSON_value 200 (Opaque output).

Definition AgentCustomCommand (params : Params) (req : Request) (user : User)
  : Prog Response :=
  if negb (isAuthorizedForAction req user) then reply_error "Unauthorized" else
  Config ← call config_Config;
  if negb (config.ServeAgentsHttp Config) then reply_error "Agents not served" else
  '(output, err) ←
    call (agent_CustomCommand (param params "host") (param params "cmd"));
  check err;
  JSON_value 200 (Opaque output).

Definition AgentSeed (params : Params) (req : Request) (user : User)
  : Prog Response :=
  if negb (isAuthorizedForAction req user) then reply_error "Unauthorized" else
  Config ← call config_Config;
  if negb (config.ServeAgentsHttp Config) then reply_error "Agents not served" else
  '(output, err) ←
    call (agent_Seed (param params "targetHost") (param params "sourceHost"));
  check err;
  JSON_value 200 (Opaque output).

Definition AgentActiveSeeds (params : Params) (req : Request) (user : User)
  : Prog Response :=
  if negb (isAuthorizedForAction req user) then reply_error "Unauthorized" else
  Config ← call config_Config;
  if negb (config.ServeAgentsHttp Config) then reply_error "Agents not served" else
  '(output, err) ← call (agent_ReadActiveSeedsForHost (param params "host"));
  check err;
  JSON_value 200 (Opaque output).

Definition AgentRecentSeeds (params : Params) (req : Request) (user : User)
  : Prog Response :=
  if negb (isAuthorizedForAction req user) then reply_error "Unauthorized" else
  Config ← call config_Config;
  if negb (config.ServeAgentsHttp Config) then reply_error "Agents not served" else
  '(output, err) ← call (agent_ReadRecentCompletedSeedsForHost (param params "host"));
  check err;
  JSON_value 200 (Opaque output).

(** [err] of [ParseInt] is assigned again by the agent call before any
    test; [seedId] is whatever [ParseInt] returned with it. *)
Definition AgentSeedDetails (params : Params) (req : Request) (user : User)
  : Prog Response :=
  if negb (isAuthorizedForAction req user) then reply_error "Unauthorized" else
  Config ← call config_Config;
  if negb (config.ServeAgentsHttp Config) then reply_error "Agents not served" else
  let '(seedId, err) := strconv.ParseInt (param params "seedId") in
  '(output, err) ← call (agent_AgentSeedDetails seedId);
  check err;
  JSON_value 200 (Opaque output).

Definition AgentSeedStates (params : Params) (req : Request) (user : User)
  : Prog Response :=
  if negb (isAuthorizedForAction req user) then reply_error "Unauthorized" else
  Config ← call config_Config;
  if negb (config.ServeAgentsHttp Config) then reply_error "Agents not served" else
  let '(seedId, err) := strconv.ParseInt (param params "seedId") in
  '(output, err) ← call (agent_ReadSeedStates seedId);
  check err;
  JSON_value 200 (Opaque output).

Definition Seeds (params : Params) (req : Request) (user : User) : Prog Response :=
  if negb (isAuthorizedForAction req user) then reply_error "Unauthorized" else
  Config ← call config_Config;
  if negb (config.ServeAgentsHttp Config) then reply_error "Agents not served" else
  '(output, err) ← call agent_ReadRecentSeeds;
  check err;
  JSON_value 200 (Opaque output).

Definition AbortSeed (params : Params) (req : Request) (user : User)
  : Prog Response :=
  if negb (isAuthorizedForAction req user) then reply_error "Unauthorized" else
  Config ← call config_Config;
  if negb (config.ServeAgentsHttp Config) then reply_error "Agents not served" else
  let '(seedId, err) := strconv.ParseInt (param params "seedId") in
  err ← call (agent_AbortSeed seedId);
  check err;
  JSON_value 200 (Bool (negb (not_nil err))).

Definition Headers (params : Params) (req : Request) : Prog Response :=
  JSON_value 200 (Opaque (Header req)).

Definition Health (params : Params) (req : Request) : Prog Response :=
  '(health, err) ← call process_HealthTest;
  match err with
  | Some e =>
      JSON 200 {| Code := ERROR; Message := "Application node is unhealthy " +:+ e;
                  Details := Opaque health |}
  | None =>
      JSON 200 {| Code := OK; Message := "Application node is healthy";
                  Details := Opaque health |}
  end.

Definition LBCheck (params : Params) (req : Request) : Prog Response :=
  JSON_value 200 (Str "OK").

Definition StatusCheck (params : Params) (req : Request) : Prog Response :=
  Config ← call config_Config;
  '(health, err) ←
    (if config.StatusSimpleHealth Config then call process_SimpleHealthTest
     else call process_HealthTest);
  match err with
  | Some e =>
      JSON 500 {| Code := ERROR; Message := "Application node is unhealthy " +:+ e;
                  Details := Opaque health |}
  | None =>
      JSON 200 {| Code := OK; Message := "Application node is healthy";
                  Details := Opaque health |}
  end.

Definition GrabElection (params : Params) (req : Request) (user : User)
  : Prog Response :=
  if negb (isAuthorizedForAction req user) then reply_error "Unauthorized" else
  err ← call process_GrabElection;
  check (String.append "Unable to grab election: " <$> err);
  JSON 200 {| Code := OK; Message := "Node elected as leader"; Details := Nil |}.

Definition Reelect (params : Params) (req : Request) (user : User) : Prog Response :=
  if negb (isAuthorizedForAction req user) then reply_error "Unauthorized" else
  err ← call process_Reelect;
  check (String.append "Unable to re-elect: " <$> err);
  JSON 200 {| Code := OK; Message := "Set re-elections"; Details := Nil |}.

Definition ReloadConfiguration (params : Params) (req : Request) (user : User)
  : Prog Response :=
  if negb (isAuthorizedForAction req user) then reply_error "Unauthorized" else
  _ ← call config_Reload;
  _ ← call (inst_AuditOperation "reload-configuration" None "Triggered via API");
  JSON 200 {| Code := OK; Message := "Config reloaded"; Details := Nil |}.

Definition ReplicationAnalysis (params : Params) (req : Request) : Prog Response :=
  '(analysis, err) ←
    call (inst_GetReplicationAnalysis (param params "clusterName") true false);
  check (String.append "Cannot get analysis: " <$> err);
  JSON 200 {| Code := OK; Message := "Analysis"; Details := Opaque analysis |}.

Definition Recover (params : Params) (req : Request) (user : User) : Prog Response :=
  if negb (isAuthorizedForAction req user) then reply_error "Unauthorized" else
  '(instanceKey, err) ← getInstanceKey (param params "host") (param params "port");
  check err;
  '(key, err) ←
    getInstanceKey (param params "candidateHost") (param params "candidatePort");
  let candidateKey :=
    match err with
    | None => Some key
    | Some _ => None
    end in
  let skipProcesses :=
    String.eqb (Query_Get req "skipProcesses") "true"
    || String.eqb (param params "skipProcesses") "true" in
  '(recoveryAttempted, _, err) ←
    call (logic_CheckAndRecover instanceKey candidateKey skipProcesses);
  check err;
  if recoveryAttempted : bool then
    JSON 200 {| Code := OK; Message := "Action taken";
                Details := KeyValue instanceKey |}
  else
    JSON 200 {| Code := OK; Message := "No action taken";
                Details := KeyValue instanceKey |}.

Definition RecoverLite (params : Params) (req : Request) (user : User)
  : Prog Response :=
  let params := <["skipProcesses" := "true"]> params in
  Recover params req user.

Definition RegisterCandidate (params : Params) (req : Request) (user : User)
  : Prog Response :=
  if negb (isAuthorizedForAction req user) then reply_error "Unauthorized" else
  '(instanceKey, err) ← getInstanceKey (param params "host") (param params "port");
  check err;
  '(promotionRule, err) ←
    call (inst_ParseCandidatePromotionRule (param params "promotionRule"));
  check err;
  err ← call (inst_RegisterCandidateInstance instanceKey promotionRule);
  check err;
  JSON 200 {| Code := OK; Message := "Registered candidate";
              Details := KeyValue instanceKey |}.

Definition AutomatedRecoveryFilters (params : Params) (req : Request)
  : Prog Response :=
  Config ← call config_Config;
  let automatedRecoveryMap :=
    [("RecoverMasterClusterFilters", config.RecoverMasterClusterFilters Config);
     ("RecoverIntermediateMasterClusterFilters",
      config.RecoverIntermediateMasterClusterFilters Config);
     ("RecoveryIgnoreHostnameFilters", config.RecoveryIgnoreHostnameFilters Config)] in
  JSON 200 {| Code := OK; Message := "Automated recovery configuration details";
              Details := StringsMap automatedRecoveryMap |}.

Definition AuditFailureDetection (params : Params) (req : Request) : Prog Response :=
  '(audits, err) ←
    (let '(detectionId, derr) := strconv.ParseInt (param params "id") in
     if negb (not_nil derr) && (detectionId >? 0) then
       call (logic_ReadFailureDetection detectionId)
     else
       let '(page, derr) := strconv.Atoi (param params "page") in
       let page := if not_nil derr || (page <? 0) then 0 else page in
       call (logic_ReadRecentFailureDetections page));
  check err;
  JSON_value 200 (Recoveries audits).

Definition ReadReplicationAnalysisChangelog (params : Params) (req : Request)
  : Prog Response :=
  '(changelogs, err) ← call inst_ReadReplicationAnalysisChangelog;
  check err;
  JSON_value 200 (Opaque changelogs).

Definition AuditRecovery (params : Params) (req : Request) : Prog Response :=
  '(audits, err) ←
    (let '(recoveryId, derr) := strconv.ParseInt (param params "id") in
     if negb (not_nil derr) && (recoveryId >? 0) then
       call (logic_ReadRecovery recoveryId)
     else
       let '(page, derr) := strconv.Atoi (param params "page") in
       let page := if not_nil derr || (page <? 0) then 0 else page in
       let unacknowledgedOnly := String.eqb (Query_Get req "unacknowledged") "true" in
       call (logic_ReadRecentRecoveries (param params "clusterName")
               unacknowledgedOnly page));
  check err;
  JSON_value 200 (Recoveries audits).

Definition ActiveClusterRecovery (params : Params) (req : Request) : Prog Response :=
  '(recoveries, err) ←
    call (logic_ReadActiveClusterRecovery (param params "clusterName"));
  check err;
  JSON_value 200 (Recoveries recoveries).

Definition RecentlyActiveClusterRecovery (params : Params) (req : Request)
  : Prog Response :=
  '(recoveries, err) ←
    call (logic_ReadRecentlyActiveClusterRecovery (param params "clusterName"));
  check err;
  JSON_value 200 (Recoveries recoveries).

Definition RecentlyActiveInstanceRecovery (params : Params) (req : Request)
  : Prog Response :=
  '(instanceKey, err) ← getInstanceKey (param params "host") (param params "port");
  check err;
  '(recoveries, err) ← call (logic_ReadRecentlyActiveInstanceRecovery instanceKey);
  check err;
  JSON_value 200 (Recoveries recoveries).

Definition AcknowledgeClusterRecoveries (params : Params) (req : Request)
  (user : User) : Prog Response :=
  if negb (isAuthorizedForAction req user) then reply_error "Unauthorized" else
  '(clusterName, err) ←
    (if negb (String.eqb (param params "clusterAlias") "") then
       call (inst_GetClusterByAlias (param params "clusterAlias"))
     else mret (param params "clusterName", None));
  check err;
  let comment := Query_Get req "comment" in
  if String.eqb comment "" then reply_error "No acknowledge comment given" else
  let userId := getUserId req user in
  userId ← (if String.eqb userId "" then call inst_GetMaintenanceOwner
            else mret userId);
  '(countAcnowledgedRecoveries, err) ←
    call (logic_AcknowledgeClusterRecoveries clusterName userId comment);
  check err;
  JSON_value 200 (Int countAcnowledgedRecoveries).

Definition AcknowledgeInstanceRecoveries (params : Params) (req : Request)
  (user : User) : Prog Response :=
  if negb (isAuthorizedForAction req user) then reply_error "Unauthorized" else
  '(instanceKey, err) ← getInstanceKey (param params "host") (param params "port");
  check err;
  let comment := Query_Get req "comment" in
  if String.eqb comment "" then reply_error "No acknowledge comment given" else
  let userId := getUserId req user in
  userId ← (if String.eqb userId "" then call inst_GetMaintenanceOwner
            else mret userId);
  '(countAcnowledgedRecoveries, err) ←
    call (logic_AcknowledgeInstanceRecoveries instanceKey userId comment);
  check err;
  JSON_value 200 (Int countAcnowledgedRecoveries).

Definition AcknowledgeRecovery (params : Params) (req : Request) (user : User)
  : Prog Response :=
  if negb (isAuthorizedForAction req user) then reply_error "Unauthorized" else
  let '(recoveryId, err) := strconv.ParseInt (param params "recoveryId") in
  check (strconv.Error Quote <$> err);
  let comment := Query_Get req "comment" in
  if String.eqb comment "" then reply_error "No acknowledge comment given" else
  let userId := getUserId req user in
  userId ← (if String.eqb userId "" then call inst_GetMaintenanceOwner
            else mret userId);
  '(countAcnowledgedRecoveries, err) ←
    call (logic_AcknowledgeRecovery recoveryId userId comment);
  check err;
  JSON_value 200 (Int countAcnowledgedRecoveries).

Definition BlockedRecoveries (params : Params) (req : Request) : Prog Response :=
  '(blockedRecoveries, err) ←
    call (logic_ReadBlockedRecoveries (param params "clusterName"));
  check err;
  JSON_value 200 (Opaque blockedRecoveries).

(** A registered handler: martini injects [auth.User] into the handlers
    that declare it. *)
Inductive Handler : Type :=
| WithUser (h : Params -> Request -> User -> Prog Response)
| WithoutUser (h : Params -> Request -> Prog Response).

Definition invoke (h : Handler) (params : Params) (req : Request) (user : User)
  : Prog Response :=
  match h with
  | WithUser f => f params req user
  | WithoutUser f => f params req
  end.

(** [RegisterRequests]: the list of known API calls, in registration order;
    the last route is registered under [config.Config.StatusEndpoint]. *)
Definition RegisterRequests (Config : config.Configuration) : list (string * Handler) :=
  [ ("/api/relocate/:host/:port/:belowHost/:belowPort", WithUser RelocateBelow);
    ("/api/relocate-below/:host/:port/:belowHost/:belowPort", WithUser RelocateBelow);
    ("/api/relocate-slaves/:host/:port/:belowHost/:belowPort", WithUser RelocateSlaves);
    ("/api/regroup-slaves/:host/:port", WithUser RegroupSlaves);
    ("/api/move-up/:host/:port", WithUser MoveUp);
    ("/api/move-up-slaves/:host/:port", WithUser MoveUpSlaves);
    ("/api/move-below/:host/:port/:siblingHost/:siblingPort", WithUser MoveBelow);
    ("/api/move-equivalent/:host/:port/:belowHost/:belowPort", WithUser MoveEquivalent);
    ("/api/repoint-slaves/:host/:port", WithUser RepointSlaves);
    ("/api/make-co-master/:host/:port", WithUser MakeCoMaster);
    ("/api/enslave-siblings/:host/:port", WithUser EnslaveSiblings);
    ("/api/enslave-master/:host/:port", WithUser EnslaveMaster);
    ("/api/master-equivalent/:host/:port/:logFile/:logPos", WithUser MasterEquivalent);
    ("/api/regroup-slaves-bls/:host/:port", WithUser RegroupSlavesBinlogServers);
    ("/api/move-below-gtid/:host/:port/:belowHost/:belowPort", WithUser MoveBelowGTID);
    ("/api/move-slaves-gtid/:host/:port/:belowHost/:belowPort", WithUser MoveSlavesGTID);
    ("/api/regroup-slaves-gtid/:host/:port", WithUser RegroupSlavesGTID);
    ("/api/match/:host/:port/:belowHost/:belowPort", WithUser MatchBelow);
    ("/api/match-below/:host/:port/:belowHost/:belowPort", WithUser MatchBelow);
    ("/api/match-up/:host/:port", WithUser MatchUp);
    ("/api/match-slaves/:host/:port/:belowHost/:belowPort", WithUser MultiMatchSlaves);
    ("/api/multi-match-slaves/:host/:port/:belowHost/:belowPort",
     WithUser MultiMatchSlaves);
    ("/api/match-up-slaves/:host/:port", WithUser MatchUpSlaves);
    ("/api/regroup-slaves-pgtid/:host/:port", WithUser RegroupSlavesPseudoGTID);
    ("/api/make-master/:host/:port", WithUser MakeMaster);
    ("/api/make-local-master/:host/:port", WithUser MakeLocalMaster);
    ("/api/enable-gtid/:host/:port", WithUser EnableGTID);
    ("/api/disable-gtid/:host/:port", WithUser DisableGTID);
    ("/api/skip-query/:host/:port", WithUser SkipQuery);
    ("/api/start-slave/:host/:port", WithUser StartSlave);
    ("/api/restart-slave/:host/:port", WithUser RestartSlave);
    ("/api/stop-slave/:host/:port", WithUser StopSlave);
    ("/api/stop-slave-nice/:host/:port", WithUser StopSlaveNicely);
    ("/api/reset-slave/:host/:port", WithUser ResetSlave);
    ("/api/detach-slave/:host/:port", WithUser DetachSlave);
    ("/api/reattach-slave/:host/:port", WithUser ReattachSlave);
    ("/api/reattach-slave-master-host/:host/:port", WithUser ReattachSlaveMasterHost);
    ("/api/set-read-only/:host/:port", WithUser SetReadOnly);
    ("/api/set-writeable/:host/:port", WithUser SetWriteable);
    ("/api/kill-query/:host/:port/:process", WithUser KillQuery);
    ("/api/last-pseudo-gtid/:host/:port", WithUser LastPseudoGTID);
    ("/api/submit-pool-instances/:pool", WithUser SubmitPoolInstances);
    ("/api/cluster-pool-instances/:clusterName", WithUser ReadClusterPoolInstancesMap);
    ("/api/cluster-pool-instances/:clusterName/:pool",
     WithUser ReadClusterPoolInstancesMap);
    ("/api/heuristic-cluster-pool-instances/:clusterName",
     WithUser GetHeuristicClusterPoolInstances);
    ("/api/heuristic-cluster-pool-instances/:clusterName/:pool",
     WithUser GetHeuristicClusterPoolInstances);
    ("/api/heuristic-cluster-pool-lag/:clusterName",
     WithUser GetHeuristicClusterPoolInstancesLag);
    ("/api/heuristic-cluster-pool-lag/:clusterName/:pool",
     WithUser GetHeuristicClusterPoolInstancesLag);
    ("/api/search/:searchString", WithoutUser Search);
    ("/api/search", WithoutUser Search);
    ("/api/cluster/:clusterName", WithoutUser Cluster);
    ("/api/cluster/alias/:clusterAlias", WithoutUser ClusterByAlias);
    ("/api/cluster/instance/:host/:port", WithoutUser ClusterByInstance);
    ("/api/cluster-info/:clusterName", WithoutUser ClusterInfo);
    ("/api/cluster-info/alias/:clusterAlias", WithoutUser ClusterInfoByAlias);
    ("/api/cluster-osc-slaves/:clusterName", WithoutUser ClusterOSCSlaves);
    ("/api/set-cluster-alias/:clusterName", WithUser SetClusterAlias);
    ("/api/clusters", WithoutUser Clusters);
    ("/api/clusters-info", WithoutUser ClustersInfo);
    ("/api/instance/:host/:port", WithoutUser Instance);
    ("/api/discover/:host/:port", WithUser Discover);
    ("/api/refresh/:host/:port", WithUser Refresh);
    ("/api/forget/:host/:port", WithUser Forget);
    ("/api/begin-maintenance/:host/:port/:owner/:reason", WithUser BeginMaintenance);
    ("/api/end-maintenance/:host/:port", WithUser EndMaintenanceByInstanceKey);
    ("/api/end-maintenance/:maintenanceKey", WithUser EndMaintenance);
    ("/api/begin-downtime/:host/:port/:owner/:reason", WithUser BeginDowntime);
    ("/api/begin-downtime/:host/:port/:owner/:reason/:duration", WithUser BeginDowntime);
    ("/api/end-downtime/:host/:port", WithUser EndDowntime);
    ("/api/replication-analysis", WithoutUser ReplicationAnalysis);
    ("/api/replication-analysis/:clusterName", WithoutUser ReplicationAnalysis);
    ("/api/recover/:host/:port", WithUser Recover);
    ("/api/recover/:host/:port/:candidateHost/:candidatePort", WithUser Recover);
    ("/api/recover-lite/:host/:port", WithUser RecoverLite);
    ("/api/recover-lite/:host/:port/:candidateHost/:candidatePort", WithUser RecoverLite);
    ("/api/register-candidate/:host/:port/:promotionRule", WithUser RegisterCandidate);
    ("/api/automated-recovery-filters", WithoutUser AutomatedRecoveryFilters);
    ("/api/audit-failure-detection", WithoutUser AuditFailureDetection);
    ("/api/audit-failure-detection/:page", WithoutUser AuditFailureDetection);
    ("/api/audit-failure-detection/id/:id", WithoutUser AuditFailureDetection);
    ("/api/replication-analysis-changelog", WithoutUser ReadReplicationAnalysisChangelog);
    ("/api/audit-recovery", WithoutUser AuditRecovery);
    ("/api/audit-recovery/:page", WithoutUser AuditRecovery);
    ("/api/audit-recovery/id/:id", WithoutUser AuditRecovery);
    ("/api/audit-recovery/cluster/:clusterName", WithoutUser AuditRecovery);
    ("/api/audit-recovery/cluster/:clusterName/:page", WithoutUser AuditRecovery);
    ("/api/active-cluster-recovery/:clusterName", WithoutUser ActiveClusterRecovery);
    ("/api/recently-active-cluster-recovery/:clusterName",
     WithoutUser RecentlyActiveClusterRecovery);
    ("/api/recently-active-instance-recovery/:host/:port",
     WithoutUser RecentlyActiveInstanceRecovery);
    ("/api/ack-recovery/cluster/:clusterName", WithUser AcknowledgeClusterRecoveries);
    ("/api/ack-recovery/cluster/alias/:clusterAlias",
     WithUser AcknowledgeClusterRecoveries);
    ("/api/ack-recovery/instance/:host/:port", WithUser AcknowledgeInstanceRecoveries);
    ("/api/ack-recovery/:recoveryId", WithUser AcknowledgeRecovery);
    ("/api/blocked-recoveries", WithoutUser BlockedRecoveries);
    ("/api/blocked-recoveries/cluster/:clusterName", WithoutUser BlockedRecoveries);
    ("/api/problems", WithoutUser Problems);
    ("/api/problems/:clusterName", WithoutUser Problems);
    ("/api/long-queries", WithoutUser LongQueries);
    ("/api/long-queries/:filter", WithoutUser LongQueries);
    ("/api/audit", WithoutUser Audit);
    ("/api/audit/:page", WithoutUser Audit);
    ("/api/audit/instance/:host/:port", WithoutUser Audit);
    ("/api/audit/instance/:host/:port/:page", WithoutUser Audit);
    ("/api/resolve/:host/:port", WithoutUser Resolve);
    ("/api/maintenance", WithoutUser Maintenance);
    ("/api/headers", WithoutUser Headers);
    ("/api/health", WithoutUser Health);
    ("/api/lb-check", WithoutUser LBCheck);
    ("/api/grab-election", WithUser GrabElection);
    ("/api/reelect", WithUser Reelect);
    ("/api/reload-configuration", WithUser ReloadConfiguration);
    ("/api/reload-cluster-alias", WithUser ReloadClusterAlias);
    ("/api/hostname-resolve-cache", WithoutUser HostnameResolveCache);
    ("/api/reset-hostname-resolve-cache", WithUser ResetHostnameResolveCache);
    ("/api/agents", WithUser Agents);
    ("/api/agent/:host", WithUser Agent);
    ("/api/agent-umount/:host", WithUser AgentUnmount);
    ("/api/agent-mount/:host", WithUser AgentMountLV);
    ("/api/agent-create-snapshot/:host", WithUser AgentCreateSnapshot);
    ("/api/agent-removelv/:host", WithUser AgentRemoveLV);
    ("/api/agent-mysql-stop/:host", WithUser AgentMySQLStop);
    ("/api/agent-mysql-start/:host", WithUser AgentMySQLStart);
    ("/api/agent-seed/:targetHost/:sourceHost", WithUser AgentSeed);
    ("/api/agent-active-seeds/:host", WithUser AgentActiveSeeds);
    ("/api/agent-recent-seeds/:host", WithUser AgentRecentSeeds);
    ("/api/agent-seed-details/:seedId", WithUser AgentSeedDetails);
    ("/api/agent-seed-states/:seedId", WithUser AgentSeedStates);
    ("/api/agent-abort-seed/:seedId", WithUser AbortSeed);
    ("/api/agent-custom-command/:host/:command", WithUser AgentCustomCommand);
    ("/api/seeds", WithUser Seeds);
    (config.StatusEndpoint Config, WithoutUser StatusCheck) ].

(** Serving a GET request for [path]: the handler of the first matching
    route runs on the parameters the route binds; [None] when no route
    matches. *)
Definition serve (Config : config.Configuration) (path : string) (req : Request)
  (user : User) : option (Prog Response) :=
  match martini.route (RegisterRequests Config) path with
  | Some (_, h, params) => Some (invoke h params req user)
  | None => None
  end.

End Handlers.
End HttpAPI.

(** ** The core behind the calls, modelled from the specification

    [api.go] only dispatches; the relocation planner, the regroup engine
    and the recovery bookkeeping live in packages [inst] and [logic], which
    are not among the sources.  The definitions of this module follow the
    component design of the specification. *)
Module engine.

Import inst logic.

(** Modelled from the spec: the error kinds of the core (error handling
    design), which the packages [inst] and [logic] return. *)
Inductive ErrorKind : Type :=
| Unreachable
| InvariantViolation
| NoRelocationMethod
| AmbiguousPseudoGTID
| NoSharedHistory
| DivergedHistories
| LockContended
| NoCandidate.

Definition ErrorKind_Error (e : ErrorKind) : error :=
  match e with
  | Unreachable => "Unreachable"
  | InvariantViolation => "InvariantViolation"
  | NoRelocationMethod => "NoRelocationMethod"
  | AmbiguousPseudoGTID => "AmbiguousPseudoGTID"
  | NoSharedHistory => "NoSharedHistory"
  | DivergedHistories => "DivergedHistories"
  | LockContended => "LockContended"
  | NoCandidate => "NoCandidate"
  end.

(** Modelled from the spec: an observation of the equivalence table of the
    topology store, [(upstream, upstreamCoord) ≡ (other, otherCoord)]. *)
Record Equivalence : Type := {
  eq_upstream : InstanceKey;
  eq_upstreamCoord : BinlogCoordinates;
  eq_other : InstanceKey;
  eq_otherCoord : BinlogCoordinates
}.

(** Modelled from the spec: the topology store (component B), as far as the
    planner, the regroup engine and the recovery orchestrator use it:
    instance rows by key, the equivalence table, the recovery records and
    the clock of the store. *)
Record Store : Type := {
  instances : gmap InstanceKey Instance;
  equivalences : list Equivalence;
  recoveries : list TopologyRecovery;
  clock : Z
}.

Definition empty_store : Store :=
  {| instances := ∅; equivalences := []; recoveries := []; clock := 0 |}.

Definition with_instances (st : Store) (m : gmap InstanceKey Instance) : Store :=
  {| instances := m; equivalences := equivalences st;
     recoveries := recoveries st; clock := clock st |}.

Definition with_recoveries (st : Store) (l : list TopologyRecovery) : Store :=
  {| instances := instances st; equivalences := equivalences st;
     recoveries := l; clock := clock st + 1 |}.

(** Modelled from the spec: [Cmp] of the coordinate algebra, by log file
    and then by position. *)
Definition Cmp (a b : BinlogCoordinates) : comparison :=
  match String.compare (LogFile a) (LogFile b) with
  | Eq => Z.compare (LogPos a) (LogPos b)
  | c => c
  end.

(** Modelled from the spec: the relocation methods, a tagged variant. *)
Inductive Method : Type :=
| Trivial
| MoveUpMethod
| Gtid
| BinlogServer
| EquivalenceTable
| PseudoGtid.

(** An instance the planner can work on: known to the store and valid at
    its last check. *)
Definition reachable_instance (st : Store) (k : InstanceKey) : option Instance :=
  match instances st !! k with
  | Some i => if IsLastCheckValid i then Some i else None
  | None => None
  end.

(** Walking up from [k] reaches [ancestor] within [fuel] steps; the bound
    makes the walk end on a co-primary cycle. *)
Fixpoint descends_from (m : gmap InstanceKey Instance) (fuel : nat)
  (k ancestor : InstanceKey) : bool :=
  match fuel with
  | O => false
  | S fuel' =>
      match m !! k with
      | None => false
      | Some i =>
          bool_decide (UpstreamKey i = ancestor)
          || descends_from m fuel' (UpstreamKey i) ancestor
      end
  end.

Definition shares_lineage (a b : GtidSet) : bool :=
  bool_decide (dom a ∩ dom b ≠ (∅ : gset string)).

Definition find_equivalence (st : Store) (s t : Instance) : option BinlogCoordinates :=
  eq_otherCoord <$>
    List.find (fun e =>
                 bool_decide (eq_upstream e = UpstreamKey s)
                 && bool_decide (eq_upstreamCoord e = ExecBinlogCoordinates s)
                 && bool_decide (eq_other e = Key t))
              (equivalences st).

(** Modelled from the spec: method selection of the relocation planner,
    first applicable, highest preference first. *)
Definition select_method (st : Store) (s t : Instance) : option Method :=
  if bool_decide (UpstreamKey t = UpstreamKey s) then Some Trivial
  else if
    match instances st !! UpstreamKey s with
    | Some parent => bool_decide (UpstreamKey parent = Key t)
    | None => false
    end
  then Some MoveUpMethod
  else if UsingGtid s && UsingGtid t
          && shares_lineage (ExecutedGtidSet s) (ExecutedGtidSet t)
  then Some Gtid
  else if IsBinlogServer t then Some BinlogServer
  else if HttpAPI.not_nil (find_equivalence st s t) then Some EquivalenceTable
  else if UsingPseudoGtid s && UsingPseudoGtid t then Some PseudoGtid
  else None.

(** [CHANGE REPLICATION SOURCE] followed by a start: the replica points at
    the new upstream, at the given coordinates unless it auto-positions,
    and both replication threads run. *)
Definition change_source (s : Instance) (upstream : InstanceKey)
  (coordinates : option BinlogCoordinates) : Instance :=
  {| Key := Key s; ServerId := ServerId s; Version := Version s;
     LogBinEnabled := LogBinEnabled s; IsBinlogServer := IsBinlogServer s;
     UsingPseudoGtid := UsingPseudoGtid s;
     UpstreamKey := upstream;
     ReplicaIoRunning := true; ReplicaSqlRunning := true;
     ExecutedGtidSet := ExecutedGtidSet s; UsingGtid := UsingGtid s;
     SelfCoordinates := SelfCoordinates s;
     ExecBinlogCoordinates := default (ExecBinlogCoordinates s) coordinates;
     RelaylogCoordinates := RelaylogCoordinates s;
     ClusterName := ClusterName s; DataCenter := DataCenter s;
     PromotionRule := PromotionRule s; IsLastCheckValid := IsLastCheckValid s |}.

(** The type of the coordinate arithmetic the planner is given. *)
Definition Translation : Type :=
  Method -> Store -> Instance -> Instance -> ErrorKind + option BinlogCoordinates.

Section Planner.

(** The coordinate arithmetic of a method (coordinate algebra, equivalence
    table, pseudo-GTID matcher): the coordinates in the target from which
    the source continues, [None] for GTID auto-position, or the error of
    the method. *)
Variable translate :
  Method -> Store -> Instance -> Instance -> ErrorKind + option BinlogCoordinates.

(** Modelled from the spec: [RelocateBelow(source, target)] of the
    relocation planner (package [inst], absent from the sources):
    preconditions, method selection, then stop, change source, start on
    the source row, and the refreshed row as the result. *)
Definition relocate (st : Store) (source target : InstanceKey)
  : ErrorKind + Instance * Store :=
  match reachable_instance st source, reachable_instance st target with
  | Some s, Some t =>
      if bool_decide (target = source) then inl InvariantViolation
      else if descends_from (instances st) (S (size (instances st))) target source
      then inl InvariantViolation
      else if negb (String.eqb (ClusterName s) (ClusterName t))
      then inl InvariantViolation
      else
        match select_method st s t with
        | None => inl NoRelocationMethod
        | Some m =>
            match translate m st s t with
            | inl e => inl e
            | inr coordinates =>
                let st' :=
                  with_instances st
                    (<[source := change_source s (Key t) coordinates]> (instances st)) in
                match instances st' !! source with
                | Some refreshed => inr (refreshed, st')
                | None => inl Unreachable
                end
            end
        end
  | _, _ => inl Unreachable
  end.

(** [inst.RelocateBelow] with the results of the Go function. *)
Definition RelocateBelow (st : Store) (source target : InstanceKey)
  : option Instance * option error * Store :=
  match relocate st source target with
  | inr (refreshed, st') => (Some refreshed, None, st')
  | inl e => (None, Some (ErrorKind_Error e), st)
  end.

(** [child] replicates from [parent] in the topology [m]. *)
Definition replicates_from (m : gmap InstanceKey Instance)
  (child parent : InstanceKey) : Prop :=
  exists i, m !! child = Some i /\ UpstreamKey i = parent.

(** [s] is reachable via replication from [t]: a chain of upstream links
    leads from [s] to [t]. *)
Definition reachable_via_replication (m : gmap InstanceKey Instance)
  (t s : InstanceKey) : Prop :=
  tc (replicates_from m) s t.

(** *** The regroup engine *)

Definition rule_rank (r : CandidatePromotionRule) : Z :=
  match r with
  | must => 4
  | prefer => 3
  | neutral => 2
  | prefer_not => 1
  | must_not => 0
  end.

(** [a] ranks above [b]: promotion rule, then the more advanced executed
    position, then the data center of the dead upstream, then the version,
    and the smaller server id on a tie. *)
Definition ranks_above (dataCenter : string) (a b : Instance) : bool :=
  if negb (rule_rank (PromotionRule a) =? rule_rank (PromotionRule b)) then
    rule_rank (PromotionRule a) >? rule_rank (PromotionRule b)
  else
    match Cmp (ExecBinlogCoordinates a) (ExecBinlogCoordinates b) with
    | Gt => true
    | Lt => false
    | Eq =>
        let da := String.eqb (DataCenter a) dataCenter in
        let db := String.eqb (DataCenter b) dataCenter in
        if negb (Bool.eqb da db) then da
        else if negb (Version a =? Version b) then Version a >? Version b
        else ServerId a <? ServerId b
    end.

Definition can_replicate (i : Instance) : bool :=
  UsingGtid i || UsingPseudoGtid i || IsBinlogServer i.

Definition is_candidate (i : Instance) : bool :=
  can_replicate i && negb (bool_decide (PromotionRule i = must_not)).

Fixpoint choose_candidate (dataCenter : string)
  (rows : list (InstanceKey * Instance)) (best : option (InstanceKey * Instance))
  : option (InstanceKey * Instance) :=
  match rows with
  | [] => best
  | (k, i) :: rows' =>
      choose_candidate dataCenter rows'
        (if is_candidate i then
           match best with
           | Some (kb, b) => if ranks_above dataCenter i b then Some (k, i) else best
           | None => Some (k, i)
           end
         else best)
  end.

(** Modelled from the spec: the partition
    [(promoted, lost, equal, ahead, cannotReplicate)] that [Regroup]
    returns, by row key.  The handlers of [api.go] receive the four
    buckets in this order next to the promoted replica. *)
Record Regrouped : Type := {
  promoted : InstanceKey;
  lost : list InstanceKey;
  equal : list InstanceKey;
  ahead : list InstanceKey;
  cannotReplicate : list InstanceKey
}.


Definition replicas_of (st : Store) (upstream : InstanceKey)
  : list (InstanceKey * Instance) :=
  List.filter (fun row => bool_decide (UpstreamKey row.2 = upstream))
              (map_to_list (instances st)).

Definition into_lost (k : InstanceKey) (acc : Regrouped) : Regrouped :=
  {| promoted := promoted acc; lost := k :: lost acc; equal := equal acc;
     ahead := ahead acc; cannotReplicate := cannotReplicate acc |}.

Definition into_equal (k : InstanceKey) (acc : Regrouped) : Regrouped :=
  {| promoted := promoted acc; lost := lost acc; equal := k :: equal acc;
     ahead := ahead acc; cannotReplicate := cannotReplicate acc |}.

Definition into_ahead (k : InstanceKey) (acc : Regrouped) : Regrouped :=
  {| promoted := promoted acc; lost := lost acc; equal := equal acc;
     ahead := k :: ahead acc; cannotReplicate := cannotReplicate acc |}.

Definition into_cannotReplicate (k : InstanceKey) (acc : Regrouped) : Regrouped :=
  {| promoted := promoted acc; lost := lost acc; equal := equal acc;
     ahead := ahead acc; cannotReplicate := k :: cannotReplicate acc |}.

(** Modelled from the spec: step 5 of the regroup engine, the siblings of
    the candidate [c] one by one.  An incompatible sibling goes into
    [cannotReplicate] (step 2).  A sibling that must not be promoted is
    not re-enslaved and is left [lost] (scenario S4).  A sibling whose
    position is ahead of the candidate goes into [ahead] as it is.  Every
    other sibling is re-enslaved beneath the candidate through the
    relocation planner: when the planner cannot place it, it joins
    [lost]; when it is placed from the position of the candidate, it joins
    [equal]; when it is placed from a position behind, it is returned in
    the third bucket, [ahead], which is where invariant 2 together with
    scenario S4 puts a re-parented sibling and which [api.go] reports as
    the replicas moved. *)
Fixpoint reenslave (c : InstanceKey * Instance)
  (siblings : list (InstanceKey * Instance)) (acc : Regrouped) (st : Store)
  : Regrouped * Store :=
  match siblings with
  | [] => (acc, st)
  | (k, i) :: siblings' =>
      if bool_decide (k = c.1) then reenslave c siblings' acc st
      else if negb (can_replicate i) then
        reenslave c siblings' (into_cannotReplicate k acc) st
      else if bool_decide (PromotionRule i = must_not) then
        reenslave c siblings' (into_lost k acc) st
      else
        match Cmp (ExecBinlogCoordinates i) (ExecBinlogCoordinates c.2) with
        | Gt => reenslave c siblings' (into_ahead k acc) st
        | Eq =>
            match relocate st k c.1 with
            | inr (_, st') => reenslave c siblings' (into_equal k acc) st'
            | inl _ => reenslave c siblings' (into_lost k acc) st
            end
        | Lt =>
            match relocate st k c.1 with
            | inr (_, st') => reenslave c siblings' (into_ahead k acc) st'
            | inl _ => reenslave c siblings' (into_lost k acc) st
            end
        end
  end.

(** Modelled from the spec: [Regroup(deadUpstreamKey)] of the regroup
    engine (package [inst], absent from the sources): the replicas of the
    dead upstream as the store has them, the top candidate by rank, and
    the siblings re-enslaved beneath it through the relocation planner. *)
Definition Regroup (st : Store) (deadUpstreamKey : InstanceKey)
  : ErrorKind + Regrouped * Store :=
  let replicas := replicas_of st deadUpstreamKey in
  let dataCenter :=
    match instances st !! deadUpstreamKey with
    | Some dead => DataCenter dead
    | None => ""
    end in
  match choose_candidate dataCenter replicas None with
  | None => inl NoCandidate
  | Some c =>
      inr (reenslave c replicas
             {| promoted := c.1; lost := []; equal := []; ahead := [];
                cannotReplicate := [] |} st)
  end.

End Planner.

(** *** The recovery records *)

(** The record is an active recovery of the cluster: [EndRecovery] is
    NULL. *)
Definition is_active (clusterName : string) (r : TopologyRecovery) : bool :=
  negb (HttpAPI.not_nil (EndRecovery r))
  && String.eqb (AnalysisClusterName (AnalysisEntrySnapshot r)) clusterName.

(** Modelled from the spec: [logic.ReadActiveClusterRecovery], the rows of
    the cluster with [EndRecovery = NULL]. *)
Definition ReadActiveClusterRecovery (st : Store) (clusterName : string)
  : list TopologyRecovery :=
  List.filter (is_active clusterName) (recoveries st).

(** Modelled from the spec: opening a recovery under the cluster-scoped
    lock of the recovery orchestrator, with the compare-and-set of
    [INSERT ... WHERE NOT EXISTS]: the row is inserted only when the cluster
    has no active recovery, otherwise the attempt fails with
    [LockContended] and the store is as before. *)
Definition open_recovery (st : Store) (entry : AnalysisEntry)
  : ErrorKind + TopologyRecovery * Store :=
  if existsb (is_active (AnalysisClusterName entry)) (recoveries st) then
    inl LockContended
  else
    let r := {| Id := Z.of_nat (S (length (recoveries st)));
                AnalysisEntrySnapshot := entry;
                StartActive := clock st; EndRecovery := None;
                SuccessorKey := None; IsSuccessful := false;
                Acknowledged := false; AckBy := ""; AckComment := "" |} in
    inr (r, with_recoveries st (recoveries st ++ [r])).

Definition end_recovery (now : Z) (successor : option InstanceKey)
  (successful : bool) (r : TopologyRecovery) : TopologyRecovery :=
  {| Id := Id r; AnalysisEntrySnapshot := AnalysisEntrySnapshot r;
     StartActive := StartActive r; EndRecovery := Some now;
     SuccessorKey := successor; IsSuccessful := successful;
     Acknowledged := Acknowledged r; AckBy := AckBy r;
     AckComment := AckComment r |}.

(** Modelled from the spec: closing the recovery [id] when the promotion
    completes or fails. *)
Definition close_recovery (st : Store) (id : Z)
  (successor : option InstanceKey) (successful : bool) : Store :=
  with_recoveries st
    ((fun r => if Id r =? id then end_recovery (clock st) successor successful r
               else r) <$> recoveries st).

(** Modelled from the spec: closing the recoveries that timed out, those
    opened before [deadline] and still active. *)
Definition expire_recoveries (st : Store) (deadline : Z) : Store :=
  with_recoveries st
    ((fun r => if negb (HttpAPI.not_nil (EndRecovery r)) && (StartActive r <? deadline)
               then end_recovery (clock st) None false r
               else r) <$> recoveries st).

Definition acknowledged (owner comment : string) (r : TopologyRecovery)
  : TopologyRecovery :=
  {| Id := Id r; AnalysisEntrySnapshot := AnalysisEntrySnapshot r;
     StartActive := StartActive r; EndRecovery := EndRecovery r;
     SuccessorKey := SuccessorKey r; IsSuccessful := IsSuccessful r;
     Acknowledged := true; AckBy := owner; AckComment := comment |}.

(** Modelled from the spec: the operator acknowledgement of the recoveries
    selected by [which]; it returns how many records it marked. *)
Definition acknowledge (st : Store) (which : TopologyRecovery -> bool)
  (owner comment : string) : Z * Store :=
  let marks r := which r && negb (Acknowledged r) in
  (len (List.filter marks (recoveries st)),
   with_recoveries st
     ((fun r => if marks r then acknowledged owner comment r else r)
        <$> recoveries st)).

(** The operations on the store: the ones that open, close, expire or
    acknowledge recoveries, and any change of the instance rows. *)
Inductive step : Store -> Store -> Prop :=
| step_open st entry r st' :
    open_recovery st entry = inr (r, st') -> step st st'
| step_close st id successor successful :
    step st (close_recovery st id successor successful)
| step_expire st deadline :
    step st (expire_recoveries st deadline)
| step_acknowledge st which owner comment :
    step st (acknowledge st which owner comment).2
| step_topology st m :
    step st (with_instances st m).

(** The stores the system can be in. *)
Definition reachable_store (st : Store) : Prop := rtc step empty_store st.

(** Recovery exclusivity: at most one row of a cluster has
    [EndRecovery = NULL]. *)
Definition exclusive (st : Store) : Prop :=
  forall clusterName : string,
    (length (ReadActiveClusterRecovery st clusterName) <= 1)%nat.

(** *** The core as a backend of the handlers *)

(** Modelled from the spec: [inst.NewInstanceKeyFromStrings]; the key is
    the pair of host name and port, the resolver leaves the name as it
    is. *)
Definition NewInstanceKeyFromStrings (hostname port : string)
  : option InstanceKey * option error :=
  let '(p, err) := strconv.Atoi port in
  (Some {| Hostname := hostname; Port := p |},
   (fun _ => "Invalid port: " +:+ port) <$> err).

Definition rows (st : Store) (keys : list InstanceKey) : list (option Instance) :=
  (fun k => instances st !! k) <$> keys.

Section Backend.

Variable translate :
  Method -> Store -> Instance -> Instance -> ErrorKind + option BinlogCoordinates.

(** [inst.RegroupSlaves] with the results of the Go function. *)
Definition RegroupSlaves (st : Store) (masterKey : InstanceKey)
  : answer (inst_RegroupSlaves masterKey false) * Store :=
  match Regroup translate st masterKey with
  | inr (g, st') =>
      ((rows st' (lost g), rows st' (equal g), rows st' (ahead g),
        rows st' (cannotReplicate g), instances st' !! promoted g, None), st')
  | inl e => (([], [], [], [], None, Some (ErrorKind_Error e)), st)
  end.

Definition core (c : Call) : Store -> answer c * Store :=
  match c as c0 return Store -> answer c0 * Store with
  | inst_NewInstanceKeyFromStrings hostname port =>
      fun st => (NewInstanceKeyFromStrings hostname port, st)
  | inst_RelocateBelow instanceKey otherKey =>
      fun st => RelocateBelow translate st instanceKey otherKey
  | inst_RegroupSlaves masterKey _ =>
      fun st => RegroupSlaves st masterKey
  | logic_ReadActiveClusterRecovery clusterName =>
      fun st => ((ReadActiveClusterRecovery st clusterName, None), st)
  | logic_AcknowledgeRecovery recoveryId owner comment =>
      fun st =>
        let '(n, st') := acknowledge st (fun r => Id r =? recoveryId) owner comment in
        ((n, None), st')
  | logic_AcknowledgeClusterRecoveries clusterName owner comment =>
      fun st =>
        let '(n, st') :=
          acknowledge st
            (fun r => String.eqb (AnalysisClusterName (AnalysisEntrySnapshot r))
                                 clusterName)
            owner comment in
        ((n, None), st')
  | c0 => fun st => (zero_answer c0, st)
  end.

Definition backend : Backend := {| World := Store; perform := core |}.

End Backend.

End engine.

(** ** Properties of handler programs *)

(** The convention of the Go results that the handlers rely on when they
    read through a returned pointer: the key constructors always return a
    key, and a call that returns no error returns the value the handler
    goes on to read. *)
Definition honours (c : Call) : answer c -> bool :=
  match c as c0 return answer c0 -> bool with
  | inst_NewInstanceKeyFromStrings _ _ | inst_NewRawInstanceKey _ =>
      fun a => HttpAPI.not_nil a.1
  | inst_ReadInstance _ =>
      fun a => negb (a.1.2 && negb (HttpAPI.not_nil a.2)) || HttpAPI.not_nil a.1.1
  | inst_ReadTopologyInstance _ | inst_MakeCoMaster _
  | inst_ResetSlaveOperation _ | inst_DetachSlaveOperation _
  | inst_ReattachSlaveOperation _ | inst_ReattachSlaveMasterHost _
  | inst_EnableGTID _ | inst_DisableGTID _ | inst_SkipQuery _
  | inst_StartSlave _ | inst_RestartSlave _ | inst_StopSlave _
  | inst_StopSlaveNicely _ _ | inst_KillQuery _ _ =>
      fun a => HttpAPI.not_nil a.2 || HttpAPI.not_nil a.1
  | inst_MoveUpSlaves _ _ | inst_MatchUpSlaves _ _ | inst_MultiMatchSlaves _ _ _ =>
      fun a => HttpAPI.not_nil a.1.2 || HttpAPI.not_nil a.1.1.2
  | inst_FindLastPseudoGTIDEntry _ _ _ =>
      fun a => HttpAPI.not_nil a.2 || HttpAPI.not_nil a.1.1
  | inst_MatchBelow _ _ _ | inst_MatchUp _ _ =>
      fun a => HttpAPI.not_nil a.2 || HttpAPI.not_nil a.1.2
  | inst_RegroupSlaves _ _ | inst_RegroupSlavesPseudoGTID _ _
  | inst_RegroupSlavesGTID _ _ | inst_RegroupSlavesBinlogServers _ _ =>
      fun a => HttpAPI.not_nil a.2 || HttpAPI.not_nil a.1.2
  | _ => fun _ => true
  end.

(** A backend whose every answer honours the convention. *)
Definition conventional (B : Backend) : Prop :=
  forall (c : Call) (w : World B), honours c (perform B c w).1 = true.

(** Under answers that satisfy [ok] the program never panics, and every
    reply it can give satisfies [P]. *)
Fixpoint Replies {R : Type} (ok : forall c : Call, answer c -> bool)
  (P : R -> Prop) (p : Prog R) : Prop :=
  match p with
  | Done r => P r
  | Panic => False
  | Do c k => forall a : answer c, ok c a = true -> Replies ok P (k a)
  end.

(** Every call the program can make satisfies [P]. *)
Fixpoint AllCalls {R : Type} (P : Call -> Prop) (p : Prog R) : Prop :=
  match p with
  | Done _ | Panic => True
  | Do c k => P c /\ forall a : answer c, AllCalls P (k a)
  end.

(** The code of an envelope is one of the two the type names. *)
Definition code_ok (a : APIResponse) : Prop := Code a = ERROR \/ Code a = OK.

(** A response as the contract of the HTTP surface has it: a structured
    result, or an envelope whose code is [ERROR] or [OK]. *)
Definition well_formed (r : Response) : Prop :=
  match Payload r with
  | Envelope a => code_ok a
  | Result _ => True
  end.

Definition is_envelope (r : Response) : Prop :=
  match Payload r with
  | Envelope a => code_ok a
  | Result _ => False
  end.

(** The reply [{Code: ERROR, Message: msg}] with status 200. *)
Definition error_reply (msg : string) : Response :=
  {| Status := 200;
     Payload := Envelope {| Code := ERROR; Message := msg; Details := Nil |} |}.

Definition is_error_reply (r : Response) : Prop :=
  match Payload r with
  | Envelope a => Code a = ERROR
  | Result _ => False
  end.

(** The environment with another authorization check. *)
Definition with_authorization (env : HttpEnv)
  (check : Request -> User -> bool) : HttpEnv :=
  {| isAuthorizedForAction := check;
     getUserId := @getUserId env;
     Quote := @Quote env;
     SimpleTimeToSeconds := @SimpleTimeToSeconds env;
     DisplayString := @DisplayString env;
     fmt_InstanceKey := @fmt_InstanceKey env;
     fmt_BinlogCoordinates := @fmt_BinlogCoordinates env |}.

(** The calls that change the state of the topology, of the store or of a
    managed host, as opposed to the ones that only look something up. *)
Definition changes_state (c : Call) : bool :=
  match c with
  | config_Config | net_Dial _ _ | net_Conn_Close
  | inst_NewInstanceKeyFromStrings _ _ | inst_NewRawInstanceKey _
  | inst_ReadInstance _ | inst_ReadActiveMaintenance
  | inst_FindLastPseudoGTIDEntry _ _ _ | inst_GetEquivalentMasterCoordinates _
  | inst_ReadClusterInstances _ | inst_GetClusterByAlias _
  | inst_ReadClusterInfo _ | inst_GetClusterOSCSlaves _ | inst_ReadClusters
  | inst_ReadClustersInfo _ | inst_SearchInstances _
  | inst_ReadProblemInstances _ | inst_ReadRecentAudit _ _
  | inst_ReadLongRunningProcesses _ | inst_HostnameResolveCache
  | inst_ReadClusterPoolInstancesMap _ _ | inst_ReadClusterNameByAlias _
  | inst_GetHeuristicClusterPoolInstances _ _
  | inst_GetHeuristicClusterPoolInstancesLag _ _
  | inst_GetReplicationAnalysis _ _ _ | inst_ParseCandidatePromotionRule _
  | inst_ReadReplicationAnalysisChangelog | inst_GetMaintenanceOwner
  | agent_ReadAgents | agent_GetAgent _ | agent_ReadActiveSeedsForHost _
  | agent_ReadRecentCompletedSeedsForHost _ | agent_AgentSeedDetails _
  | agent_ReadSeedStates _ | agent_ReadRecentSeeds
  | process_HealthTest | process_SimpleHealthTest
  | logic_ReadFailureDetection _ | logic_ReadRecentFailureDetections _
  | logic_ReadRecovery _ | logic_ReadRecentRecoveries _ _ _
  | logic_ReadActiveClusterRecovery _ | logic_ReadRecentlyActiveClusterRecovery _
  | logic_ReadRecentlyActiveInstanceRecovery _ | logic_ReadBlockedRecoveries _ =>
      false
  | _ => true
  end.

(** A backend on which the calls that only look something up leave the
    state as it is. *)
Definition lookups_are_pure (B : Backend) : Prop :=
  forall (c : Call) (w : World B), changes_state c = false -> (perform B c w).2 = w.

(** The owner and the comment of an acknowledgement call. *)
Definition acknowledgement_of (c : Call) : option (string * string) :=
  match c with
  | logic_AcknowledgeClusterRecoveries _ owner comment
  | logic_AcknowledgeInstanceRecoveries _ owner comment
  | logic_AcknowledgeRecovery _ owner comment => Some (owner, comment)
  | _ => None
  end.

(** The answer of a [GetMaintenanceOwner] call. *)
Definition maintenance_owner_of (e : Event) : option string :=
  match e with
  | existT c a =>
      match c as c0 return answer c0 -> option string with
      | inst_GetMaintenanceOwner => fun owner => Some owner
      | _ => fun _ => None
      end a
  end.

(** The [skipProcesses] argument of a [CheckAndRecover] call. *)
Definition skipProcesses_of (c : Call) : option bool :=
  match c with
  | logic_CheckAndRecover _ _ skipProcesses => Some skipProcesses
  | _ => None
  end.

(** The lookup an acknowledgement handler makes for the user id: the
    maintenance owner, when the user id of the request is empty. *)
Definition owner_lookup {env : HttpEnv} (req : Request) (user : User) : list Call :=
  if String.eqb (getUserId req user) "" then [inst_GetMaintenanceOwner] else [].

(** The user id an acknowledgement is recorded with in the state [w]: the
    user id of the request, or the maintenance owner the core returns when
    that user id is empty. *)
Definition acknowledging_owner {env : HttpEnv} (req : Request) (user : User)
  (B : Backend) (w : World B) : string :=
  if String.eqb (getUserId req user) "" then (perform B inst_GetMaintenanceOwner w).1
  else getUserId req user.

Definition acknowledgement_handlers {env : HttpEnv}
  : list (Params -> Request -> User -> Prog Response) :=
  [HttpAPI.AcknowledgeClusterRecoveries; HttpAPI.AcknowledgeInstanceRecoveries;
   HttpAPI.AcknowledgeRecovery].

(** The routes whose handlers hand the bare result of the core to the
    renderer when the call succeeds: the agent and seed commands and the
    acknowledgements. *)
Definition bare_on_success (pattern : string) : bool :=
  String.prefix "/api/agent" pattern
  || String.prefix "/api/seeds" pattern
  || String.prefix "/api/ack-recovery" pattern.

(** The routes of the recover endpoint, and the ones of them that go
    through [RecoverLite]. *)
Definition recover_patterns : list string :=
  ["/api/recover/:host/:port";
   "/api/recover/:host/:port/:candidateHost/:candidatePort";
   "/api/recover-lite/:host/:port";
   "/api/recover-lite/:host/:port/:candidateHost/:candidatePort"].

Definition is_recover_lite (pattern : string) : bool :=
  String.prefix "/api/recover-lite/" pattern.

(** ** Concrete environments, requests and backends *)
Module example.

(** An environment that authorizes every request, takes the user name as
    the user id and prints keys as [host:port]. *)
Definition env : HttpEnv :=
  {| isAuthorizedForAction := fun _ _ => true;
     getUserId := fun _ user => user;
     Quote := json_Marshal_plain;
     SimpleTimeToSeconds :=
       fun s => ((strconv.Atoi s).1, strconv.Error json_Marshal_plain <$> (strconv.Atoi s).2);
     DisplayString := fun k => inst.Hostname k +:+ ":" +:+ fmt_d (inst.Port k);
     fmt_InstanceKey := fun k => inst.Hostname k +:+ ":" +:+ fmt_d (inst.Port k);
     fmt_BinlogCoordinates :=
       fun c => inst.LogFile c +:+ ":" +:+ fmt_d (inst.LogPos c) |}.

(** The same environment in read-only mode: nobody is authorized. *)
Definition read_only_env : HttpEnv := with_authorization env (fun _ _ => false).

Definition request (query : list (string * list string)) : Request :=
  {| URL_Query := list_to_map query; Header := blob "{}" |}.

Definition host_port (host port : string) : Params :=
  <["port" := port]> (<["host" := host]> ∅).

Definition Config : config.Configuration :=
  {| config.ServeAgentsHttp := true; config.StatusSimpleHealth := true;
     config.RecoverMasterClusterFilters := [];
     config.RecoverIntermediateMasterClusterFilters := [];
     config.RecoveryIgnoreHostnameFilters := [];
     config.StatusEndpoint := "/api/status" |}.

Definition key (host : string) : inst.InstanceKey :=
  {| inst.Hostname := host; inst.Port := 3306 |}.

Definition coordinates (pos : Z) : inst.BinlogCoordinates :=
  {| inst.LogFile := "mysql-bin.000007"; inst.LogPos := pos |}.

(** A replica of [upstream] in cluster [main], using GTID. *)
Definition replica (host upstream : string) (serverId pos : Z)
  (rule : inst.CandidatePromotionRule) (valid : bool) : inst.Instance :=
  {| inst.Key := key host; inst.ServerId := serverId; inst.Version := 57;
     inst.LogBinEnabled := true; inst.IsBinlogServer := false;
     inst.UsingPseudoGtid := false; inst.UpstreamKey := key upstream;
     inst.ReplicaIoRunning := false; inst.ReplicaSqlRunning := true;
     inst.ExecutedGtidSet := {[ "3E11FA47" := [(1, pos)] ]};
     inst.UsingGtid := true;
     inst.SelfCoordinates := coordinates pos;
     inst.ExecBinlogCoordinates := coordinates pos;
     inst.RelaylogCoordinates := coordinates pos;
     inst.ClusterName := "main"; inst.DataCenter := "dc1";
     inst.PromotionRule := rule; inst.IsLastCheckValid := valid |}.

(** The answers of a core that finds nothing: keys parse, every call
    that would return a pointer returns an error instead, every other call
    returns the zero value. *)
Definition unavailable (c : Call) : answer c :=
  match c as c0 return answer c0 with
  | inst_NewInstanceKeyFromStrings hostname port =>
      engine.NewInstanceKeyFromStrings hostname port
  | inst_NewRawInstanceKey hostPort =>
      (Some {| inst.Hostname := hostPort; inst.Port := 0 |}, Some "Invalid port")
  | inst_ReadInstance _ => (None, false, None)
  | inst_ReadTopologyInstance _ | inst_MakeCoMaster _
  | inst_ResetSlaveOperation _ | inst_DetachSlaveOperation _
  | inst_ReattachSlaveOperation _ | inst_ReattachSlaveMasterHost _
  | inst_EnableGTID _ | inst_DisableGTID _ | inst_SkipQuery _
  | inst_StartSlave _ | inst_RestartSlave _ | inst_StopSlave _
  | inst_StopSlaveNicely _ _ | inst_KillQuery _ _ =>
      (None, Some "unavailable")
  | inst_MoveUpSlaves _ _ | inst_MatchUpSlaves _ _ | inst_MultiMatchSlaves _ _ _ =>
      ([], None, Some "unavailable", [])
  | inst_FindLastPseudoGTIDEntry _ _ _ => (None, "", Some "unavailable")
  | inst_MatchBelow _ _ _ | inst_MatchUp _ _ => (None, None, Some "unavailable")
  | inst_RegroupSlaves _ _ | inst_RegroupSlavesPseudoGTID _ _ =>
      ([], [], [], [], None, Some "unavailable")
  | inst_RegroupSlavesGTID _ _ => ([], [], [], None, Some "unavailable")
  | inst_RegroupSlavesBinlogServers _ _ => ([], None, Some "unavailable")
  | c0 => zero_answer c0
  end.

(** A backend that knows the configuration, answers the regroup calls with
    the given buckets and the promoted replica [db2], acknowledges one
    recovery, and finds nothing else. *)
Definition regroup_script (lostSlaves cannotReplicateSlaves : list (option inst.Instance))
  (c : Call) : answer c :=
  match c as c0 return answer c0 with
  | config_Config => Config
  | inst_NewInstanceKeyFromStrings hostname port =>
      engine.NewInstanceKeyFromStrings hostname port
  | inst_RegroupSlaves _ _ | inst_RegroupSlavesPseudoGTID _ _ =>
      (lostSlaves, [], [], cannotReplicateSlaves,
       Some (replica "db2" "db1" 2 100 inst.prefer true), None)
  | inst_RegroupSlavesGTID _ _ =>
      (lostSlaves, [], cannotReplicateSlaves,
       Some (replica "db2" "db1" 2 100 inst.prefer true), None)
  | logic_AcknowledgeRecovery _ _ _ => (1, None)
  | c0 => unavailable c0
  end.

Definition db3 : option inst.Instance := Some (replica "db3" "db1" 3 90 inst.neutral true).
Definition db4 : option inst.Instance := Some (replica "db4" "db1" 4 80 inst.neutral true).

(** What the regroup handler [h] replies when the engine returns the
    buckets [lostSlaves] and [cannotReplicateSlaves]. *)
Definition regroup_reply (h : Params -> Request -> User -> Prog Response)
  (lostSlaves cannotReplicateSlaves : list (option inst.Instance))
  : Outcome Response :=
  (run (scripted (regroup_script lostSlaves cannotReplicateSlaves))
       (h (host_port "db1" "3306") (request []) "operator") tt).1.1.

(** The requests of the examples on dropped parse errors: a kill-query
    with neither a port nor a process id that parses, and an abort-seed
    with a seed id beyond the 64-bit integers. *)
Definition killQuery_unparsable : Outcome Response * list Event * unit :=
  run (scripted (regroup_script [] []))
      (HttpAPI.KillQuery (env := env)
         (<["process" := "abc"]> (host_port "db1" "x")) (request []) "operator") tt.

Definition abortSeed_out_of_range : Outcome Response * list Event * unit :=
  run (scripted (regroup_script [] []))
      (HttpAPI.AbortSeed (env := env)
         (<["seedId" := "9223372036854775808"]> ∅) (request []) "operator") tt.

(** The coordinate arithmetic of the examples: GTID auto-positions, the
    pseudo-GTID matcher finds diverged histories, every other method
    continues at the position of the target. *)
Definition translate (m : engine.Method) (st : engine.Store) (s t : inst.Instance)
  : engine.ErrorKind + option inst.BinlogCoordinates :=
  match m with
  | engine.Gtid => inr None
  | engine.PseudoGtid => inl engine.DivergedHistories
  | _ => inr (Some (inst.SelfCoordinates t))
  end.

(** The dead-primary scenario of the specification: [db1] is the primary,
    [db2] is preferred and most advanced, [db3] is neutral and behind,
    [db4] must not be promoted and was not valid at its last check. *)
Definition topology : engine.Store :=
  {| engine.instances :=
       list_to_map
         [(key "db1", replica "db1" "" 1 100 inst.neutral false);
          (key "db2", replica "db2" "db1" 2 100 inst.prefer true);
          (key "db3", replica "db3" "db1" 3 90 inst.neutral true);
          (key "db4", replica "db4" "db1" 4 80 inst.must_not false)];
     engine.equivalences := [];
     engine.recoveries := [];
     engine.clock := 0 |}.

(** [db3] moved below its sibling [db2]. *)
Definition relocated : option inst.Instance * option error * engine.Store :=
  engine.RelocateBelow translate topology (key "db3") (key "db2").

Definition relocated_instance : inst.Instance :=
  default (replica "" "" 0 0 inst.neutral false) relocated.1.1.




(** A backend like [regroup_script] on which the maintenance owner is
    [dba]. *)
Definition maintained_script (c : Call) : answer c :=
  match c as c0 return answer c0 with
  | inst_GetMaintenanceOwner => "dba"
  | c0 => regroup_script [] [] c0
  end.

Definition dead_primary : logic.AnalysisEntry :=
  {| logic.Analysis := logic.DeadPrimary; logic.AnalysisClusterName := "main";
     logic.AnalyzedInstanceKey := key "db1"; logic.CountReplicas := 3;
     logic.IsDowntimed := false |}.

(** The store after a recovery of cluster [main] was opened. *)
Definition recovering : engine.Store :=
  match engine.open_recovery topology dead_primary with
  | inr (_, st) => st
  | inl _ => topology
  end.

End example.

(** The routes of the operator-initiated operations that always answer
    with the envelope: the ones registered with the user, apart from the
    ones that hand on a bare result. *)
Definition envelope_only (pattern : string) (h : HttpAPI.Handler) : bool :=
  match h with
  | HttpAPI.WithUser _ => negb (bare_on_success pattern)
  | HttpAPI.WithoutUser _ => false
  end.

(** The shape of the replies of a route. *)
Definition reply_shape (pattern : string) (h : HttpAPI.Handler) (r : Response) : Prop :=
  well_formed r
  /\ (forall a, Payload r = Envelope a ->
        APIResponseCode_String (Code a) = "ERROR"
        \/ APIResponseCode_String (Code a) = "OK")
  /\ (envelope_only pattern h = true -> is_envelope r).


(** ** Further properties of handler programs *)

(** Every reply the program can give satisfies [P]. *)
Fixpoint EveryReply {R : Type} (P : R -> Prop) (p : Prog R) : Prop :=
  match p with
  | Done r => P r
  | Panic => True
  | Do c k => forall a : answer c, EveryReply P (k a)
  end.

(** The program makes at most [n] state-changing calls. *)
Fixpoint Mutations {R : Type} (n : nat) (p : Prog R) : Prop :=
  match p with
  | Done _ | Panic => True
  | Do c k =>
      if changes_state c then
        match n with
        | O => False
        | S n' => forall a : answer c, Mutations n' (k a)
        end
      else forall a : answer c, Mutations n (k a)
  end.

(** The [error] among the results of a call; the calls that return none
    never fail. *)
Definition error_of (c : Call) : answer c -> option error :=
  match c as c0 return answer c0 -> option error with
  | config_Config | config_Reload | net_Conn_Close | inst_GetMaintenanceOwner =>
      fun _ => None
  | net_Dial _ _ | inst_ForgetInstance _ | inst_EndMaintenance _
  | inst_EndMaintenanceByInstanceKey _ | inst_BeginDowntime _ _ _ _
  | inst_EndDowntime _ | inst_SetClusterAlias _ _
  | inst_ResetHostnameResolveCache | inst_ApplyPoolInstances _ _
  | inst_RegisterCandidateInstance _ _ | inst_AuditOperation _ _ _
  | agent_AbortSeed _ | process_GrabElection | process_Reelect =>
      fun a => a
  | inst_MoveUpSlaves _ _ | inst_MatchUpSlaves _ _ | inst_MultiMatchSlaves _ _ _
  | inst_MoveSlavesGTID _ _ _ | inst_RelocateSlaves _ _ _
  | inst_RepointSlaves _ _ =>
      fun a => a.1.2
  | _ => fun a => a.2
  end.

(** The call of the event returned an error. *)
Definition failed (e : Event) : bool :=
  HttpAPI.not_nil (error_of (projT1 e) (projT2 e)).

(** The program makes no call, and replies nothing but an [ERROR]
    envelope. *)
Definition refuses (p : Prog Response) : Prop :=
  match p with
  | Done r => is_error_reply r
  | Panic => True
  | Do _ _ => False
  end.

(** The program stops at the first call that returns an error. *)
Fixpoint FailStop (p : Prog Response) : Prop :=
  match p with
  | Done _ | Panic => True
  | Do c k =>
      forall a : answer c,
        match error_of c a with
        | Some _ => refuses (k a)
        | None => FailStop (k a)
        end
  end.

(** The routes whose handlers go on after an error: the ones of [Forget],
    [KillQuery], [Audit], [Recover], [RecoverLite] and
    [ReloadConfiguration]. *)
Definition error_dropping_patterns : list string :=
  ["/api/forget/:host/:port";
   "/api/kill-query/:host/:port/:process";
   "/api/audit"; "/api/audit/:page";
   "/api/audit/instance/:host/:port"; "/api/audit/instance/:host/:port/:page";
   "/api/recover/:host/:port";
   "/api/recover/:host/:port/:candidateHost/:candidatePort";
   "/api/recover-lite/:host/:port";
   "/api/recover-lite/:host/:port/:candidateHost/:candidatePort";
   "/api/reload-configuration"].

(** The handlers of the agent and seed routes. *)
Definition agent_handlers {env : HttpEnv}
  : list (Params -> Request -> User -> Prog Response) :=
  [HttpAPI.Agents; HttpAPI.Agent; HttpAPI.AgentUnmount; HttpAPI.AgentMountLV;
   HttpAPI.AgentCreateSnapshot; HttpAPI.AgentRemoveLV; HttpAPI.AgentMySQLStop;
   HttpAPI.AgentMySQLStart; HttpAPI.AgentCustomCommand; HttpAPI.AgentSeed;
   HttpAPI.AgentActiveSeeds; HttpAPI.AgentRecentSeeds; HttpAPI.AgentSeedDetails;
   HttpAPI.AgentSeedStates; HttpAPI.Seeds; HttpAPI.AbortSeed].

(** The page a call asks for. *)
Definition page_of (c : Call) : option Z :=
  match c with
  | inst_ReadRecentAudit _ page
  | logic_ReadRecentFailureDetections page
  | logic_ReadRecentRecoveries _ _ page => Some page
  | _ => None
  end.

(** The page a request names: the number in its [page] parameter when it
    is one and is not negative, the first page otherwise. *)
Definition requested_page (params : Params) : Z :=
  match strconv.Atoi (param params "page") with
  | (page, None) => if page <? 0 then 0 else page
  | (_, Some _) => 0
  end.

(** The record a request names by its [id] parameter, when that is a
    positive number. *)
Definition requested_id (params : Params) : option Z :=
  match strconv.ParseInt (param params "id") with
  | (id, None) => if id >? 0 then Some id else None
  | (_, Some _) => None
  end.

(** The seconds of a [BeginDowntime] call. *)
Definition downtime_seconds_of (c : Call) : option Z :=
  match c with
  | inst_BeginDowntime _ _ _ durationSeconds => Some durationSeconds
  | _ => None
  end.

(** The event is a [net.Dial] that returned a connection. *)
Definition opens (e : Event) : bool :=
  match e with
  | existT c a =>
      match c as c0 return answer c0 -> bool with
      | net_Dial _ _ => fun err => negb (HttpAPI.not_nil err)
      | _ => fun _ => false
      end a
  end.

(** The event is the [Close] of a connection. *)
Definition closes (e : Event) : bool :=
  match call_of e with
  | net_Conn_Close => true
  | _ => false
  end.

(** With [n] connections open, the program ends with none open, whether
    it replies or panics, and closes none that it did not open. *)
Fixpoint Balanced {R : Type} (n : nat) (p : Prog R) : Prop :=
  match p with
  | Done _ | Panic => n = O
  | Do c k =>
      forall a : answer c,
        if opens (event c a) then Balanced (S n) (k a)
        else if closes (event c a) then
          match n with
          | O => False
          | S n' => Balanced n' (k a)
          end
        else Balanced n (k a)
  end.

(** The event is a [NewInstanceKeyFromStrings] that returned a nil key. *)
Definition nil_key (e : Event) : bool :=
  match e with
  | existT c a =>
      match c as c0 return answer c0 -> bool with
      | inst_NewInstanceKeyFromStrings _ _ => fun a => negb (HttpAPI.not_nil a.1)
      | _ => fun _ => false
      end a
  end.

(** The program panics, without another call, as soon as a key it asked
    for is nil. *)
Fixpoint NilKeyPanics {R : Type} (p : Prog R) : Prop :=
  match p with
  | Done _ | Panic => True
  | Do c k =>
      forall a : answer c,
        if nil_key (event c a) then k a = Panic else NilKeyPanics (k a)
  end.

(** Two patterns that one path can match: as many segments, and at each
    place the same literal or at least one name. *)
Fixpoint overlapping (p q : list martini.Segment) : bool :=
  match p, q with
  | [], [] => true
  | [martini.Lit s], [] | [], [martini.Lit s] => String.eqb s ""
  | martini.Lit s :: p', martini.Lit t :: q' => String.eqb s t && overlapping p' q'
  | _ :: p', _ :: q' => overlapping p' q'
  | _, _ => false
  end.

Definition patterns_overlap (p q : string) : bool :=
  match martini.segments p, martini.segments q with
  | Some a, Some b => overlapping (martini.segment <$> a) (martini.segment <$> b)
  | _, _ => false
  end.

(** The routes with a fixed pattern: all but the last, the status
    endpoint. *)
Definition fixed_routes {env : HttpEnv} (Config : config.Configuration)
  : list (string * HttpAPI.Handler) :=
  take 130 (HttpAPI.RegisterRequests Config).

(** * Proofs *)

Create HintDb handlers.

#[local] Hint Unfold
  HttpAPI.Instance HttpAPI.Discover HttpAPI.Refresh HttpAPI.Forget HttpAPI.Resolve
  HttpAPI.BeginMaintenance HttpAPI.EndMaintenance HttpAPI.EndMaintenanceByInstanceKey
  HttpAPI.Maintenance HttpAPI.BeginDowntime HttpAPI.EndDowntime HttpAPI.MoveUp
  HttpAPI.MoveUpSlaves HttpAPI.RepointSlaves HttpAPI.MakeCoMaster HttpAPI.ResetSlave
  HttpAPI.DetachSlave HttpAPI.ReattachSlave HttpAPI.ReattachSlaveMasterHost
  HttpAPI.EnableGTID HttpAPI.DisableGTID HttpAPI.MoveBelow HttpAPI.MoveBelowGTID
  HttpAPI.MoveSlavesGTID HttpAPI.EnslaveSiblings HttpAPI.EnslaveMaster
  HttpAPI.RelocateBelow HttpAPI.RelocateSlaves HttpAPI.MoveEquivalent
  HttpAPI.LastPseudoGTID HttpAPI.MatchBelow HttpAPI.MatchUp HttpAPI.MultiMatchSlaves
  HttpAPI.MatchUpSlaves HttpAPI.RegroupSlaves HttpAPI.RegroupSlavesPseudoGTID
  HttpAPI.RegroupSlavesGTID HttpAPI.RegroupSlavesBinlogServers HttpAPI.MakeMaster
  HttpAPI.MakeLocalMaster HttpAPI.SkipQuery HttpAPI.StartSlave HttpAPI.RestartSlave
  HttpAPI.StopSlave HttpAPI.StopSlaveNicely HttpAPI.MasterEquivalent
  HttpAPI.SetReadOnly HttpAPI.SetWriteable HttpAPI.KillQuery HttpAPI.Cluster
  HttpAPI.ClusterByAlias HttpAPI.ClusterByInstance HttpAPI.ClusterInfo
  HttpAPI.ClusterInfoByAlias HttpAPI.ClusterOSCSlaves HttpAPI.SetClusterAlias
  HttpAPI.Clusters HttpAPI.ClustersInfo HttpAPI.Search HttpAPI.Problems
  HttpAPI.Audit HttpAPI.LongQueries HttpAPI.HostnameResolveCache
  HttpAPI.ResetHostnameResolveCache HttpAPI.SubmitPoolInstances
  HttpAPI.ReadClusterPoolInstancesMap HttpAPI.GetHeuristicClusterPoolInstances
  HttpAPI.GetHeuristicClusterPoolInstancesLag HttpAPI.ReloadClusterAlias
  HttpAPI.Agents HttpAPI.Agent HttpAPI.AgentUnmount HttpAPI.AgentMountLV
  HttpAPI.AgentCreateSnapshot HttpAPI.AgentRemoveLV HttpAPI.AgentMySQLStop
  HttpAPI.AgentMySQLStart HttpAPI.AgentCustomCommand HttpAPI.AgentSeed
  HttpAPI.AgentActiveSeeds HttpAPI.AgentRecentSeeds HttpAPI.AgentSeedDetails
  HttpAPI.AgentSeedStates HttpAPI.Seeds HttpAPI.AbortSeed HttpAPI.Headers
  HttpAPI.Health HttpAPI.LBCheck HttpAPI.StatusCheck HttpAPI.GrabElection
  HttpAPI.Reelect HttpAPI.ReloadConfiguration HttpAPI.ReplicationAnalysis
  HttpAPI.Recover HttpAPI.RecoverLite HttpAPI.RegisterCandidate
  HttpAPI.AutomatedRecoveryFilters HttpAPI.AuditFailureDetection
  HttpAPI.ReadReplicationAnalysisChangelog HttpAPI.AuditRecovery
  HttpAPI.ActiveClusterRecovery HttpAPI.RecentlyActiveClusterRecovery
  HttpAPI.RecentlyActiveInstanceRecovery HttpAPI.AcknowledgeClusterRecoveries
  HttpAPI.AcknowledgeInstanceRecoveries HttpAPI.AcknowledgeRecovery
  HttpAPI.BlockedRecoveries
  HttpAPI.getInstanceKey HttpAPI.getBinlogCoordinates : handlers.

(** Case analysis on everything a handler branches on. *)
Ltac crush_handler :=
  repeat first
    [ progress (cbn [Replies AllCalls mbind mret Prog_mbind Prog_ret Prog_bind call
                     deref fst snd honours HttpAPI.not_nil negb orb andb fmap
                     option_fmap option_map Payload Code changes_state] in * )
    | progress intros
    | progress unfold well_formed, is_envelope, code_ok, JSON, JSON_value,
        HttpAPI.reply_error in *
    | discriminate
    | match goal with
      | |- True => exact I
      | |- _ /\ _ => split
      | |- _ = _ => reflexivity
      | |- _ \/ _ => first [left; reflexivity | right; reflexivity]
      | a : _ * _ |- _ => destruct a
      | a : option _ |- _ => destruct a
      | a : bool |- _ => destruct a
      | |- context [if ?b then _ else _] => destruct b
      | |- context [match ?x with _ => _ end] => destruct x
      end ].

(** One goal per registered route, with the pattern and the handler of the
    route substituted. *)
Ltac each_route H tac :=
  unfold HttpAPI.RegisterRequests in H;
  repeat (apply elem_of_cons in H as [H|H];
          [ first [ discriminate H | injection H as -> ->; tac ] | ]);
  try (apply elem_of_nil in H; destruct H).

(** A given route is one of the registered ones. *)
Ltac find_route :=
  unfold HttpAPI.RegisterRequests;
  repeat first [ apply elem_of_cons; left; reflexivity | apply elem_of_cons; right ].

(** Following a run against an arbitrary backend through every branch. *)
Ltac walk_run :=
  repeat first
    [ progress cbn
    | match goal with
      | a : _ * _ |- _ => destruct a
      | a : option _ |- _ => destruct a
      | |- context [if ?b then _ else _] => destruct b eqn:?
      | |- context [match strconv.ParseInt ?s with _ => _ end] =>
          destruct (strconv.ParseInt s) as [? [?|]]
      end
    | match goal with
      | |- context [perform ?B ?c ?w] =>
          let a := fresh "a" in
          let w' := fresh "w" in
          destruct (perform B c w) as [a w'] eqn:?; cbn [answer fst snd] in *
      end ].

(** The cases of a membership in an explicit list of events or calls. *)
Ltac pick_event H :=
  repeat (apply elem_of_cons in H as [H|H];
          [ first [ discriminate H | injection H as -> -> | injection H as -> ] | ]);
  try (apply elem_of_nil in H; destruct H).

(** The next call of a run against an arbitrary backend. *)
Ltac next_call :=
  match goal with
  | |- context [perform ?B ?c ?w] =>
      let a := fresh "a" in
      let w' := fresh "w" in
      let E := fresh "E" in
      destruct (perform B c w) as [a w'] eqn:E; cbn [fst snd] in *
  end.

(** ** Runs and programs *)

Lemma run_replies {R : Type} (B : Backend) (P : R -> Prop) (p : Prog R) :
  conventional B -> Replies honours P p ->
  forall w : World B, exists r : R, (run B p w).1.1 = Replied r /\ P r.
Proof.
  intros HB. induction p as [r| |c k IH]; simpl; intros Hp w.
  - eauto.
  - destruct Hp.
  - specialize (HB c w). destruct (perform B c w) as [a w1]. simpl in HB.
    destruct (IH a (Hp a HB) w1) as (r & Hr & HP).
    destruct (run B (k a) w1) as [[o ev] w2]. simpl in *. eauto.
Qed.

Lemma run_all_calls {R : Type} (B : Backend) (P : Call -> Prop) (p : Prog R) :
  AllCalls P p ->
  forall w : World B, Forall (fun e => P (call_of e)) (run B p w).1.2.
Proof.
  induction p as [r| |c k IH]; simpl; intros Hp w.
  - constructor.
  - constructor.
  - destruct Hp as [Hc Hk]. destruct (perform B c w) as [a w1].
    specialize (IH a (Hk a) w1).
    destruct (run B (k a) w1) as [[o ev] w2]. simpl in *. constructor; auto.
Qed.

Lemma run_lookups {R : Type} (B : Backend) (p : Prog R) :
  lookups_are_pure B ->
  forall w : World B,
    Forall (fun e => changes_state (call_of e) = false) (run B p w).1.2 ->
    (run B p w).2 = w.
Proof.
  intros HB. induction p as [r| |c k IH]; simpl; intros w Hp; try reflexivity.
  specialize (HB c w). destruct (perform B c w) as [a w1]. simpl in HB.
  specialize (IH a w1).
  destruct (run B (k a) w1) as [[o ev] w2]. simpl in *.
  inversion Hp as [|e l He Hl]; subst. simpl in He.
  rewrite (IH Hl). auto.
Qed.

Lemma example_backend_conventional lostSlaves cannotReplicateSlaves :
  conventional (scripted (example.regroup_script lostSlaves cannotReplicateSlaves)).
Proof.
  intros c w. destruct c; try reflexivity.
  cbn. unfold engine.NewInstanceKeyFromStrings.
  destruct (strconv.Atoi port). reflexivity.
Qed.

(** ** Routing *)

Lemma route_elem_of {H : Type} (routes : list (string * H)) path pattern h params :
  martini.route routes path = Some (pattern, h, params) -> (pattern, h) ∈ routes.
Proof.
  induction routes as [|[p0 h0] routes IH]; simpl; [discriminate|].
  destruct (martini.match_route p0 path).
  - intros [= <- <- <-]. left.
  - intros H1. right. auto.
Qed.

(** ** Authorization (C10) *)

Lemma gated_route_refuses {env : HttpEnv} (Config : config.Configuration) pattern h :
  (pattern, HttpAPI.WithUser h) ∈ HttpAPI.RegisterRequests Config ->
  forall params req user,
    isAuthorizedForAction req user = false ->
    h params req user = Done (error_reply "Unauthorized").
Proof.
  intros Hin.
  each_route Hin
    ltac:(intros params req user Hauth; autounfold with handlers;
          rewrite ?Hauth; reflexivity).
Qed.

Lemma ungated_route_looks_up {env : HttpEnv} (Config : config.Configuration) pattern h :
  (pattern, HttpAPI.WithoutUser h) ∈ HttpAPI.RegisterRequests Config ->
  forall params req, AllCalls (fun c => changes_state c = false) (h params req).
Proof.
  intros Hin.
  each_route Hin ltac:(intros params req; autounfold with handlers; crush_handler).
Qed.

(** C10. Every handler registered with the user (all the state-changing
    endpoints: discovery, maintenance and downtime, relocation, regroup,
    replication control, recovery, acknowledgement, agent commands), when
    [isAuthorizedForAction] is false, replies [{Code: ERROR, Message:
    "Unauthorized"}], makes no call at all and leaves the state as it is.
    The handlers registered without the user, such as [Instance], make no
    state-changing call and are the same program whatever the
    authorization check is: they do not consult it. *)
Theorem C10_unauthorized_requests_are_refused
  {env : HttpEnv} (Config : config.Configuration) :
  (forall pattern h,
      (pattern, HttpAPI.WithUser h) ∈ HttpAPI.RegisterRequests Config ->
      forall params req user,
        isAuthorizedForAction req user = false ->
        forall (B : Backend) (w : World B),
          run B (h params req user) w
          = (Replied (error_reply "Unauthorized"), [], w))
  /\ (forall pattern h,
         (pattern, HttpAPI.WithoutUser h) ∈ HttpAPI.RegisterRequests Config ->
         forall params req (B : Backend) (w : World B),
           Forall (fun e => changes_state (call_of e) = false)
                  (run B (h params req) w).1.2)
  /\ (forall check : Request -> User -> bool,
         Forall2 (fun r1 r2 =>
                    r1.1 = r2.1
                    /\ match r1.2, r2.2 with
                       | HttpAPI.WithoutUser h1, HttpAPI.WithoutUser h2 => h1 = h2
                       | HttpAPI.WithUser _, HttpAPI.WithUser _ => True
                       | _, _ => False
                       end)
                 (HttpAPI.RegisterRequests (env := env) Config)
                 (HttpAPI.RegisterRequests (env := with_authorization env check) Config))
  /\ (forall check : Request -> User -> bool,
         HttpAPI.Instance (env := with_authorization env check)
         = HttpAPI.Instance (env := env)).
Proof.
  split; [|split; [|split]].
  - intros pattern h Hin params req user Hauth B w.
    rewrite (gated_route_refuses Config pattern h Hin params req user Hauth).
    reflexivity.
  - intros pattern h Hin params req B w.
    apply (run_all_calls B (fun c => changes_state c = false)).
    eapply ungated_route_looks_up; eauto.
  - intros check. unfold HttpAPI.RegisterRequests.
    repeat (constructor; [split; [reflexivity | first [exact I | reflexivity]] | ]).
    constructor.
  - reflexivity.
Qed.

(** The discover route in read-only mode. *)
Lemma C10_read_only_discover_is_refused :
  run (scripted example.unavailable)
      (HttpAPI.Discover (env := example.read_only_env)
         (example.host_port "db1" "3306") (example.request []) "operator") tt
  = (Replied (error_reply "Unauthorized"), [], tt).
Proof.
  apply (proj1 (C10_unauthorized_requests_are_refused
                  (env := example.read_only_env) example.Config)
               "/api/discover/:host/:port"
               (HttpAPI.Discover (env := example.read_only_env))).
  - find_route.
  - reflexivity.
Defined.

(** ** The response envelope (C3) *)

Lemma code_ok_String (a : APIResponse) :
  code_ok a ->
  APIResponseCode_String (Code a) = "ERROR" \/ APIResponseCode_String (Code a) = "OK".
Proof. intros [H|H]; rewrite H; [left|right]; reflexivity. Qed.

Lemma well_formed_shape pattern h (r : Response) :
  well_formed r -> (envelope_only pattern h = true -> is_envelope r) ->
  reply_shape pattern h r.
Proof.
  intros Hw He. split; [assumption|split; [|assumption]].
  intros a Ha. unfold well_formed in Hw. rewrite Ha in Hw.
  apply code_ok_String, Hw.
Qed.

Lemma every_route_replies {env : HttpEnv} (Config : config.Configuration) pattern h :
  (pattern, h) ∈ HttpAPI.RegisterRequests Config ->
  forall params req user,
    Replies honours
      (fun r => well_formed r /\ (envelope_only pattern h = true -> is_envelope r))
      (HttpAPI.invoke h params req user).
Proof.
  intros Hin.
  each_route Hin
    ltac:(intros params req user; cbn [HttpAPI.invoke envelope_only];
          autounfold with handlers;
          first [ change (bare_on_success _) with true
                | change (bare_on_success _) with false ];
          cbn [negb]; crush_handler).
Qed.

(** C3 (as amended). For every request that a registered route matches,
    against a core that honours the convention on nil results, the handler
    replies, and the reply is a bare structured result or an envelope whose
    code is [ERROR] or [OK] and serializes to one of these two words.  The
    operator-initiated operations always reply with that envelope, except
    the agent, seed and acknowledgement routes, which hand on the bare
    result of the core when the call succeeds. *)
Theorem C3_reply_is_a_result_or_an_envelope
  {env : HttpEnv} (Config : config.Configuration) (path : string)
  (req : Request) (user : User) (pattern : string) (h : HttpAPI.Handler)
  (params : Params) (B : Backend) (w : World B) :
  martini.route (HttpAPI.RegisterRequests Config) path = Some (pattern, h, params) ->
  conventional B ->
  exists r : Response,
    (run B (HttpAPI.invoke h params req user) w).1.1 = Replied r
    /\ reply_shape pattern h r.
Proof.
  intros Hroute HB.
  apply route_elem_of in Hroute.
  destruct (run_replies B _ _ HB
              (every_route_replies Config pattern h Hroute params req user) w)
    as (r & Hr & Hw & He).
  exists r. split; [assumption|]. apply well_formed_shape; assumption.
Qed.

(** The discover route against a core that finds nothing. *)
Lemma C3_discover_replies_an_envelope :
  exists r : Response,
    (run (scripted (example.regroup_script [] []))
         (HttpAPI.invoke (HttpAPI.WithUser (HttpAPI.Discover (env := example.env)))
            (example.host_port "db1" "3306") (example.request []) "operator") tt).1.1
    = Replied r
    /\ reply_shape "/api/discover/:host/:port"
         (HttpAPI.WithUser (HttpAPI.Discover (env := example.env))) r.
Proof.
  apply (C3_reply_is_a_result_or_an_envelope (env := example.env) example.Config
           "/api/discover/db1/3306").
  - vm_compute. reflexivity.
  - apply (example_backend_conventional [] []).
Defined.

(** C3, as stated, fails: the acknowledgement of a recovery is an
    operator-initiated operation, and when it succeeds the reply is the
    bare count of acknowledged recoveries, not an envelope. *)
Lemma C3_acknowledgement_replies_a_bare_count :
  exists (prog : Prog Response) (r : Response),
    HttpAPI.serve (env := example.env) example.Config "/api/ack-recovery/7"
      (example.request [("comment", ["done"])]) "operator" = Some prog
    /\ (run (scripted (example.regroup_script [] [])) prog tt).1.1 = Replied r
    /\ Payload r = Result (Int 1)
    /\ ~ is_envelope r.
Proof.
  eexists _, _. split; [vm_compute; reflexivity|].
  split; [vm_compute; reflexivity|].
  split; [reflexivity|]. intros [].
Qed.

(** ** Regroup replies (C1) *)

(** C1 (as amended). For every authorized call of the three regroup
    endpoints whose engine call returns without an error, the reply is the
    [OK] envelope with the key of the promoted replica as [Details]; its
    message reports as lost the size of the lost bucket plus the size of
    the cannotReplicate bucket (the slice the handler appended), next to the
    sizes of the other buckets.  The cannotReplicate bucket is not reported
    on its own. *)
Theorem C1_regroup_reports_the_merged_lost_count
  {env : HttpEnv} (params : Params) (req : Request) (user : User)
  (B : Backend) (w : World B) :
  isAuthorizedForAction req user = true ->
  forall (instanceKey : inst.InstanceKey) (w1 : World B),
    perform B (inst_NewInstanceKeyFromStrings (param params "host")
                                              (param params "port")) w
    = ((Some instanceKey, None), w1) ->
    (forall lost equal ahead cannotReplicate promoted w2,
        perform B (inst_RegroupSlaves instanceKey false) w1
        = ((lost, equal, ahead, cannotReplicate, Some promoted, None), w2) ->
        (run B (HttpAPI.RegroupSlaves params req user) w).1.1
        = Replied
            {| Status := 200;
               Payload :=
                 Envelope
                   {| Code := OK;
                      Message :=
                        "promoted slave: " +:+ DisplayString (inst.Key promoted)
                        +:+ ", lost: " +:+ fmt_d (len lost + len cannotReplicate)
                        +:+ ", trivial: " +:+ fmt_d (len equal)
                        +:+ ", pseudo-gtid: " +:+ fmt_d (len ahead);
                      Details := KeyValue (inst.Key promoted) |} |})
    /\ (forall lost equal ahead cannotReplicate promoted w2,
           perform B (inst_RegroupSlavesPseudoGTID instanceKey false) w1
           = ((lost, equal, ahead, cannotReplicate, Some promoted, None), w2) ->
           (run B (HttpAPI.RegroupSlavesPseudoGTID params req user) w).1.1
           = Replied
               {| Status := 200;
                  Payload :=
                    Envelope
                      {| Code := OK;
                         Message :=
                           "promoted slave: " +:+ DisplayString (inst.Key promoted)
                           +:+ ", lost: " +:+ fmt_d (len lost + len cannotReplicate)
                           +:+ ", trivial: " +:+ fmt_d (len equal)
                           +:+ ", pseudo-gtid: " +:+ fmt_d (len ahead);
                         Details := KeyValue (inst.Key promoted) |} |})
    /\ (forall lost moved cannotReplicate promoted w2,
           perform B (inst_RegroupSlavesGTID instanceKey false) w1
           = ((lost, moved, cannotReplicate, Some promoted, None), w2) ->
           (run B (HttpAPI.RegroupSlavesGTID params req user) w).1.1
           = Replied
               {| Status := 200;
                  Payload :=
                    Envelope
                      {| Code := OK;
                         Message :=
                           "promoted slave: " +:+ DisplayString (inst.Key promoted)
                           +:+ ", lost: " +:+ fmt_d (len lost + len cannotReplicate)
                           +:+ ", moved: " +:+ fmt_d (len moved);
                         Details := KeyValue (inst.Key promoted) |} |}).
Proof.
  intros Hauth instanceKey w1 Hkey.
  split; [|split]; intros; 
    unfold HttpAPI.RegroupSlaves, HttpAPI.RegroupSlavesPseudoGTID,
      HttpAPI.RegroupSlavesGTID, HttpAPI.getInstanceKey;
    rewrite Hauth; cbn; rewrite Hkey; cbn;
    match goal with H : perform _ _ _ = _ |- _ => rewrite H end; cbn;
    unfold len; rewrite length_app, Nat2Z.inj_add; reflexivity.
Qed.

(** One lost and one cannotReplicate replica are reported as two lost. *)
Lemma C1_one_lost_one_cannot_replicate :
  example.regroup_reply (HttpAPI.RegroupSlaves (env := example.env))
    [example.db3] [example.db4]
  = Replied
      {| Status := 200;
         Payload :=
           Envelope
             {| Code := OK;
                Message := "promoted slave: db2:3306, lost: 2, trivial: 0, pseudo-gtid: 0";
                Details := KeyValue (example.key "db2") |} |}.
Proof.
  exact (proj1 (C1_regroup_reports_the_merged_lost_count (env := example.env)
                  (example.host_port "db1" "3306") (example.request []) "operator"
                  (scripted (example.regroup_script [example.db3] [example.db4])) tt
                  eq_refl (example.key "db1") tt eq_refl)
               [example.db3] [] [] [example.db4]
               (example.replica "db2" "db1" 2 100 inst.prefer true) tt eq_refl).
Defined.

(** C1, as stated, fails: the reply does not tell the two buckets apart.
    An engine result with one lost and one cannotReplicate replica and an
    engine result with two lost replicas and none that cannot replicate get
    the same reply, which counts two lost replicas, on each of the three
    endpoints. *)
Lemma C1_cannot_replicate_is_merged_into_lost :
  example.regroup_reply (HttpAPI.RegroupSlaves (env := example.env))
    [example.db3] [example.db4]
  = example.regroup_reply (HttpAPI.RegroupSlaves (env := example.env))
      [example.db3; example.db4] []
  /\ example.regroup_reply (HttpAPI.RegroupSlavesPseudoGTID (env := example.env))
       [example.db3] [example.db4]
     = example.regroup_reply (HttpAPI.RegroupSlavesPseudoGTID (env := example.env))
         [example.db3; example.db4] []
  /\ example.regroup_reply (HttpAPI.RegroupSlavesGTID (env := example.env))
       [example.db3] [example.db4]
     = example.regroup_reply (HttpAPI.RegroupSlavesGTID (env := example.env))
         [example.db3; example.db4] []
  /\ example.regroup_reply (HttpAPI.RegroupSlavesGTID (env := example.env))
       [example.db3] [example.db4]
     = Replied
         {| Status := 200;
            Payload :=
              Envelope
                {| Code := OK;
                   Message := "promoted slave: db2:3306, lost: 2, moved: 0";
                   Details := KeyValue (example.key "db2") |} |}.
Proof. repeat split; vm_compute; reflexivity. Qed.

(** ** Forget and the raw instance key (C8) *)

(** C8 (as amended). For every authorized request to the Forget endpoint
    the handler builds the raw key of [host:port], drops the error of
    [NewRawInstanceKey] and hands the key it got to [ForgetInstance], whose
    error it drops as well.  When the key is not nil the reply is the [OK]
    envelope naming the forgotten instance; when the key is nil the
    handler panics on the dereference and replies nothing.  So the handler
    replies [OK] exactly when [NewRawInstanceKey] returned a key. *)
Theorem C8_forget_replies_ok_or_panics_on_a_nil_key
  {env : HttpEnv} (params : Params) (req : Request) (user : User)
  (B : Backend) (w : World B) :
  isAuthorizedForAction req user = true ->
  let hostPort := param params "host" +:+ ":" +:+ param params "port" in
  let rawInstanceKey := (perform B (inst_NewRawInstanceKey hostPort) w).1.1 in
  let result := run B (HttpAPI.Forget params req user) w in
  call_of <$> result.1.2
  = [inst_NewRawInstanceKey hostPort; inst_ForgetInstance rawInstanceKey]
  /\ result.1.1
     = match rawInstanceKey with
       | Some k =>
           Replied
             {| Status := 200;
                Payload :=
                  Envelope
                    {| Code := OK;
                       Message := "Instance forgotten: " +:+ fmt_InstanceKey k;
                       Details := Nil |} |}
       | None => Panicked
       end.
Proof.
  intros Hauth. cbv zeta. unfold HttpAPI.Forget. rewrite Hauth. cbn.
  destruct (perform B _ w) as [[k e] w1]. cbn.
  destruct (perform B _ w1) as [e2 w2]. cbn.
  destruct k; cbn; auto.
Qed.

(** An authorized Forget of a key that was built replies [OK]. *)
Lemma C8_forget_of_a_built_key_replies_ok :
  (run (scripted (example.regroup_script [] []))
       (HttpAPI.Forget (env := example.env)
          (example.host_port "db1" "3306") (example.request []) "operator") tt).1.1
  = Replied
      {| Status := 200;
         Payload :=
           Envelope
             {| Code := OK;
                Message :=
                  "Instance forgotten: "
                  +:+ fmt_InstanceKey (HttpEnv := example.env)
                        {| inst.Hostname := "db1:3306"; inst.Port := 0 |};
                Details := Nil |} |}.
Proof.
  exact (proj2 (C8_forget_replies_ok_or_panics_on_a_nil_key (env := example.env)
                  (example.host_port "db1" "3306") (example.request []) "operator"
                  (scripted (example.regroup_script [] [])) tt eq_refl)).
Defined.

(** C8, as stated, fails: not every request to the Forget endpoint is
    replied [OK].  In read-only mode the request is refused with the
    [ERROR] envelope and no key is built, although the backend would have
    returned a key. *)
Lemma C8_forget_in_read_only_mode_is_refused :
  run (scripted (example.regroup_script [] []))
      (HttpAPI.Forget (env := example.read_only_env)
         (example.host_port "db1" "3306") (example.request []) "operator") tt
  = (Replied (error_reply "Unauthorized"), [], tt)
  /\ error_reply "Unauthorized"
     <> {| Status := 200;
           Payload :=
             Envelope
               {| Code := OK;
                  Message :=
                    "Instance forgotten: "
                    +:+ fmt_InstanceKey (HttpEnv := example.read_only_env)
                          {| inst.Hostname := "db1:3306"; inst.Port := 0 |};
                  Details := Nil |} |}.
Proof. split; [vm_compute; reflexivity | discriminate]. Qed.

(** ** Dropped parse errors (C9) *)

(** What [ParseInt] returns next to an error: zero when the text is not a
    number, the nearest bound of the 64-bit integers when it is out of
    range. *)
Lemma ParseInt_error_value (s : string) (n : Z) (e : strconv.NumError) :
  strconv.ParseInt s = (n, Some e) ->
  (strconv.Err e = strconv.ErrSyntax /\ n = 0)
  \/ (strconv.Err e = strconv.ErrRange /\ (n = 2 ^ 63 - 1 \/ n = - 2 ^ 63)).
Proof.
  unfold strconv.ParseInt. destruct s as [|c rest].
  - intros [= <- <-]. left. auto.
  - destruct (strconv.ParseUint _) as [un [[]|]].
    + intros [= <- <-]. left. auto.
    + destruct (negb _ && _); [intros [= <- <-]; right; auto|].
      destruct (_ && _); [intros [= <- <-]; right; auto|discriminate].
    + destruct (negb _ && _); [intros [= <- <-]; right; auto|].
      destruct (_ && _); [intros [= <- <-]; right; auto|discriminate].
Qed.

(** C9 (as amended). For every authorized request:
    - KillQuery drops the error of the host and port: with the key [k]
      that came with it (error or not), the handler calls [inst.KillQuery]
      on [k] when the process id parses, and replies the parse error of the
      process id, calling nothing more, when it does not;
    - AgentSeedDetails, AgentSeedStates and AbortSeed, when agents are
      served, drop the parse error of the seed id and call the agent with
      the number [ParseInt] returned, whatever the text was;
    - that number is zero when the text is not a number, and the nearest
      bound of the 64-bit integers when it is out of range. *)
Theorem C9_parse_errors_are_overwritten
  {env : HttpEnv} (params : Params) (req : Request) (user : User)
  (B : Backend) (w : World B) :
  isAuthorizedForAction req user = true ->
  (forall k kerr w1,
      perform B (inst_NewInstanceKeyFromStrings (param params "host")
                                                (param params "port")) w
      = ((Some k, kerr), w1) ->
      let result := run B (HttpAPI.KillQuery params req user) w in
      match strconv.ParseInt (param params "process") with
      | (processId, None) =>
          call_of <$> result.1.2
          = [inst_NewInstanceKeyFromStrings (param params "host") (param params "port");
             inst_KillQuery k processId]
      | (_, Some e) =>
          result.1.1 = Replied (error_reply (strconv.Error Quote e))
          /\ call_of <$> result.1.2
             = [inst_NewInstanceKeyFromStrings (param params "host")
                                               (param params "port")]
      end)
  /\ (forall Config w1,
         perform B config_Config w = (Config, w1) ->
         config.ServeAgentsHttp Config = true ->
         let seedId := (strconv.ParseInt (param params "seedId")).1 in
         call_of <$> (run B (HttpAPI.AgentSeedDetails params req user) w).1.2
         = [config_Config; agent_AgentSeedDetails seedId]
         /\ call_of <$> (run B (HttpAPI.AgentSeedStates params req user) w).1.2
            = [config_Config; agent_ReadSeedStates seedId]
         /\ call_of <$> (run B (HttpAPI.AbortSeed params req user) w).1.2
            = [config_Config; agent_AbortSeed seedId])
  /\ (forall s n e,
         strconv.ParseInt s = (n, Some e) ->
         (strconv.Err e = strconv.ErrSyntax /\ n = 0)
         \/ (strconv.Err e = strconv.ErrRange /\ (n = 2 ^ 63 - 1 \/ n = - 2 ^ 63))).
Proof.
  intros Hauth. split; [|split].
  - intros k kerr w1 Hkey result. subst result.
    unfold HttpAPI.KillQuery, HttpAPI.getInstanceKey. rewrite Hauth. cbn.
    rewrite Hkey. cbn.
    destruct (strconv.ParseInt (param params "process")) as [pid [e|]]; cbn.
    + auto.
    + destruct (perform B _ w1) as [[i e] w2]. cbn.
      destruct e; [reflexivity|]. destruct i; reflexivity.
  - intros Config w1 HC Hserve seedId. subst seedId.
    unfold HttpAPI.AgentSeedDetails, HttpAPI.AgentSeedStates, HttpAPI.AbortSeed.
    rewrite Hauth. cbn. rewrite HC. cbn. rewrite Hserve. cbn.
    destruct (strconv.ParseInt (param params "seedId")) as [seedId err]. cbn.
    repeat split.
    + destruct (perform B _ w1) as [[o e] w2]. cbn. destruct e; reflexivity.
    + destruct (perform B _ w1) as [[o e] w2]. cbn. destruct e; reflexivity.
    + destruct (perform B _ w1) as [e w2]. cbn. destruct e; reflexivity.
  - apply ParseInt_error_value.
Qed.

(** A kill-query whose port is not a number goes on to kill process 7 on
    the key with port zero; an abort-seed whose seed id is not a number
    aborts seed zero. *)
Lemma C9_unparsable_port_and_seed_id_go_through :
  call_of <$>
    (run (scripted (example.regroup_script [] []))
         (HttpAPI.KillQuery (env := example.env)
            (<["process" := "7"]> (example.host_port "db1" "x"))
            (example.request []) "operator") tt).1.2
  = [inst_NewInstanceKeyFromStrings "db1" "x";
     inst_KillQuery {| inst.Hostname := "db1"; inst.Port := 0 |} 7]
  /\ call_of <$>
       (run (scripted (example.regroup_script [] []))
            (HttpAPI.AbortSeed (env := example.env)
               (<["seedId" := "abc"]> ∅) (example.request []) "operator") tt).1.2
     = [config_Config; agent_AbortSeed 0].
Proof.
  split.
  - exact (proj1 (C9_parse_errors_are_overwritten (env := example.env)
                    (<["process" := "7"]> (example.host_port "db1" "x"))
                    (example.request []) "operator"
                    (scripted (example.regroup_script [] [])) tt eq_refl)
                 {| inst.Hostname := "db1"; inst.Port := 0 |} _ tt eq_refl).
  - exact (proj2 (proj2
             (proj1 (proj2 (C9_parse_errors_are_overwritten (env := example.env)
                              (<["seedId" := "abc"]> ∅)
                              (example.request []) "operator"
                              (scripted (example.regroup_script [] [])) tt eq_refl))
                    example.Config tt eq_refl eq_refl))).
Defined.

(** C9, as stated, fails on two kinds of requests.  A kill-query whose
    port and process id both fail to parse does not go on: it is replied
    an error envelope and [inst.KillQuery] is not called.  An abort-seed
    whose seed id is out of range does not go on with zero: the agent is
    asked to abort seed 9223372036854775807. *)
Lemma C9_some_parse_errors_stop_or_saturate :
  (exists r, example.killQuery_unparsable.1.1 = Replied r /\ is_error_reply r)
  /\ call_of <$> example.killQuery_unparsable.1.2
     = [inst_NewInstanceKeyFromStrings "db1" "x"]
  /\ call_of <$> example.abortSeed_out_of_range.1.2
     = [config_Config; agent_AbortSeed 9223372036854775807]
  /\ agent_AbortSeed 9223372036854775807 <> agent_AbortSeed 0.
Proof.
  split; [|split; [|split]].
  - eexists. split; [vm_compute; reflexivity|]. reflexivity.
  - vm_compute. reflexivity.
  - vm_compute. reflexivity.
  - discriminate.
Qed.

(** ** Recover and recover-lite (C4) *)

(** A routed request matched its pattern, and the handler is the first one
    registered under that pattern. *)
Lemma route_first {H : Type} (routes : list (string * H)) path pattern h params :
  martini.route routes path = Some (pattern, h, params) ->
  martini.first_handler routes pattern = Some h
  /\ martini.match_route pattern path = Some params.
Proof.
  induction routes as [|[p0 h0] routes IH]; simpl; [discriminate|].
  destruct (martini.match_route p0 path) eqn:Hm.
  - intros [= <- <- <-]. rewrite String.eqb_refl. auto.
  - intros Hr. destruct (IH Hr) as [Hf Hp]. split; [|assumption].
    destruct (String.eqb p0 pattern) eqn:He; [|assumption].
    apply String.eqb_eq in He. subst p0. congruence.
Qed.

(** Matching binds the names of the pattern and no other. *)
Lemma bind_segments_lookup pattern : forall segs acc params name,
  martini.bind_segments pattern segs acc = Some params ->
  martini.Named name ∉ pattern ->
  params !! name = acc !! name.
Proof.
  induction pattern as [|seg pattern IH]; intros segs acc params name H Hn.
  - destruct segs as [|s [|s' segs]]; simpl in H; try destruct s;
      try discriminate; congruence.
  - destruct seg as [s|n]; destruct segs as [|v segs]; simpl in H; try discriminate.
    + destruct (String.eqb s v); [|discriminate].
      eapply IH; [eassumption|]. intros Hin. apply Hn. right. assumption.
    + destruct (negb (String.eqb v "") && martini.plain v); [|discriminate].
      rewrite (IH _ _ _ name H).
      * apply lookup_insert_ne. intros ->. apply Hn. left.
      * intros Hin. apply Hn. right. assumption.
Qed.

Lemma match_route_unbound pattern path params name :
  martini.match_route pattern path = Some params ->
  martini.Named name ∉ martini.segment <$> default [] (martini.segments pattern) ->
  param params name = "".
Proof.
  unfold martini.match_route. intros H Hn.
  destruct (martini.segments pattern) as [pat|]; [|discriminate].
  destruct (martini.segments path) as [segs|]; [|discriminate].
  unfold param. rewrite (bind_segments_lookup _ _ _ _ _ H Hn). reflexivity.
Qed.

Lemma param_insert_eq (params : Params) name v :
  param (<[name := v]> params) name = v.
Proof. unfold param. rewrite lookup_insert_eq. reflexivity. Qed.

Lemma param_insert_ne (params : Params) k name v :
  k <> name -> param (<[k := v]> params) name = param params name.
Proof. intros H. unfold param. rewrite lookup_insert_ne by assumption. reflexivity. Qed.

(** [Recover] skips the processes when the query or the parameters say so. *)
Lemma Recover_skips {env : HttpEnv} (params : Params) (req : Request) (user : User)
  (B : Backend) (w : World B) :
  let skipped := String.eqb (Query_Get req "skipProcesses") "true"
                 || String.eqb (param params "skipProcesses") "true" in
  let calls := call_of <$> (run B (HttpAPI.Recover params req user) w).1.2 in
  (forall skipProcesses, Some skipProcesses ∈ skipProcesses_of <$> calls ->
                         skipProcesses = skipped)
  /\ (isAuthorizedForAction req user = true ->
      conventional B ->
      (perform B (inst_NewInstanceKeyFromStrings (param params "host")
                                                 (param params "port")) w).1.2 = None ->
      Some skipped ∈ skipProcesses_of <$> calls).
Proof.
  intros skipped calls. subst calls.
  unfold HttpAPI.Recover, HttpAPI.getInstanceKey.
  destruct (isAuthorizedForAction req user); cbn;
    [|split; [intros ? H; apply elem_of_nil in H; destruct H|discriminate]].
  destruct (perform B _ w) as [[k1 e1] w1] eqn:E1. cbn.
  split.
  - destruct k1 as [k1|]; cbn; [|intros ? H; pick_event H].
    destruct e1; cbn; [intros ? H; pick_event H|].
    destruct (perform B _ w1) as [[k2 e2] w2] eqn:E2. cbn.
    destruct k2 as [k2|]; cbn; [|intros ? H; pick_event H].
    destruct (perform B _ w2) as [[[att pk] e3] w3] eqn:E3. cbn.
    destruct e3; [|destruct att]; cbn; intros ? H; pick_event H; reflexivity.
  - intros _ HB He1. simpl in He1. subst e1.
    pose proof (HB (inst_NewInstanceKeyFromStrings (param params "host")
                                                   (param params "port")) w) as H1.
    rewrite E1 in H1. cbn in H1.
    destruct k1 as [k1|]; [|discriminate H1]. cbn.
    destruct (perform B _ w1) as [[k2 e2] w2] eqn:E2. cbn.
    pose proof (HB (inst_NewInstanceKeyFromStrings (param params "candidateHost")
                                                   (param params "candidatePort")) w1) as H2.
    rewrite E2 in H2. cbn in H2.
    destruct k2 as [k2|]; [|discriminate H2]. cbn.
    destruct (perform B _ w2) as [[[att pk] e3] w3] eqn:E3. cbn.
    destruct e3; [|destruct att]; cbn;
      do 2 (apply elem_of_cons; right); apply elem_of_cons; left; reflexivity.
Qed.

(** C4. For every request routed to one of the four recover routes, every
    call of [CheckAndRecover] the handler makes passes [skipProcesses] =
    true if and only if the route is a recover-lite route or the query
    parameter [skipProcesses] is the text true, and false otherwise; and
    when the request is authorized and the analysed key parses, the
    handler does make such a call. *)
Theorem C4_recover_skips_processes_iff_lite_or_query
  {env : HttpEnv} (Config : config.Configuration) (path : string)
  (req : Request) (user : User) (pattern : string) (h : HttpAPI.Handler)
  (params : Params) (B : Backend) (w : World B) :
  martini.route (HttpAPI.RegisterRequests Config) path = Some (pattern, h, params) ->
  pattern ∈ recover_patterns ->
  let skipped := is_recover_lite pattern
                 || String.eqb (Query_Get req "skipProcesses") "true" in
  let calls := call_of <$> (run B (HttpAPI.invoke h params req user) w).1.2 in
  (forall skipProcesses, Some skipProcesses ∈ skipProcesses_of <$> calls ->
                         skipProcesses = skipped)
  /\ (isAuthorizedForAction req user = true ->
      conventional B ->
      (perform B (inst_NewInstanceKeyFromStrings (param params "host")
                                                 (param params "port")) w).1.2 = None ->
      Some skipped ∈ skipProcesses_of <$> calls).
Proof.
  intros Hroute Hpat skipped calls.
  destruct (route_first _ _ _ _ _ Hroute) as [Hfirst Hmatch].
  assert (Hskip : param params "skipProcesses" = "").
  { eapply match_route_unbound; [eassumption|].
    unfold recover_patterns in Hpat.
    repeat (apply elem_of_cons in Hpat as [->|Hpat]);
      try (apply elem_of_nil in Hpat; destruct Hpat).
    all: vm_compute; intros Hin;
      repeat (apply elem_of_cons in Hin as [Hin|Hin]; [discriminate Hin|]);
      apply elem_of_nil in Hin; destruct Hin. }
  unfold recover_patterns in Hpat.
  repeat (apply elem_of_cons in Hpat as [->|Hpat]);
    try (apply elem_of_nil in Hpat; destruct Hpat).
  all: cbn in Hfirst; injection Hfirst as <-.
  all: subst skipped calls; cbn [HttpAPI.invoke].
  all: change (is_recover_lite _) with true || change (is_recover_lite _) with false.
  all: cbn [orb].
  1, 2: pose proof (Recover_skips params req user B w) as H;
        rewrite Hskip in H; cbn [String.eqb] in H; rewrite orb_false_r in H; exact H.
  all: unfold HttpAPI.RecoverLite;
       pose proof (Recover_skips (<["skipProcesses" := "true"]> params) req user B w) as H;
       rewrite param_insert_eq in H;
       rewrite !param_insert_ne in H by discriminate;
       cbn [String.eqb Ascii.eqb Bool.eqb] in H; rewrite orb_true_r in H; exact H.
Qed.

(** A recover-lite request without a query skips the processes; a recover
    request without a query does not. *)
Lemma C4_lite_skips_and_plain_recover_does_not :
  Some true
  ∈ skipProcesses_of <$>
      (call_of <$>
         (run (scripted (example.regroup_script [] []))
              (HttpAPI.invoke (HttpAPI.WithUser (HttpAPI.RecoverLite (env := example.env)))
                 (example.host_port "db1" "3306") (example.request []) "operator")
              tt).1.2)
  /\ Some false
     ∈ skipProcesses_of <$>
         (call_of <$>
            (run (scripted (example.regroup_script [] []))
                 (HttpAPI.invoke (HttpAPI.WithUser (HttpAPI.Recover (env := example.env)))
                    (example.host_port "db1" "3306") (example.request []) "operator")
                 tt).1.2).
Proof.
  split.
  - refine (proj2 (C4_recover_skips_processes_iff_lite_or_query (env := example.env)
                     example.Config "/api/recover-lite/db1/3306"
                     (example.request []) "operator"
                     "/api/recover-lite/:host/:port"
                     (HttpAPI.WithUser HttpAPI.RecoverLite)
                     (example.host_port "db1" "3306")
                     (scripted (example.regroup_script [] [])) tt _ _) eq_refl _ eq_refl).
    + vm_compute. reflexivity.
    + unfold recover_patterns. do 2 (apply elem_of_cons; right).
      apply elem_of_cons; left; reflexivity.
    + apply (example_backend_conventional [] []).
  - refine (proj2 (C4_recover_skips_processes_iff_lite_or_query (env := example.env)
                     example.Config "/api/recover/db1/3306"
                     (example.request []) "operator"
                     "/api/recover/:host/:port"
                     (HttpAPI.WithUser HttpAPI.Recover)
                     (example.host_port "db1" "3306")
                     (scripted (example.regroup_script [] [])) tt _ _) eq_refl _ eq_refl).
    + vm_compute. reflexivity.
    + unfold recover_patterns. apply elem_of_cons; left; reflexivity.
    + apply (example_backend_conventional [] []).
Defined.

(** ** Acknowledgements need a comment (C5) *)

(** C5. For every request to one of the three acknowledgement handlers
    (by cluster, by instance, by recovery id):
    - when the [comment] query parameter is empty, the handler makes no
      acknowledgement call, none of its calls changes the state (so a core
      whose lookups are pure is left as it was), whatever it replies is an
      [ERROR] envelope, and, the core keeping the nil-result convention, it
      does reply;
    - every acknowledgement call the handler makes carries the comment of
      the query, which is not empty; when the user id of the request is
      not empty the owner is that user id and the maintenance owner is not
      looked up; when it is empty the handler calls
      [inst.GetMaintenanceOwner] exactly once and the owner is what that
      call returned;
    - an authorized request with a comment, whose recovery id, cluster
      alias or instance key is found without an error, does make the
      acknowledgement call, after the lookup of the maintenance owner when
      the user id is empty, with the owner so determined and the
      comment. *)
Theorem C5_acknowledgement_needs_a_comment
  {env : HttpEnv} (h : Params -> Request -> User -> Prog Response)
  (params : Params) (req : Request) (user : User) (B : Backend) (w : World B) :
  h ∈ acknowledgement_handlers ->
  let result := run B (h params req user) w in
  let comment := Query_Get req "comment" in
  (comment = "" ->
     Forall (fun e => acknowledgement_of (call_of e) = None
                      /\ changes_state (call_of e) = false) result.1.2
     /\ (lookups_are_pure B -> result.2 = w)
     /\ (forall r, result.1.1 = Replied r -> is_error_reply r)
     /\ (conventional B -> exists r, result.1.1 = Replied r /\ is_error_reply r))
  /\ (forall owner comment',
        Some (owner, comment') ∈ (fun e => acknowledgement_of (call_of e)) <$> result.1.2 ->
        comment' = comment /\ comment <> ""
        /\ omap maintenance_owner_of result.1.2
           = (if String.eqb (getUserId req user) "" then [owner] else [])
        /\ (String.eqb (getUserId req user) "" = false -> owner = getUserId req user))
  /\ (isAuthorizedForAction req user = true -> comment <> "" ->
      (forall recoveryId,
          strconv.ParseInt (param params "recoveryId") = (recoveryId, None) ->
          call_of <$> (run B (HttpAPI.AcknowledgeRecovery params req user) w).1.2
          = (owner_lookup req user
             ++ [logic_AcknowledgeRecovery recoveryId
                   (acknowledging_owner req user B w) comment])%list)
      /\ (param params "clusterAlias" = "" ->
          call_of <$> (run B (HttpAPI.AcknowledgeClusterRecoveries params req user) w).1.2
          = (owner_lookup req user
             ++ [logic_AcknowledgeClusterRecoveries (param params "clusterName")
                   (acknowledging_owner req user B w) comment])%list)
      /\ (forall clusterName w1,
             param params "clusterAlias" <> "" ->
             perform B (inst_GetClusterByAlias (param params "clusterAlias")) w
             = ((clusterName, None), w1) ->
             call_of <$>
               (run B (HttpAPI.AcknowledgeClusterRecoveries params req user) w).1.2
             = (inst_GetClusterByAlias (param params "clusterAlias")
                :: owner_lookup req user
                ++ [logic_AcknowledgeClusterRecoveries clusterName
                      (acknowledging_owner req user B w1) comment])%list)
      /\ (forall instanceKey w1,
             perform B (inst_NewInstanceKeyFromStrings (param params "host")
                                                       (param params "port")) w
             = ((Some instanceKey, None), w1) ->
             call_of <$>
               (run B (HttpAPI.AcknowledgeInstanceRecoveries params req user) w).1.2
             = (inst_NewInstanceKeyFromStrings (param params "host") (param params "port")
                :: owner_lookup req user
                ++ [logic_AcknowledgeInstanceRecoveries instanceKey
                      (acknowledging_owner req user B w1) comment])%list)).
Proof.
  intros Hh result comment.
  assert (Hempty : comment = "" ->
     Forall (fun e => acknowledgement_of (call_of e) = None
                      /\ changes_state (call_of e) = false) result.1.2
     /\ (forall r, result.1.1 = Replied r -> is_error_reply r)
     /\ (conventional B -> exists r, result.1.1 = Replied r /\ is_error_reply r)).
  { intros Hc. subst result comment.
    unfold acknowledgement_handlers in Hh.
    repeat (apply elem_of_cons in Hh as [->|Hh]);
      [| | |apply elem_of_nil in Hh; destruct Hh].
    - unfold HttpAPI.AcknowledgeClusterRecoveries.
      destruct (isAuthorizedForAction req user); cbn;
        [|split; [constructor|split; [intros r [= <-]; reflexivity|eauto]]].
      + destruct (String.eqb (param params "clusterAlias") ""); cbn.
        * rewrite Hc. cbn. split; [constructor|].
          split; [intros r [= <-]; reflexivity|].
          intros _. eexists. split; [reflexivity|reflexivity].
        * next_call. destruct a as [cn [e|]]; cbn.
          -- split; [repeat constructor|].
             split; [intros r [= <-]; reflexivity|].
             intros _. eexists. split; reflexivity.
          -- rewrite Hc. cbn. split; [repeat constructor|].
             split; [intros r [= <-]; reflexivity|].
             intros _. eexists. split; reflexivity.
      + intros _. eexists. split; reflexivity.
    - unfold HttpAPI.AcknowledgeInstanceRecoveries, HttpAPI.getInstanceKey.
      destruct (isAuthorizedForAction req user); cbn;
        [|split; [constructor|split; [intros r [= <-]; reflexivity
                                     |intros _; eexists; split; reflexivity]]].
      next_call. destruct a as [[k|] e]; cbn.
      + destruct e; cbn;
          [split; [repeat constructor
                  |split; [intros r [= <-]; reflexivity
                          |intros _; eexists; split; reflexivity]]|].
        rewrite Hc. cbn.
        split; [repeat constructor
               |split; [intros r [= <-]; reflexivity
                       |intros _; eexists; split; reflexivity]].
      + split; [repeat constructor|]. split; [discriminate|]. intros HB.
        pose proof (HB (inst_NewInstanceKeyFromStrings (param params "host")
                                                       (param params "port")) w) as Hk.
        rewrite E in Hk. discriminate Hk.
    - unfold HttpAPI.AcknowledgeRecovery.
      destruct (isAuthorizedForAction req user); cbn;
        [|split; [constructor|split; [intros r [= <-]; reflexivity
                                     |intros _; eexists; split; reflexivity]]].
      destruct (strconv.ParseInt (param params "recoveryId")) as [id [e|]]; cbn.
      + split; [constructor|split; [intros r [= <-]; reflexivity
                                   |intros _; eexists; split; reflexivity]].
      + rewrite Hc. cbn.
        split; [constructor|split; [intros r [= <-]; reflexivity
                                   |intros _; eexists; split; reflexivity]]. }
  split; [|split].
  - intros Hc. destruct (Hempty Hc) as (Hcalls & Hpartial & Hreply).
    split; [assumption|]. split; [|split; assumption].
    intros HB. subst result. apply run_lookups; [assumption|].
    eapply Forall_impl; [exact Hcalls|]. intros e [_ He]. exact He.
  - subst result comment. clear Hempty.
    unfold acknowledgement_handlers in Hh.
    repeat (apply elem_of_cons in Hh as [->|Hh]);
      [| | |apply elem_of_nil in Hh; destruct Hh].
    all: unfold HttpAPI.AcknowledgeClusterRecoveries,
           HttpAPI.AcknowledgeInstanceRecoveries,
           HttpAPI.AcknowledgeRecovery, HttpAPI.getInstanceKey.
    all: walk_run.
    all: intros owner comment Hin; cbn in Hin; pick_event Hin.
    all: split; [reflexivity|].
    all: split; [apply String.eqb_neq; assumption|].
    all: repeat match goal with H : String.eqb _ _ = _ |- _ => rewrite H end.
    all: split; [reflexivity|]; first [discriminate | intros _; reflexivity].
  - intros Hauth Hc. subst result comment. clear Hempty Hh.
    apply String.eqb_neq in Hc.
    unfold owner_lookup, acknowledging_owner.
    split; [|split; [|split]].
    + intros recoveryId Hid. unfold HttpAPI.AcknowledgeRecovery.
      rewrite Hauth, Hid. cbn. rewrite Hc. cbn.
      destruct (String.eqb (getUserId req user) ""); cbn.
      * destruct (perform B inst_GetMaintenanceOwner w) as [owner w1]. cbn.
        destruct (perform B _ w1) as [[n e] w2]. cbn. destruct e; reflexivity.
      * destruct (perform B _ w) as [[n e] w2]. cbn. destruct e; reflexivity.
    + intros Halias. unfold HttpAPI.AcknowledgeClusterRecoveries.
      rewrite Hauth, Halias. cbn. rewrite Hc. cbn.
      destruct (String.eqb (getUserId req user) ""); cbn.
      * destruct (perform B inst_GetMaintenanceOwner w) as [owner w1]. cbn.
        destruct (perform B _ w1) as [[n e] w2]. cbn. destruct e; reflexivity.
      * destruct (perform B _ w) as [[n e] w2]. cbn. destruct e; reflexivity.
    + intros clusterName w1 Halias Hname.
      unfold HttpAPI.AcknowledgeClusterRecoveries.
      apply String.eqb_neq in Halias.
      rewrite Hauth, Halias. cbn. rewrite Hname. cbn. rewrite Hc. cbn.
      destruct (String.eqb (getUserId req user) ""); cbn.
      * destruct (perform B inst_GetMaintenanceOwner w1) as [owner w2]. cbn.
        destruct (perform B _ w2) as [[n e] w3]. cbn. destruct e; reflexivity.
      * destruct (perform B _ w1) as [[n e] w3]. cbn. destruct e; reflexivity.
    + intros instanceKey w1 Hkey.
      unfold HttpAPI.AcknowledgeInstanceRecoveries, HttpAPI.getInstanceKey.
      rewrite Hauth. cbn. rewrite Hkey. cbn. rewrite Hc. cbn.
      destruct (String.eqb (getUserId req user) ""); cbn.
      * destruct (perform B inst_GetMaintenanceOwner w1) as [owner w2]. cbn.
        destruct (perform B _ w2) as [[n e] w3]. cbn. destruct e; reflexivity.
      * destruct (perform B _ w1) as [[n e] w3]. cbn. destruct e; reflexivity.
Qed.

(** An acknowledgement of recovery 7 without a comment is replied an error
    envelope and calls nothing; with the comment [done] the recovery is
    acknowledged by the operator with that comment; and for a request
    without a user id it is acknowledged by the maintenance owner the core
    returned. *)
Lemma C5_acknowledging_without_and_with_a_comment :
  (exists r,
      (run (scripted (example.regroup_script [] []))
           (HttpAPI.AcknowledgeRecovery (env := example.env)
              (<["recoveryId" := "7"]> ∅) (example.request []) "operator") tt).1.1
      = Replied r
      /\ is_error_reply r)
  /\ call_of <$>
       (run (scripted (example.regroup_script [] []))
            (HttpAPI.AcknowledgeRecovery (env := example.env)
               (<["recoveryId" := "7"]> ∅) (example.request []) "operator") tt).1.2
     = []
  /\ call_of <$>
       (run (scripted (example.regroup_script [] []))
            (HttpAPI.AcknowledgeRecovery (env := example.env)
               (<["recoveryId" := "7"]> ∅)
               (example.request [("comment", ["done"])]) "operator") tt).1.2
     = [logic_AcknowledgeRecovery 7 "operator" "done"]
  /\ call_of <$>
       (run (scripted example.maintained_script)
            (HttpAPI.AcknowledgeRecovery (env := example.env)
               (<["recoveryId" := "7"]> ∅)
               (example.request [("comment", ["done"])]) "") tt).1.2
     = [inst_GetMaintenanceOwner; logic_AcknowledgeRecovery 7 "dba" "done"].
Proof.
  split; [|split; [vm_compute; reflexivity|split; [vm_compute; reflexivity|]]].
  - refine (proj2 (proj2 (proj2
              (proj1 (C5_acknowledgement_needs_a_comment (env := example.env)
                        HttpAPI.AcknowledgeRecovery
                        (<["recoveryId" := "7"]> ∅) (example.request [])
                        "operator"
                        (scripted (example.regroup_script [] [])) tt _)
                     eq_refl))) _).
    + unfold acknowledgement_handlers. do 2 (apply elem_of_cons; right).
      apply elem_of_cons; left; reflexivity.
    + apply (example_backend_conventional [] []).
  - refine (proj1 (proj2 (proj2
              (C5_acknowledgement_needs_a_comment (env := example.env)
                 HttpAPI.AcknowledgeRecovery
                 (<["recoveryId" := "7"]> ∅)
                 (example.request [("comment", ["done"])]) ""
                 (scripted example.maintained_script) tt _))
              eq_refl _) 7 eq_refl).
    + unfold acknowledgement_handlers. do 2 (apply elem_of_cons; right).
      apply elem_of_cons; left; reflexivity.
    + discriminate.
Defined.

(** * Further properties of the handlers *)

(** Case analysis on everything a handler branches on, for the
    properties of replies and calls. *)
Ltac sweep_handler :=
  repeat first
    [ progress (cbn [EveryReply Mutations FailStop refuses error_of is_error_reply
                     Balanced opens closes NilKeyPanics nil_key call_of event
                     projT1 projT2
                     mbind mret Prog_mbind Prog_ret Prog_bind call deref fst snd
                     HttpAPI.not_nil negb orb andb fmap option_fmap option_map
                     Payload Code Status changes_state] in * )
    | progress intros
    | progress unfold JSON, JSON_value, HttpAPI.reply_error, error_reply in *
    | discriminate
    | match goal with
      | |- True => exact I
      | |- _ /\ _ => split
      | |- _ = _ => reflexivity
      | |- _ \/ _ => first [left; reflexivity | right; repeat split; reflexivity]
      | a : _ * _ |- _ => destruct a
      | a : option _ |- _ => destruct a
      | a : bool |- _ => destruct a
      | |- context [snd ?a] => is_var a; destruct a
      | |- context [fst ?a] => is_var a; destruct a
      | |- context [HttpAPI.not_nil ?a] => is_var a; destruct a
      | |- context [if ?b then _ else _] => destruct b
      | |- context [match ?x with _ => _ end] => destruct x
      end ].

Lemma run_every_reply {R : Type} (B : Backend) (P : R -> Prop) (p : Prog R) :
  EveryReply P p ->
  forall (w : World B) (r : R), (run B p w).1.1 = Replied r -> P r.
Proof.
  induction p as [r0| |c k IH]; simpl; intros Hp w r Hr.
  - injection Hr as <-. assumption.
  - discriminate.
  - destruct (perform B c w) as [a w1].
    specialize (IH a (Hp a) w1 r).
    destruct (run B (k a) w1) as [[o ev] w2]. simpl in *. auto.
Qed.

Lemma run_mutations {R : Type} (B : Backend) (p : Prog R) : forall n,
  Mutations n p ->
  forall w : World B,
    (length (List.filter (fun e => changes_state (call_of e)) (run B p w).1.2) <= n)%nat.
Proof.
  induction p as [r0| |c k IH]; simpl; intros n Hp w; try lia.
  destruct (perform B c w) as [a w1].
  destruct (changes_state c) eqn:Hc.
  - destruct n as [|n]; [destruct Hp|].
    specialize (IH a n (Hp a) w1).
    destruct (run B (k a) w1) as [[o ev] w2]. simpl in *. rewrite Hc. simpl. lia.
  - specialize (IH a n (Hp a) w1).
    destruct (run B (k a) w1) as [[o ev] w2]. simpl in *. rewrite Hc. assumption.
Qed.

Lemma run_refuses (B : Backend) (p : Prog Response) (w : World B) :
  refuses p ->
  (run B p w).1.2 = []
  /\ forall r, (run B p w).1.1 = Replied r -> is_error_reply r.
Proof.
  destruct p as [r0| |c k]; simpl; intros Hp.
  - split; [reflexivity|]. intros r [= <-]. assumption.
  - split; [reflexivity|]. discriminate.
  - destruct Hp.
Qed.

Lemma run_fail_stop (B : Backend) (p : Prog Response) :
  FailStop p ->
  forall (w : World B) l1 e l2,
    (run B p w).1.2 = (l1 ++ e :: l2)%list ->
    failed e = true ->
    l2 = [] /\ forall r, (run B p w).1.1 = Replied r -> is_error_reply r.
Proof.
  induction p as [r0| |c k IH]; simpl; intros Hp w l1 e l2 Hev He.
  - destruct l1; discriminate.
  - destruct l1; discriminate.
  - destruct (perform B c w) as [a w1].
    specialize (Hp a).
    pose proof (fun H => IH a H w1) as IH1. clear IH.
    pose proof (run_refuses B (k a) w1) as Hrefuse.
    destruct (run B (k a) w1) as [[o ev] w2]. simpl in *.
    destruct (error_of c a) as [err|] eqn:Herr.
    + destruct (Hrefuse Hp) as [-> Hreply].
      destruct l1 as [|e1 [|e2 l1]]; try discriminate.
      injection Hev as <- <-. auto.
    + destruct l1 as [|e1 l1].
      * injection Hev as <- <-. unfold failed in He. simpl in He.
        rewrite Herr in He. discriminate.
      * injection Hev as <- ->. eapply (IH1 Hp); eauto.
Qed.

(** ** Status codes *)

Lemma every_route_status {env : HttpEnv} (Config : config.Configuration) pattern h :
  (pattern, h) ∈ HttpAPI.RegisterRequests Config ->
  forall params req user,
    EveryReply
      (fun r => Status r = 200
                \/ (h = HttpAPI.WithoutUser HttpAPI.StatusCheck
                    /\ Status r = 500 /\ is_error_reply r))
      (HttpAPI.invoke h params req user).
Proof.
  intros Hin.
  each_route Hin
    ltac:(intros params req user; cbn [HttpAPI.invoke];
          autounfold with handlers; sweep_handler).
Qed.

(** X1. Every reply of every registered route has the HTTP status 200,
    errors included, except the replies of the status-check route, whose
    status is 500 when it replies an [ERROR] envelope. *)
Theorem X1_replies_have_status_200_but_for_status_check
  {env : HttpEnv} (Config : config.Configuration) pattern h :
  (pattern, h) ∈ HttpAPI.RegisterRequests Config ->
  forall params req user (B : Backend) (w : World B) (r : Response),
    (run B (HttpAPI.invoke h params req user) w).1.1 = Replied r ->
    Status r = 200
    \/ (h = HttpAPI.WithoutUser HttpAPI.StatusCheck
        /\ Status r = 500 /\ is_error_reply r).
Proof.
  intros Hin params req user B w r Hr.
  exact (run_every_reply B _ _
           (every_route_status Config pattern h Hin params req user) w r Hr).
Qed.

(** ** One state change per request *)

Lemma every_route_mutations {env : HttpEnv} (Config : config.Configuration) pattern h :
  (pattern, h) ∈ HttpAPI.RegisterRequests Config ->
  forall params req user,
    Mutations (if String.eqb pattern "/api/reload-configuration" then 2 else 1)
              (HttpAPI.invoke h params req user).
Proof.
  intros Hin.
  each_route Hin
    ltac:(intros params req user; cbn [HttpAPI.invoke];
          autounfold with handlers;
          first [ change (String.eqb _ "/api/reload-configuration") with true
                | change (String.eqb _ "/api/reload-configuration") with false
                | idtac ];
          sweep_handler).
Qed.

(** X2. A request makes at most one state-changing call to the core,
    whatever the answers are; the reload of the configuration makes at
    most two, the reload and its audit entry. *)
Theorem X2_at_most_one_state_change_per_request
  {env : HttpEnv} (Config : config.Configuration) pattern h :
  (pattern, h) ∈ HttpAPI.RegisterRequests Config ->
  forall params req user (B : Backend) (w : World B),
    (length (List.filter (fun e => changes_state (call_of e))
                         (run B (HttpAPI.invoke h params req user) w).1.2)
     <= if String.eqb pattern "/api/reload-configuration" then 2 else 1)%nat.
Proof.
  intros Hin params req user B w.
  apply run_mutations, (every_route_mutations Config pattern h Hin).
Qed.

(** ** Errors of the core stop the request *)

Lemma every_route_fail_stop {env : HttpEnv} (Config : config.Configuration) pattern h :
  (pattern, h) ∈ HttpAPI.RegisterRequests Config ->
  pattern ∉ error_dropping_patterns ->
  forall params req user, FailStop (HttpAPI.invoke h params req user).
Proof.
  intros Hin.
  each_route Hin
    ltac:(intros Hne params req user; cbn [HttpAPI.invoke];
          first [ solve [autounfold with handlers; sweep_handler]
                | exfalso; apply Hne; unfold error_dropping_patterns;
                  repeat first [ apply elem_of_cons; left; reflexivity
                               | apply elem_of_cons; right ] ]).
Qed.

(** X3. On every route but the ones of forget, kill-query, audit, recover
    and reload-configuration, a call to the core that returns an error is
    the last call of the request, and what the handler replies after it is
    an [ERROR] envelope: never [OK], never a bare result. *)
Theorem X3_an_error_of_the_core_ends_the_request
  {env : HttpEnv} (Config : config.Configuration) pattern h :
  (pattern, h) ∈ HttpAPI.RegisterRequests Config ->
  pattern ∉ error_dropping_patterns ->
  forall params req user (B : Backend) (w : World B) l1 e l2,
    (run B (HttpAPI.invoke h params req user) w).1.2 = (l1 ++ e :: l2)%list ->
    failed e = true ->
    l2 = []
    /\ forall r, (run B (HttpAPI.invoke h params req user) w).1.1 = Replied r ->
                 is_error_reply r.
Proof.
  intros Hin Hne params req user B w.
  apply run_fail_stop, (every_route_fail_stop Config pattern h Hin Hne).
Qed.

(** ** Agents that are not served *)

(** X4. When the configuration does not serve agents, an authorized
    request to any of the sixteen agent and seed handlers reads the
    configuration, calls no agent, and is replied the [ERROR] envelope
    [Agents not served]. *)
Theorem X4_agents_not_served
  {env : HttpEnv} (h : Params -> Request -> User -> Prog Response)
  (params : Params) (req : Request) (user : User) (B : Backend) (w : World B) :
  h ∈ agent_handlers ->
  isAuthorizedForAction req user = true ->
  config.ServeAgentsHttp (perform B config_Config w).1 = false ->
  run B (h params req user) w
  = (Replied (error_reply "Agents not served"),
     [event config_Config (perform B config_Config w).1],
     (perform B config_Config w).2).
Proof.
  intros Hh Hauth Hserve. unfold agent_handlers in Hh.
  repeat (apply elem_of_cons in Hh as [->|Hh]);
    try (apply elem_of_nil in Hh; destruct Hh).
  all: autounfold with handlers; rewrite Hauth; cbn.
  all: destruct (perform B config_Config w) as [Config w1]; cbn in *.
  all: rewrite Hserve; reflexivity.
Qed.

(** ** Audit pages *)

Lemma requested_page_nonneg (params : Params) : 0 <= requested_page params.
Proof.
  unfold requested_page. destruct (strconv.Atoi _) as [page [e|]]; [lia|].
  destruct (page <? 0) eqn:H; [lia|]. apply Z.ltb_ge in H. exact H.
Qed.

(** X5. The three audit handlers never ask the core for a negative page:
    every page they ask for is the page the request names, which is the
    first page when the [page] parameter is missing, is not a number or is
    negative.  AuditRecovery and AuditFailureDetection make exactly one
    call: the read of the one record the [id] parameter names when it is a
    positive number, whatever the page is, and the read of a page of recent
    records otherwise.  Audit, whose key came with the error [kerr], reads
    the page for that instance when the key parsed and for all instances
    when it did not. *)
Theorem X5_audit_pages_are_never_negative
  {env : HttpEnv} (params : Params) (req : Request) (B : Backend) (w : World B) :
  0 <= requested_page params
  /\ call_of <$> (run B (HttpAPI.AuditRecovery params req) w).1.2
     = [match requested_id params with
        | Some id => logic_ReadRecovery id
        | None =>
            logic_ReadRecentRecoveries (param params "clusterName")
              (String.eqb (Query_Get req "unacknowledged") "true")
              (requested_page params)
        end]
  /\ call_of <$> (run B (HttpAPI.AuditFailureDetection params req) w).1.2
     = [match requested_id params with
        | Some id => logic_ReadFailureDetection id
        | None => logic_ReadRecentFailureDetections (requested_page params)
        end]
  /\ (forall k kerr w1,
         perform B (inst_NewInstanceKeyFromStrings (param params "host")
                                                   (param params "port")) w
         = ((Some k, kerr), w1) ->
         call_of <$> (run B (HttpAPI.Audit params req) w).1.2
         = [inst_NewInstanceKeyFromStrings (param params "host") (param params "port");
            inst_ReadRecentAudit (if HttpAPI.not_nil kerr then None else Some k)
                                 (requested_page params)])
  /\ (forall h, h ∈ [HttpAPI.Audit; HttpAPI.AuditRecovery; HttpAPI.AuditFailureDetection] ->
      forall e page, e ∈ (run B (h params req) w).1.2 ->
                     page_of (call_of e) = Some page ->
                     page = requested_page params).
Proof.
  split; [apply requested_page_nonneg|].
  assert (HR : call_of <$> (run B (HttpAPI.AuditRecovery params req) w).1.2
     = [match requested_id params with
        | Some id => logic_ReadRecovery id
        | None =>
            logic_ReadRecentRecoveries (param params "clusterName")
              (String.eqb (Query_Get req "unacknowledged") "true")
              (requested_page params)
        end]).
  { unfold HttpAPI.AuditRecovery, requested_id, requested_page.
    destruct (strconv.ParseInt _) as [id [e|]]; cbn;
      [|destruct (id >? 0); cbn].
    all: repeat match goal with
                | |- context [strconv.Atoi ?s] =>
                    destruct (strconv.Atoi s) as [page [e'|]]; cbn
                | |- context [?page <? 0] => destruct (page <? 0); cbn
                end.
    all: destruct (perform B _ w) as [[l e2] w1]; cbn; destruct e2; reflexivity. }
  assert (HF : call_of <$> (run B (HttpAPI.AuditFailureDetection params req) w).1.2
     = [match requested_id params with
        | Some id => logic_ReadFailureDetection id
        | None => logic_ReadRecentFailureDetections (requested_page params)
        end]).
  { unfold HttpAPI.AuditFailureDetection, requested_id, requested_page.
    destruct (strconv.ParseInt _) as [id [e|]]; cbn;
      [|destruct (id >? 0); cbn].
    all: repeat match goal with
                | |- context [strconv.Atoi ?s] =>
                    destruct (strconv.Atoi s) as [page [e'|]]; cbn
                | |- context [?page <? 0] => destruct (page <? 0); cbn
                end.
    all: destruct (perform B _ w) as [[l e2] w1]; cbn; destruct e2; reflexivity. }
  assert (HA : forall k kerr w1,
         perform B (inst_NewInstanceKeyFromStrings (param params "host")
                                                   (param params "port")) w
         = ((Some k, kerr), w1) ->
         call_of <$> (run B (HttpAPI.Audit params req) w).1.2
         = [inst_NewInstanceKeyFromStrings (param params "host") (param params "port");
            inst_ReadRecentAudit (if HttpAPI.not_nil kerr then None else Some k)
                                 (requested_page params)]).
  { intros k kerr w1 Hk.
    unfold HttpAPI.Audit, HttpAPI.getInstanceKey, requested_page.
    destruct (strconv.Atoi _) as [page [e'|]]; cbn;
      try destruct (page <? 0); cbn.
    all: rewrite Hk; cbn.
    all: destruct kerr; cbn.
    all: destruct (perform B _ w1) as [[l e2] w2]; cbn; destruct e2; reflexivity. }
  split; [exact HR|]. split; [exact HF|]. split; [exact HA|].
  intros h Hh e page He Hp.
  assert (Hc : call_of e ∈ call_of <$> (run B (h params req) w).1.2).
  { apply list_elem_of_fmap. eauto. }
  clear He.
  repeat (apply elem_of_cons in Hh as [->|Hh]);
    try (apply elem_of_nil in Hh; destruct Hh).
  - destruct (perform B (inst_NewInstanceKeyFromStrings (param params "host")
                                                        (param params "port")) w)
      as [[[k|] kerr] w1] eqn:Hk.
    + rewrite (HA k kerr w1 eq_refl) in Hc.
      apply elem_of_cons in Hc as [Hc|Hc]; [rewrite Hc in Hp; discriminate|].
      apply elem_of_cons in Hc as [Hc|Hc];
        [|apply elem_of_nil in Hc; destruct Hc].
      rewrite Hc in Hp. injection Hp as <-. reflexivity.
    + unfold HttpAPI.Audit, HttpAPI.getInstanceKey in Hc.
      destruct (strconv.Atoi _) as [pg [e'|]]; cbn in Hc;
        try destruct (pg <? 0); cbn in Hc.
      all: rewrite Hk in Hc; cbn in Hc.
      all: apply elem_of_cons in Hc as [Hc|Hc];
        [rewrite Hc in Hp; discriminate|apply elem_of_nil in Hc; destruct Hc].
  - rewrite HR in Hc.
    apply elem_of_cons in Hc as [Hc|Hc]; [|apply elem_of_nil in Hc; destruct Hc].
    rewrite Hc in Hp. destruct (requested_id params); [discriminate|].
    injection Hp as <-. reflexivity.
  - rewrite HF in Hc.
    apply elem_of_cons in Hc as [Hc|Hc]; [|apply elem_of_nil in Hc; destruct Hc].
    rewrite Hc in Hp. destruct (requested_id params); [discriminate|].
    injection Hp as <-. reflexivity.
Qed.

(** ** The duration of a downtime *)

(** X6. BeginDowntime never hands a negative duration to the core, so the
    conversion to an unsigned number is exact: for an authorized request
    whose key parses, a duration that [SimpleTimeToSeconds] reads as
    negative, or cannot read, is replied an [ERROR] envelope without a
    call to [inst.BeginDowntime]; otherwise [inst.BeginDowntime] is called
    once, with zero seconds when the [duration] parameter is empty and
    with the seconds read from it when it is not. *)
Theorem X6_downtime_duration_is_never_negative
  {env : HttpEnv} (params : Params) (req : Request) (user : User)
  (B : Backend) (w : World B) (k : inst.InstanceKey) (w1 : World B) :
  isAuthorizedForAction req user = true ->
  perform B (inst_NewInstanceKeyFromStrings (param params "host")
                                            (param params "port")) w
  = ((Some k, None), w1) ->
  let duration := param params "duration" in
  let seconds := (SimpleTimeToSeconds duration).1 in
  let result := run B (HttpAPI.BeginDowntime params req user) w in
  (forall e s, e ∈ result.1.2 -> downtime_seconds_of (call_of e) = Some s ->
               0 <= s /\ s = if String.eqb duration "" then 0 else seconds)
  /\ (duration <> "" -> seconds < 0 ->
      result
      = (Replied (error_reply ("Duration value must be non-negative. Given value: "
                               +:+ fmt_d seconds)),
         [event (inst_NewInstanceKeyFromStrings (param params "host")
                                                (param params "port"))
                (Some k, None)],
         w1))
  /\ (forall err, duration <> "" -> 0 <= seconds ->
                  (SimpleTimeToSeconds duration).2 = Some err ->
                  result
                  = (Replied (error_reply err),
                     [event (inst_NewInstanceKeyFromStrings (param params "host")
                                                            (param params "port"))
                            (Some k, None)],
                     w1))
  /\ ((duration = "" \/ (0 <= seconds /\ (SimpleTimeToSeconds duration).2 = None)) ->
      call_of <$> result.1.2
      = [inst_NewInstanceKeyFromStrings (param params "host") (param params "port");
         inst_BeginDowntime k (param params "owner") (param params "reason")
           (if String.eqb duration "" then 0 else seconds)]).
Proof.
  intros Hauth Hkey duration seconds result.
  subst result seconds duration.
  unfold HttpAPI.BeginDowntime, HttpAPI.getInstanceKey. rewrite Hauth. cbn.
  rewrite Hkey. cbn.
  destruct (String.eqb (param params "duration") "") eqn:Hd.
  - apply String.eqb_eq in Hd. cbn.
    destruct (perform B _ w1) as [e2 w2]. cbn.
    split; [|split; [|split]]; try (intros; congruence).
    + intros e s He Hs. destruct e2; cbn in He;
        repeat (apply elem_of_cons in He as [->|He]);
        try (apply elem_of_nil in He; destruct He);
        cbn in Hs; try discriminate; injection Hs as <-; (split; [lia|reflexivity]).
    + intros _. destruct e2; reflexivity.
  - apply String.eqb_neq in Hd. cbn.
    destruct (SimpleTimeToSeconds (param params "duration")) as [s err]. cbn.
    destruct (s <? 0) eqn:Hs; cbn.
    + apply Z.ltb_lt in Hs.
      split; [|split; [|split]].
      * intros e s' He.
        repeat (apply elem_of_cons in He as [->|He]);
          try (apply elem_of_nil in He; destruct He).
        discriminate.
      * reflexivity.
      * intros; lia.
      * intros [?|[? _]]; [congruence|lia].
    + apply Z.ltb_ge in Hs. destruct err as [err|]; cbn.
      * split; [|split; [|split]].
        -- intros e s' He.
           repeat (apply elem_of_cons in He as [->|He]);
             try (apply elem_of_nil in He; destruct He).
           discriminate.
        -- intros; lia.
        -- intros err' _ _ [= <-]. reflexivity.
        -- intros [?|[_ ?]]; [congruence|discriminate].
      * destruct (perform B _ w1) as [e2 w2]. cbn.
        split; [|split; [|split]].
        -- intros e s' He Hs'. destruct e2; cbn in He;
             repeat (apply elem_of_cons in He as [->|He]);
             try (apply elem_of_nil in He; destruct He);
             cbn in Hs'; try discriminate; injection Hs' as <-; (split; [lia|reflexivity]).
        -- intros; lia.
        -- intros; discriminate.
        -- intros _. destruct e2; reflexivity.
Qed.

(** ** The candidate of a recovery *)

(** X7. The candidate of a recovery is optional: for an authorized request
    to Recover whose analysed key parses, a candidate key that does not
    parse is not an error.  [CheckAndRecover] is called either way, with
    the candidate when its key parsed and with none when it did not; the
    reply to a recovery without error is the [OK] envelope with the
    analysed key as [Details]. *)
Theorem X7_recover_ignores_an_unparsable_candidate
  {env : HttpEnv} (params : Params) (req : Request) (user : User)
  (B : Backend) (w : World B)
  (k c : inst.InstanceKey) (cerr : option error) (w1 w2 : World B) :
  isAuthorizedForAction req user = true ->
  perform B (inst_NewInstanceKeyFromStrings (param params "host")
                                            (param params "port")) w
  = ((Some k, None), w1) ->
  perform B (inst_NewInstanceKeyFromStrings (param params "candidateHost")
                                            (param params "candidatePort")) w1
  = ((Some c, cerr), w2) ->
  let candidateKey := if HttpAPI.not_nil cerr then None else Some c in
  let skipProcesses := String.eqb (Query_Get req "skipProcesses") "true"
                       || String.eqb (param params "skipProcesses") "true" in
  let recovery := logic_CheckAndRecover k candidateKey skipProcesses in
  let result := run B (HttpAPI.Recover params req user) w in
  call_of <$> result.1.2
  = [inst_NewInstanceKeyFromStrings (param params "host") (param params "port");
     inst_NewInstanceKeyFromStrings (param params "candidateHost")
                                    (param params "candidatePort");
     recovery]
  /\ result.1.1
     = Replied
         match (perform B recovery w2).1 with
         | (_, _, Some e) => error_reply e
         | (recoveryAttempted, _, None) =>
             {| Status := 200;
                Payload :=
                  Envelope
                    {| Code := OK;
                       Message := if recoveryAttempted then "Action taken"
                                  else "No action taken";
                       Details := KeyValue k |} |}
         end.
Proof.
  intros Hauth Hk Hc candidateKey skipProcesses recovery result.
  subst result recovery candidateKey skipProcesses.
  unfold HttpAPI.Recover, HttpAPI.getInstanceKey. rewrite Hauth. cbn.
  rewrite Hk. cbn. rewrite Hc. cbn.
  destruct cerr; cbn.
  all: destruct (perform B _ w2) as [[[attempted successor] rerr] w3]; cbn.
  all: destruct rerr; [|destruct attempted]; split; reflexivity.
Qed.

(** ** Numbers in the path *)

(** X8. EndMaintenance and AcknowledgeRecovery check the number they parse
    from the path: for an authorized request whose [maintenanceKey], or
    [recoveryId], is not a number of the 64-bit integers, the handler calls
    nothing and replies the [ERROR] envelope with the message of
    [ParseInt]. *)
Theorem X8_unparsable_ids_are_refused
  {env : HttpEnv} (params : Params) (req : Request) (user : User)
  (B : Backend) (w : World B) :
  isAuthorizedForAction req user = true ->
  (forall n e,
      strconv.ParseInt (param params "maintenanceKey") = (n, Some e) ->
      run B (HttpAPI.EndMaintenance params req user) w
      = (Replied (error_reply (strconv.Error Quote e)), [], w))
  /\ (forall n e,
         strconv.ParseInt (param params "recoveryId") = (n, Some e) ->
         run B (HttpAPI.AcknowledgeRecovery params req user) w
         = (Replied (error_reply (strconv.Error Quote e)), [], w))
  /\ (forall n,
         strconv.ParseInt (param params "maintenanceKey") = (n, None) ->
         call_of <$> (run B (HttpAPI.EndMaintenance params req user) w).1.2
         = [inst_EndMaintenance n]).
Proof.
  intros Hauth. split; [|split].
  - intros n e Hp. unfold HttpAPI.EndMaintenance. rewrite Hauth, Hp. reflexivity.
  - intros n e Hp. unfold HttpAPI.AcknowledgeRecovery. rewrite Hauth, Hp. reflexivity.
  - intros n Hp. unfold HttpAPI.EndMaintenance. rewrite Hauth, Hp. cbn.
    destruct (perform B _ w) as [merr w1]. cbn. destruct merr; reflexivity.
Qed.

(** ** Binlog coordinates *)

(** X9. [getBinlogCoordinates] keeps the log file it is given and the
    number [ParseInt] read as the position; it returns an error exactly
    when [ParseInt] does, and the error names the text of the position.
    MasterEquivalent, for an authorized request whose key parses, replies
    that error without a call for the equivalent coordinates. *)
Theorem X9_binlog_coordinates_need_a_numeric_position
  {env : HttpEnv} (logFile logPos : string) :
  inst.LogFile (HttpAPI.getBinlogCoordinates logFile logPos).1 = logFile
  /\ inst.LogPos (HttpAPI.getBinlogCoordinates logFile logPos).1
     = (strconv.ParseInt logPos).1
  /\ (HttpAPI.getBinlogCoordinates logFile logPos).2
     = (if HttpAPI.not_nil (strconv.ParseInt logPos).2
        then Some ("Invalid logPos: " +:+ logPos) else None)
  /\ forall (params : Params) (req : Request) (user : User) (B : Backend)
            (w : World B) (k : inst.InstanceKey) (w1 : World B),
      isAuthorizedForAction req user = true ->
      param params "logFile" = logFile ->
      param params "logPos" = logPos ->
      perform B (inst_NewInstanceKeyFromStrings (param params "host")
                                                (param params "port")) w
      = ((Some k, None), w1) ->
      match (strconv.ParseInt logPos).2 with
      | Some _ =>
          run B (HttpAPI.MasterEquivalent params req user) w
          = (Replied (error_reply ("Invalid logPos: " +:+ logPos)),
             [event (inst_NewInstanceKeyFromStrings (param params "host")
                                                    (param params "port"))
                    (Some k, None)],
             w1)
      | None =>
          call_of <$> (run B (HttpAPI.MasterEquivalent params req user) w).1.2
          = [inst_NewInstanceKeyFromStrings (param params "host") (param params "port");
             inst_GetEquivalentMasterCoordinates
               {| inst.CoordinatesKey := k;
                  inst.Coordinates :=
                    {| inst.LogFile := logFile;
                       inst.LogPos := (strconv.ParseInt logPos).1 |} |}]
      end.
Proof.
  unfold HttpAPI.getBinlogCoordinates.
  split; [|split; [|split]].
  - destruct (strconv.ParseInt logPos) as [pos [e|]]; reflexivity.
  - destruct (strconv.ParseInt logPos) as [pos [e|]]; reflexivity.
  - destruct (strconv.ParseInt logPos) as [pos [e|]]; reflexivity.
  - intros params req user B w k w1 Hauth Hf Hp Hk.
    unfold HttpAPI.MasterEquivalent, HttpAPI.getInstanceKey,
      HttpAPI.getBinlogCoordinates.
    rewrite Hauth, Hf, Hp. cbn. rewrite Hk. cbn.
    destruct (strconv.ParseInt logPos) as [pos [e|]]; cbn; [reflexivity|].
    destruct (perform B _ w1) as [[l gerr] w2]. cbn. destruct gerr; reflexivity.
Qed.

(** ** Connections *)

Lemma run_balanced {R : Type} (B : Backend) (p : Prog R) : forall n,
  Balanced n p ->
  forall w : World B,
    (n + length (List.filter opens (run B p w).1.2)
     = length (List.filter closes (run B p w).1.2))%nat.
Proof.
  induction p as [r0| |c k IH]; intros n Hp w; cbn [run Balanced] in *.
  - cbn. lia.
  - cbn. lia.
  - destruct (perform B c w) as [a w1]. specialize (Hp a).
    pose proof (fun m H => IH a m H w1) as IH1. clear IH.
    destruct (run B (k a) w1) as [[o ev] w2].
    cbn [fst snd List.filter] in *.
    destruct (opens (event c a)) eqn:Ho.
    + assert (Hc : closes (event c a) = false).
      { destruct c; try reflexivity; discriminate. }
      rewrite Hc. specialize (IH1 _ Hp). cbn [length]. lia.
    + destruct (closes (event c a)) eqn:Hc.
      * destruct n as [|n]; [destruct Hp|]. specialize (IH1 _ Hp). cbn [length]. lia.
      * apply IH1, Hp.
Qed.

Lemma every_route_balanced {env : HttpEnv} (Config : config.Configuration) pattern h :
  (pattern, h) ∈ HttpAPI.RegisterRequests Config ->
  forall params req user, Balanced 0 (HttpAPI.invoke h params req user).
Proof.
  intros Hin.
  each_route Hin
    ltac:(intros params req user; cbn [HttpAPI.invoke];
          autounfold with handlers; sweep_handler).
Qed.

(** X10. No request leaks a connection: in every run of every registered
    route, whatever the core answers and whether the handler replies or
    panics, the connections that [net.Dial] opened are as many as the
    [Close] calls; only the resolve route dials, and it closes the
    connection right after the dial. *)
Theorem X10_every_opened_connection_is_closed
  {env : HttpEnv} (Config : config.Configuration) pattern h :
  (pattern, h) ∈ HttpAPI.RegisterRequests Config ->
  forall params req user (B : Backend) (w : World B),
    length (List.filter opens (run B (HttpAPI.invoke h params req user) w).1.2)
    = length (List.filter closes (run B (HttpAPI.invoke h params req user) w).1.2).
Proof.
  intros Hin params req user B w.
  apply (run_balanced B _ 0%nat), (every_route_balanced Config pattern h Hin).
Qed.

(** ** Nil keys *)

Lemma run_nil_key {R : Type} (B : Backend) (p : Prog R) :
  NilKeyPanics p ->
  forall (w : World B) l1 e l2,
    (run B p w).1.2 = (l1 ++ e :: l2)%list ->
    nil_key e = true ->
    l2 = [] /\ (run B p w).1.1 = Panicked.
Proof.
  induction p as [r0| |c k IH]; intros Hp w l1 e l2 Hev He;
    cbn [run NilKeyPanics] in *.
  - destruct l1; discriminate.
  - destruct l1; discriminate.
  - destruct (perform B c w) as [a w1]. specialize (Hp a).
    pose proof (fun H => IH a H w1) as IH1. clear IH.
    destruct (nil_key (event c a)) eqn:Hn.
    + rewrite Hp in *. cbn [run fst snd] in *.
      destruct l1 as [|e1 [|e2 l1]]; try discriminate.
      injection Hev as <- <-. auto.
    + destruct (run B (k a) w1) as [[o ev] w2]. cbn [fst snd] in *.
      destruct l1 as [|e1 l1].
      * injection Hev as <- <-. congruence.
      * injection Hev as <- ->. eapply (IH1 Hp); eauto.
Qed.

Lemma every_route_nil_key {env : HttpEnv} (Config : config.Configuration) pattern h :
  (pattern, h) ∈ HttpAPI.RegisterRequests Config ->
  forall params req user, NilKeyPanics (HttpAPI.invoke h params req user).
Proof.
  intros Hin.
  each_route Hin
    ltac:(intros params req user; cbn [HttpAPI.invoke];
          autounfold with handlers; sweep_handler).
Qed.

(** X11. Every handler that asks for an instance key reads through the
    pointer it gets before it looks at the error: in every run of every
    registered route, a [NewInstanceKeyFromStrings] that returns a nil key
    is the last call of the request, and the handler panics instead of
    replying. *)
Theorem X11_a_nil_instance_key_panics
  {env : HttpEnv} (Config : config.Configuration) pattern h :
  (pattern, h) ∈ HttpAPI.RegisterRequests Config ->
  forall params req user (B : Backend) (w : World B) l1 e l2,
    (run B (HttpAPI.invoke h params req user) w).1.2 = (l1 ++ e :: l2)%list ->
    nil_key e = true ->
    l2 = [] /\ (run B (HttpAPI.invoke h params req user) w).1.1 = Panicked.
Proof.
  intros Hin params req user B w.
  apply run_nil_key, (every_route_nil_key Config pattern h Hin).
Qed.

(** ** The route table *)

Lemma bind_segments_overlapping p : forall q segs acc1 acc2 params1 params2,
  martini.bind_segments p segs acc1 = Some params1 ->
  martini.bind_segments q segs acc2 = Some params2 ->
  overlapping p q = true.
Proof.
  induction p as [|x p IH]; intros q segs acc1 acc2 params1 params2 Hp Hq.
  - destruct segs as [|v [|v' segs]]; simpl in Hp; try destruct v; try discriminate.
    + destruct q as [|[s|n] q]; simpl in Hq; [reflexivity|discriminate..].
    + destruct q as [|[s|n] q]; simpl in Hq; [reflexivity| |discriminate].
      destruct (String.eqb s "") eqn:Hs; [|discriminate].
      destruct q as [|[s'|n'] q]; simpl in Hq; try discriminate.
      simpl. exact Hs.
  - destruct segs as [|v segs]; [destruct x; discriminate|].
    destruct q as [|y q].
    + simpl in Hq. destruct v; [|discriminate].
      destruct segs; [|discriminate].
      destruct x as [s|n]; simpl in Hp.
      * destruct (String.eqb s "") eqn:Hs; [|discriminate].
        destruct p as [|[s'|n'] p]; simpl in Hp; try discriminate.
        simpl. exact Hs.
      * discriminate.
    + assert (Hrest : overlapping p q = true).
      { destruct x as [s|n]; destruct y as [t|m]; simpl in Hp, Hq.
        - destruct (String.eqb s v); [|discriminate].
          destruct (String.eqb t v); [|discriminate]. eauto.
        - destruct (String.eqb s v); [|discriminate].
          destruct (negb _ && _); [|discriminate]. eauto.
        - destruct (negb _ && _); [|discriminate].
          destruct (String.eqb t v); [|discriminate]. eauto.
        - destruct (negb _ && _); [|discriminate]. eauto. }
      destruct x as [s|n]; destruct y as [t|m]; simpl in Hp, Hq |- *.
      * destruct (String.eqb s v) eqn:Hs; [|discriminate].
        destruct (String.eqb t v) eqn:Ht; [|discriminate].
        apply String.eqb_eq in Hs, Ht. subst. rewrite String.eqb_refl.
        destruct p, q; simpl; auto.
      * destruct p; exact Hrest.
      * exact Hrest.
      * exact Hrest.
Qed.

Lemma match_route_overlap p q path params1 params2 :
  martini.match_route p path = Some params1 ->
  martini.match_route q path = Some params2 ->
  patterns_overlap p q = true.
Proof.
  unfold martini.match_route, patterns_overlap.
  destruct (martini.segments p); [|discriminate].
  destruct (martini.segments q); [|discriminate].
  destruct (martini.segments path); [|discriminate].
  apply bind_segments_overlapping.
Qed.

Lemma fixed_routes_distinct {env : HttpEnv} (Config : config.Configuration) p q :
  p ∈ (fixed_routes Config).*1 -> q ∈ (fixed_routes Config).*1 ->
  patterns_overlap p q = true -> p = q.
Proof.
  intros Hp Hq Ho.
  assert (Hall : forallb (fun a => forallb (fun b => String.eqb a b
                                                    || negb (patterns_overlap a b))
                                          (fixed_routes Config).*1)
                         (fixed_routes Config).*1 = true).
  { vm_compute. reflexivity. }
  rewrite forallb_forall in Hall.
  specialize (Hall p (proj1 (list_elem_of_In _ _) Hp)).
  rewrite forallb_forall in Hall.
  specialize (Hall q (proj1 (list_elem_of_In _ _) Hq)).
  rewrite Ho in Hall. simpl in Hall. rewrite orb_false_r in Hall.
  apply String.eqb_eq. exact Hall.
Qed.

Lemma fixed_routes_NoDup {env : HttpEnv} (Config : config.Configuration) :
  NoDup (fixed_routes Config).*1.
Proof.
  apply (bool_decide_unpack _). vm_compute. reflexivity.
Qed.

Lemma NoDup_fst_unique {A B : Type} (l : list (A * B)) k a b :
  NoDup l.*1 -> (k, a) ∈ l -> (k, b) ∈ l -> a = b.
Proof.
  induction l as [|[k0 v0] l IH]; intros Hnd Ha Hb.
  - apply elem_of_nil in Ha. destruct Ha.
  - rewrite fmap_cons in Hnd. apply NoDup_cons in Hnd as [Hk Hnd]. cbn in Hk.
    apply elem_of_cons in Ha as [Ha|Ha]; apply elem_of_cons in Hb as [Hb|Hb].
    + congruence.
    + injection Ha as -> ->. exfalso. apply Hk.
      apply list_elem_of_fmap. exists (k0, b). auto.
    + injection Hb as -> ->. exfalso. apply Hk.
      apply list_elem_of_fmap. exists (k0, a). auto.
    + auto.
Qed.

Lemma route_some {H : Type} (routes : list (string * H)) path pattern h params :
  (pattern, h) ∈ routes ->
  martini.match_route pattern path = Some params ->
  exists found, martini.route routes path = Some found.
Proof.
  induction routes as [|[p0 h0] routes IH]; intros Hin Hm.
  - apply elem_of_nil in Hin. destruct Hin.
  - simpl. destruct (martini.match_route p0 path) eqn:H0; [eauto|].
    apply elem_of_cons in Hin as [Hin|Hin]; [|auto].
    injection Hin as -> ->. congruence.
Qed.

Lemma matched_route_is_fixed {env : HttpEnv} (Config : config.Configuration)
  pattern h path params :
  (pattern, h) ∈ HttpAPI.RegisterRequests Config ->
  martini.match_route pattern path = Some params ->
  martini.match_route (config.StatusEndpoint Config) path = None ->
  (pattern, h) ∈ fixed_routes Config.
Proof.
  intros Hin Hm Hs.
  change (HttpAPI.RegisterRequests Config)
    with (fixed_routes Config
          ++ [(config.StatusEndpoint Config, HttpAPI.WithoutUser HttpAPI.StatusCheck)])%list
    in Hin.
  apply elem_of_app in Hin as [Hin|Hin]; [assumption|].
  apply elem_of_cons in Hin as [Hin|Hin]; [|apply elem_of_nil in Hin; destruct Hin].
  injection Hin as -> ->. congruence.
Qed.

(** X12. No route shadows another: as long as the configured status
    endpoint does not match the path, a path that matches the pattern of a
    registered route is served by the handler of that route, with the
    parameters of that match, wherever the route stands in the table. *)
Theorem X12_a_matching_route_is_the_one_served
  {env : HttpEnv} (Config : config.Configuration)
  (path pattern : string) (h : HttpAPI.Handler) (params : Params) :
  martini.match_route (config.StatusEndpoint Config) path = None ->
  (pattern, h) ∈ HttpAPI.RegisterRequests Config ->
  martini.match_route pattern path = Some params ->
  martini.route (HttpAPI.RegisterRequests Config) path = Some (pattern, h, params).
Proof.
  intros Hs Hin Hm.
  destruct (route_some _ _ _ _ _ Hin Hm) as [[[p' h'] params'] Hr].
  rewrite Hr.
  destruct (route_first _ _ _ _ _ Hr) as [_ Hm'].
  pose proof (route_elem_of _ _ _ _ _ Hr) as Hin'.
  pose proof (matched_route_is_fixed Config _ _ _ _ Hin Hm Hs) as Hf.
  pose proof (matched_route_is_fixed Config _ _ _ _ Hin' Hm' Hs) as Hf'.
  assert (p' = pattern) as ->.
  { apply (fixed_routes_distinct Config).
    - apply list_elem_of_fmap. exists (p', h'). auto.
    - apply list_elem_of_fmap. exists (pattern, h). auto.
    - eapply match_route_overlap; eassumption. }
  assert (h' = h) as ->
    by (eapply NoDup_fst_unique; eauto using fixed_routes_NoDup).
  congruence.
Qed.

(** ** Health and status checks *)

(** X13. Health and StatusCheck report the health test alike and differ
    in the status code of a failure only: Health always replies with the
    status 200; StatusCheck runs the simple test or the full one as the
    configuration says, and, on a backend where the two handlers get the
    same answer from the test, replies the same envelope as Health, with
    the status 500 exactly when the test returned an error. *)
Theorem X13_status_check_is_health_with_a_failure_status
  {env : HttpEnv} (params : Params) (req : Request) (B : Backend) (w : World B) :
  let Config := (perform B config_Config w).1 in
  let w1 := (perform B config_Config w).2 in
  let test := if config.StatusSimpleHealth Config then process_SimpleHealthTest
              else process_HealthTest in
  let status := run B (HttpAPI.StatusCheck params req) w in
  let health := run B (HttpAPI.Health params req) w1 in
  call_of <$> status.1.2 = [config_Config; test]
  /\ call_of <$> health.1.2 = [process_HealthTest]
  /\ (exists r, health.1.1 = Replied r /\ Status r = 200)
  /\ (exists r, status.1.1 = Replied r
                /\ (Status r = 500 /\ is_error_reply r
                    \/ Status r = 200 /\ ~ is_error_reply r))
  /\ (config.StatusSimpleHealth Config = false ->
      forall r1 r2, health.1.1 = Replied r1 -> status.1.1 = Replied r2 ->
                    Payload r1 = Payload r2).
Proof.
  intros Config w1 test status health.
  subst status health test w1 Config.
  unfold HttpAPI.StatusCheck, HttpAPI.Health. cbn.
  destruct (perform B config_Config w) as [Config w1]. cbn.
  destruct (config.StatusSimpleHealth Config); cbn.
  - destruct (perform B process_SimpleHealthTest w1) as [[h1 e1] w2]. cbn.
    destruct (perform B process_HealthTest w1) as [[h2 e2] w3]. cbn.
    split; [destruct e1; reflexivity|]. split; [destruct e2; reflexivity|].
    split; [destruct e2; eexists; split; reflexivity|].
    split; [|discriminate].
    destruct e1; eexists; (split; [reflexivity|]); cbn;
      [left; split; reflexivity | right; split; [reflexivity|discriminate]].
  - destruct (perform B process_HealthTest w1) as [[h2 e2] w3]. cbn.
    split; [destruct e2; reflexivity|]. split; [destruct e2; reflexivity|].
    split; [destruct e2; eexists; split; reflexivity|].
    split.
    + destruct e2; eexists; (split; [reflexivity|]); cbn;
        [left; split; reflexivity | right; split; [reflexivity|discriminate]].
    + intros _ r1 r2. destruct e2; cbn; intros [= <-] [= <-]; reflexivity.
Qed.

(** ** Clusters by alias and by instance *)

(** X14. The handlers that find the cluster by an alias answer as the
    handlers by name do for the cluster the alias resolves to, whatever
    [clusterName] the request carried; an alias that does not resolve is
    replied the error of the lookup, and the cluster is not read. *)
Theorem X14_cluster_by_alias_is_cluster_by_the_resolved_name
  {env : HttpEnv} (params : Params) (req : Request) (B : Backend) (w : World B) :
  let alias := inst_GetClusterByAlias (param params "clusterAlias") in
  let clusterName := (perform B alias w).1.1 in
  let w1 := (perform B alias w).2 in
  match (perform B alias w).1.2 with
  | Some e =>
      run B (HttpAPI.ClusterByAlias params req) w
      = (Replied (error_reply e), [event alias (clusterName, Some e)], w1)
      /\ run B (HttpAPI.ClusterInfoByAlias params req) w
         = (Replied (error_reply e), [event alias (clusterName, Some e)], w1)
  | None =>
      forall other : Params,
        param other "clusterName" = clusterName ->
        run B (HttpAPI.ClusterByAlias params req) w
        = (let '(o, events, w2) := run B (HttpAPI.Cluster other req) w1 in
           (o, event alias (clusterName, None) :: events, w2))
        /\ run B (HttpAPI.ClusterInfoByAlias params req) w
           = (let '(o, events, w2) := run B (HttpAPI.ClusterInfo other req) w1 in
              (o, event alias (clusterName, None) :: events, w2))
  end.
Proof.
  intros alias clusterName w1. subst w1 clusterName alias.
  unfold HttpAPI.ClusterByAlias, HttpAPI.ClusterInfoByAlias,
    HttpAPI.Cluster, HttpAPI.ClusterInfo. cbn.
  destruct (perform B _ w) as [[name [e|]] w1]; cbn; [split; reflexivity|].
  intros other Ho. unfold param in *. rewrite lookup_insert_eq, Ho. cbn.
  split; reflexivity.
Qed.

(** * Examples of the further properties *)

(** The discover route against a core that finds nothing replies an error
    with the status 200. *)
Lemma X1_failed_discover_has_status_200 :
  exists r : Response,
    (run (scripted example.unavailable)
         (HttpAPI.invoke (HttpAPI.WithUser (HttpAPI.Discover (env := example.env)))
            (example.host_port "db1" "3306") (example.request []) "operator") tt).1.1
    = Replied r
    /\ (Status r = 200
        \/ (HttpAPI.WithUser (HttpAPI.Discover (env := example.env))
            = HttpAPI.WithoutUser HttpAPI.StatusCheck
            /\ Status r = 500 /\ is_error_reply r)).
Proof.
  eexists. split; [reflexivity|].
  apply (X1_replies_have_status_200_but_for_status_check (env := example.env)
           example.Config "/api/discover/:host/:port"
           (HttpAPI.WithUser (HttpAPI.Discover (env := example.env)))
           ltac:(find_route)
           (example.host_port "db1" "3306") (example.request []) "operator"
           (scripted example.unavailable) tt).
  reflexivity.
Defined.

(** The reload of the configuration makes its two state-changing calls. *)
Lemma X2_reload_makes_two_state_changes :
  (length (List.filter (fun e => changes_state (call_of e))
             (run (scripted example.unavailable)
                  (HttpAPI.invoke
                     (HttpAPI.WithUser (HttpAPI.ReloadConfiguration (env := example.env)))
                     ∅ (example.request []) "operator") tt).1.2)
   <= 2)%nat
  /\ length (run (scripted example.unavailable)
                 (HttpAPI.invoke
                    (HttpAPI.WithUser (HttpAPI.ReloadConfiguration (env := example.env)))
                    ∅ (example.request []) "operator") tt).1.2
     = 2%nat.
Proof.
  split; [|reflexivity].
  exact (X2_at_most_one_state_change_per_request (env := example.env)
           example.Config "/api/reload-configuration"
           (HttpAPI.WithUser (HttpAPI.ReloadConfiguration (env := example.env)))
           ltac:(find_route)
           ∅ (example.request []) "operator" (scripted example.unavailable) tt).
Defined.

(** A discovery whose probe fails is replied an error. *)
Lemma X3_failed_discover_is_an_error :
  exists r : Response,
    (run (scripted example.unavailable)
         (HttpAPI.invoke (HttpAPI.WithUser (HttpAPI.Discover (env := example.env)))
            (example.host_port "db1" "3306") (example.request []) "operator") tt).1.1
    = Replied r
    /\ is_error_reply r.
Proof.
  eexists. split; [reflexivity|].
  refine (proj2 (X3_an_error_of_the_core_ends_the_request (env := example.env)
                   example.Config "/api/discover/:host/:port"
                   (HttpAPI.WithUser (HttpAPI.Discover (env := example.env)))
                   ltac:(find_route) _
                   (example.host_port "db1" "3306") (example.request []) "operator"
                   (scripted example.unavailable) tt
                   [event (inst_NewInstanceKeyFromStrings "db1" "3306")
                          (Some (example.key "db1"), None)]
                   (event (inst_ReadTopologyInstance (example.key "db1"))
                          (None, Some "unavailable"))
                   [] eq_refl eq_refl) _ eq_refl).
  unfold error_dropping_patterns. intros Hin.
  repeat (apply elem_of_cons in Hin as [Hin|Hin]; [discriminate Hin|]).
  apply elem_of_nil in Hin. destruct Hin.
Defined.

(** The agents route of a configuration that does not serve agents. *)
Lemma X4_agents_route_when_not_served :
  (run (scripted example.unavailable)
       (HttpAPI.Agents (env := example.env) ∅ (example.request []) "operator") tt).1.1
  = Replied (error_reply "Agents not served").
Proof.
  exact (f_equal (fun result => result.1.1)
           (X4_agents_not_served (env := example.env) HttpAPI.Agents
              ∅ (example.request []) "operator" (scripted example.unavailable) tt
              ltac:(left)
              eq_refl eq_refl)).
Defined.

(** A downtime of minus five seconds is refused. *)
Lemma X6_negative_downtime_is_refused :
  run (scripted example.unavailable)
      (HttpAPI.BeginDowntime (env := example.env)
         (<["duration" := "-5"]> (example.host_port "db1" "3306"))
         (example.request []) "operator") tt
  = (Replied (error_reply ("Duration value must be non-negative. Given value: "
                           +:+ fmt_d (-5))),
     [event (inst_NewInstanceKeyFromStrings "db1" "3306")
            (Some (example.key "db1"), None)],
     tt).
Proof.
  exact (proj1 (proj2
           (X6_downtime_duration_is_never_negative (env := example.env)
              (<["duration" := "-5"]> (example.host_port "db1" "3306"))
              (example.request []) "operator" (scripted example.unavailable) tt
              (example.key "db1") tt eq_refl eq_refl))
           ltac:(discriminate) eq_refl).
Defined.

(** A recovery of [db1] with the candidate [db2:x] goes on without a
    candidate. *)
Lemma X7_recovery_with_an_unparsable_candidate :
  call_of <$>
    (run (scripted example.unavailable)
         (HttpAPI.Recover (env := example.env)
            (<["candidatePort" := "x"]>
               (<["candidateHost" := "db2"]> (example.host_port "db1" "3306")))
            (example.request []) "operator") tt).1.2
  = [inst_NewInstanceKeyFromStrings "db1" "3306";
     inst_NewInstanceKeyFromStrings "db2" "x";
     logic_CheckAndRecover (example.key "db1") None false].
Proof.
  exact (proj1
           (X7_recover_ignores_an_unparsable_candidate (env := example.env)
              (<["candidatePort" := "x"]>
                 (<["candidateHost" := "db2"]> (example.host_port "db1" "3306")))
              (example.request []) "operator" (scripted example.unavailable) tt
              (example.key "db1") {| inst.Hostname := "db2"; inst.Port := 0 |}
              (Some "Invalid port: x") tt tt eq_refl eq_refl eq_refl)).
Defined.

(** The end of the maintenance [abc] is refused without a call. *)
Lemma X8_end_of_maintenance_abc_is_refused :
  exists e : strconv.NumError,
    run (scripted example.unavailable)
        (HttpAPI.EndMaintenance (env := example.env)
           (<["maintenanceKey" := "abc"]> ∅) (example.request []) "operator") tt
    = (Replied (error_reply (strconv.Error json_Marshal_plain e)), [], tt).
Proof.
  eexists.
  apply (proj1 (X8_unparsable_ids_are_refused (env := example.env)
                  (<["maintenanceKey" := "abc"]> ∅) (example.request []) "operator"
                  (scripted example.unavailable) tt eq_refl) 0).
  reflexivity.
Defined.

(** The resolve route opens one connection and closes it. *)
Lemma X10_resolve_closes_its_connection :
  length (List.filter opens
            (run (scripted example.unavailable)
                 (HttpAPI.invoke (HttpAPI.WithoutUser (HttpAPI.Resolve (env := example.env)))
                    (example.host_port "db1" "3306") (example.request []) "operator")
                 tt).1.2)
  = length (List.filter closes
              (run (scripted example.unavailable)
                   (HttpAPI.invoke
                      (HttpAPI.WithoutUser (HttpAPI.Resolve (env := example.env)))
                      (example.host_port "db1" "3306") (example.request []) "operator")
                   tt).1.2)
  /\ length (List.filter closes
               (run (scripted example.unavailable)
                    (HttpAPI.invoke
                       (HttpAPI.WithoutUser (HttpAPI.Resolve (env := example.env)))
                       (example.host_port "db1" "3306") (example.request []) "operator")
                    tt).1.2)
     = 1%nat.
Proof.
  split; [|reflexivity].
  exact (X10_every_opened_connection_is_closed (env := example.env)
           example.Config "/api/resolve/:host/:port"
           (HttpAPI.WithoutUser (HttpAPI.Resolve (env := example.env)))
           ltac:(find_route)
           (example.host_port "db1" "3306") (example.request []) "operator"
           (scripted example.unavailable) tt).
Defined.

(** A discovery against a core that returns a nil key panics. *)
Lemma X11_discover_with_a_nil_key_panics :
  (run (scripted zero_answer)
       (HttpAPI.invoke (HttpAPI.WithUser (HttpAPI.Discover (env := example.env)))
          (example.host_port "db1" "3306") (example.request []) "operator") tt).1.1
  = Panicked.
Proof.
  exact (proj2 (X11_a_nil_instance_key_panics (env := example.env)
                  example.Config "/api/discover/:host/:port"
                  (HttpAPI.WithUser (HttpAPI.Discover (env := example.env)))
                  ltac:(find_route)
                  (example.host_port "db1" "3306") (example.request []) "operator"
                  (scripted zero_answer) tt
                  [] (event (inst_NewInstanceKeyFromStrings "db1" "3306") (None, None))
                  [] eq_refl eq_refl)).
Defined.

(** The path of a discovery is served by [Discover], which stands fourth in
    the table. *)
Lemma X12_discover_path_is_served_by_discover :
  martini.route (HttpAPI.RegisterRequests (env := example.env) example.Config)
    "/api/discover/db1/3306"
  = Some ("/api/discover/:host/:port",
          HttpAPI.WithUser (HttpAPI.Discover (env := example.env)),
          example.host_port "db1" "3306").
Proof.
  apply (X12_a_matching_route_is_the_one_served (env := example.env) example.Config).
  - vm_compute. reflexivity.
  - find_route.
  - vm_compute. reflexivity.
Defined.

(** * The engine *)

Import inst logic engine.

(** ** Recovery exclusivity (C7) *)

Lemma filter_length_fmap {A : Type} (P Q : A -> bool) (f : A -> A) (l : list A) :
  (forall x, P (f x) = true -> Q x = true) ->
  (length (List.filter P (f <$> l)) <= length (List.filter Q l))%nat.
Proof.
  intros H. induction l as [|x l IH]; cbn; [lia|].
  destruct (P (f x)) eqn:HP.
  - rewrite (H _ HP). cbn in *. lia.
  - destruct (Q x); cbn in *; lia.
Qed.

(** Rewriting the rows without activating any keeps exclusivity. *)
Lemma exclusive_fmap st f :
  exclusive st ->
  (forall clusterName r,
      is_active clusterName (f r) = true -> is_active clusterName r = true) ->
  exclusive (with_recoveries st (f <$> recoveries st)).
Proof.
  intros Hex Hf clusterName. unfold ReadActiveClusterRecovery. cbn.
  etransitivity; [apply (filter_length_fmap _ (is_active clusterName)), Hf|].
  apply Hex.
Qed.

(** Every operation preserves exclusivity. *)
Lemma step_exclusive st st' : step st st' -> exclusive st -> exclusive st'.
Proof.
  intros Hstep Hex. destruct Hstep as [st entry r st' Hopen| | | |].
  - unfold open_recovery in Hopen.
    destruct (existsb _ _) eqn:Hno; [discriminate|].
    injection Hopen as <- <-. intros clusterName.
    unfold ReadActiveClusterRecovery. cbn.
    rewrite List.filter_app, length_app. cbn.
    destruct (String.eqb (AnalysisClusterName entry) clusterName) eqn:Hc; cbn.
    + apply String.eqb_eq in Hc. subst clusterName.
      assert (Hnone : List.filter (is_active (AnalysisClusterName entry))
                                  (recoveries st) = []).
      { clear Hex. induction (recoveries st) as [|x l IH]; [reflexivity|].
        simpl in Hno. apply orb_false_elim in Hno as [Hx Hl].
        simpl. rewrite Hx. auto. }
      rewrite Hnone. simpl. lia.
    + specialize (Hex clusterName). unfold ReadActiveClusterRecovery in Hex. lia.
  - apply exclusive_fmap; [assumption|].
    intros clusterName r. destruct (Id r =? id); [discriminate|auto].
  - apply exclusive_fmap; [assumption|].
    intros clusterName r. destruct (_ && _); [discriminate|auto].
  - unfold acknowledge. cbn [snd]. apply exclusive_fmap; [assumption|].
    intros clusterName r. destruct (_ && _); auto.
  - exact Hex.
Qed.

Lemma reachable_exclusive st : reachable_store st -> exclusive st.
Proof.
  unfold reachable_store. intros H.
  apply rtc_ind_r with (x := empty_store) (P := exclusive) in H; auto.
  - intros clusterName. cbn. lia.
  - intros y z _ Hs Hy. eapply step_exclusive; eauto.
Qed.

(** C7. In every store the system can reach from the empty one by opening,
    closing, expiring and acknowledging recoveries and by changing the
    instance rows, every cluster has at most one recovery row with
    [EndRecovery = NULL].  The ActiveClusterRecovery endpoint shows it: it
    replies the rows the core read for the cluster, which are at most one,
    each of them active and of that cluster, and leaves the store as it
    was. *)
Theorem C7_at_most_one_active_recovery_per_cluster
  {env : HttpEnv} (translate : Translation) (st : Store) :
  reachable_store st ->
  exclusive st
  /\ forall (params : Params) (req : Request),
      exists l : list TopologyRecovery,
        run (backend translate) (HttpAPI.ActiveClusterRecovery params req) st
        = (Replied {| Status := 200; Payload := Result (Recoveries l) |},
           [event (logic_ReadActiveClusterRecovery (param params "clusterName")) (l, None)],
           st)
        /\ l = ReadActiveClusterRecovery st (param params "clusterName")
        /\ (length l <= 1)%nat
        /\ Forall (fun r => EndRecovery r = None
                            /\ AnalysisClusterName (AnalysisEntrySnapshot r)
                               = param params "clusterName") l.
Proof.
  intros Hr. pose proof (reachable_exclusive st Hr) as Hex.
  split; [assumption|].
  intros params req. eexists. split; [reflexivity|]. split; [reflexivity|].
  split; [apply Hex|].
  unfold ReadActiveClusterRecovery.
  apply Forall_forall. intros r Hin.
  apply list_elem_of_In, filter_In in Hin as [_ Hin].
  unfold is_active in Hin. apply andb_true_iff in Hin as [H1 H2].
  apply String.eqb_eq in H2. split; [|assumption].
  destruct (EndRecovery r); [discriminate|reflexivity].
Qed.

(** The store of the dead-primary scenario, with the recovery of cluster
    [main] open, is reachable, so it is exclusive; a second attempt to open
    a recovery of the cluster is refused. *)
Lemma C7_one_recovery_of_the_dead_primary :
  exclusive example.recovering
  /\ length (ReadActiveClusterRecovery example.recovering "main") = 1%nat
  /\ open_recovery example.recovering example.dead_primary = inl LockContended.
Proof.
  split; [|split; vm_compute; reflexivity].
  refine (proj1 (C7_at_most_one_active_recovery_per_cluster (env := example.env)
                   example.translate example.recovering _)).
  unfold reachable_store.
  apply rtc_l with (with_instances empty_store (instances example.topology));
    [apply step_topology|].
  apply rtc_once.
  apply (step_open _ example.dead_primary
           (default (end_recovery 0 None false
                       {| Id := 0; AnalysisEntrySnapshot := example.dead_primary;
                          StartActive := 0; EndRecovery := None;
                          SuccessorKey := None; IsSuccessful := false;
                          Acknowledged := false; AckBy := ""; AckComment := "" |})
                    (head (recoveries example.recovering)))).
  vm_compute. reflexivity.
Defined.

(** ** Relocation (C2) *)

(** What a successful relocation did to the store. *)
Lemma relocate_post (translate : Translation) st source target refreshed st' :
  relocate translate st source target = inr (refreshed, st') ->
  exists s t,
    reachable_instance st source = Some s
    /\ reachable_instance st target = Some t
    /\ target <> source
    /\ instances st' = <[source := refreshed]> (instances st)
    /\ UpstreamKey refreshed = Key t
    /\ Key refreshed = Key s.
Proof.
  unfold relocate.
  destruct (reachable_instance st source) as [s|] eqn:Hs; [|discriminate].
  destruct (reachable_instance st target) as [t|] eqn:Ht; [|discriminate].
  case_bool_decide as Hne; [discriminate|].
  destruct (descends_from _ _ _ _); [discriminate|].
  destruct (negb _); [discriminate|].
  destruct (select_method st s t) as [m|]; [|discriminate].
  destruct (translate m st s t) as [e|coordinates]; [discriminate|].
  cbn. rewrite lookup_insert_eq. intros [= <- <-].
  exists s, t. repeat split; auto.
Qed.

(** C2. For every successful [RelocateBelow] of [source] below [target],
    which returns the refreshed instance and no error: in the store after
    the operation the row of [source] is the returned instance, it is
    still the instance of [source], its upstream key is the key of the
    target instance, and [source] is reachable via replication from the
    target.  The RelocateBelow endpoint, for an authorized request whose
    parameters give the two keys, surfaces the returned instance as the
    [Details] of the [OK] envelope. *)
Theorem C2_relocate_below_reparents_the_source
  {env : HttpEnv} (translate : Translation) (st : Store)
  (source target : InstanceKey) (refreshed : Instance) (st' : Store) :
  RelocateBelow translate st source target = (Some refreshed, None, st') ->
  (exists s t,
      reachable_instance st source = Some s
      /\ reachable_instance st target = Some t
      /\ instances st' !! source = Some refreshed
      /\ Key refreshed = Key s
      /\ UpstreamKey refreshed = Key t
      /\ reachable_via_replication (instances st') (Key t) source)
  /\ forall (params : Params) (req : Request) (user : User),
      isAuthorizedForAction req user = true ->
      NewInstanceKeyFromStrings (param params "host") (param params "port")
      = (Some source, None) ->
      NewInstanceKeyFromStrings (param params "belowHost") (param params "belowPort")
      = (Some target, None) ->
      exists message events,
        run (backend translate) (HttpAPI.RelocateBelow params req user) st
        = (Replied {| Status := 200;
                      Payload := Envelope {| Code := OK; Message := message;
                                             Details := InstancePtr (Some refreshed) |} |},
           events, st')
        /\ call_of <$> events
           = [inst_NewInstanceKeyFromStrings (param params "host") (param params "port");
              inst_NewInstanceKeyFromStrings (param params "belowHost")
                                             (param params "belowPort");
              inst_RelocateBelow source target].
Proof.
  intros H. split.
  - unfold RelocateBelow in H.
    destruct (relocate translate st source target) as [e|[r st1]] eqn:Hr; [discriminate|].
    injection H as -> ->.
    apply relocate_post in Hr as (s & t & Hs & Ht & Hne & Hi & Hu & Hk).
    exists s, t. repeat split; auto.
    + rewrite Hi. apply lookup_insert_eq.
    + apply tc_once. exists refreshed. split; [|assumption].
      rewrite Hi. apply lookup_insert_eq.
  - intros params req user Hauth Hs Ht.
    unfold HttpAPI.RelocateBelow, HttpAPI.getInstanceKey. rewrite Hauth.
    cbn. rewrite Hs. cbn. rewrite Ht. cbn. rewrite H. cbn.
    eexists _, _. split; reflexivity.
Qed.

(** In the dead-primary scenario, [db3] moved below its sibling [db2]
    replicates from [db2]. *)
Lemma C2_db3_relocated_below_db2 :
  instances example.relocated.2 !! example.key "db3" = Some example.relocated_instance
  /\ UpstreamKey example.relocated_instance = example.key "db2"
  /\ reachable_via_replication (instances example.relocated.2)
       (example.key "db2") (example.key "db3").
Proof.
  destruct (proj1 (C2_relocate_below_reparents_the_source (env := example.env)
                     example.translate example.topology
                     (example.key "db3") (example.key "db2")
                     example.relocated_instance example.relocated.2
                     ltac:(vm_compute; reflexivity)))
    as (s & t & Hs & Ht & Hrow & Hkey & Hup & Hreach).
  assert (Ht' : t = example.replica "db2" "db1" 2 100 prefer true).
  { vm_compute in Ht. injection Ht as <-. vm_compute. reflexivity. }
  subst t. auto.
Defined.

(** ** The partition of a regroup (C6) *)










